(** * DSS template processing: a shallow embedding of [utils.py]

    The development follows the source file function by function:
    [find_column], [safe_get_value], [safe_load_sheet] and
    [process_template].  The Python and pandas primitives the source
    relies on ([str.lower], [str.strip], [str.replace], [str.count],
    [re.search] on the two band patterns, [sorted], data-frame row
    selection and [sort_values]) are modelled first.

    Modelling conventions.
    - Text is ASCII: [str.lower] and [str.strip] act on the ASCII
      letters and the ASCII white space only.
    - A spreadsheet cell is a tagged value: null (NaN/None), boolean,
      integer, float with an integral value (such as [100.0]) or string.
      Floats with a fractional part are outside the model.
    - The headers of a table are distinct, as [read_excel] delivers them,
      and each is text or an integer, which has no [lower]; a row shorter
      than the header reads as null in the missing cells.
    - [int(float(x))] goes through the double nearest to [x], ties to
      even, as [float] does.
    - [sort_values] and [sorted] keep rows of equal key in their original
      order.
    - A Python exception is a value of [exc]; code that may raise returns
      a [result].  The [log] callback has no effect on the results and is
      left out. *)

From Stdlib Require Import String Ascii List ZArith Lia Bool Arith PeanoNat.
From Stdlib Require Import Permutation Sorted.
Import ListNotations.
Open Scope string_scope.

Set Implicit Arguments.

(** ** Exceptions and results *)

Inductive exc : Type :=
| ValueError
| TypeError
| IndexError
| OverflowError
| OSError
| AttributeError
| KeyError (key : string)
| Exception (msg : string).

Inductive result (A : Type) : Type :=
| Ok (a : A)
| Raise (e : exc).

Arguments Ok {A} a.
Arguments Raise {A} e.

Definition rbind {A B} (r : result A) (k : A -> result B) : result B :=
  match r with
  | Ok a => k a
  | Raise e => Raise e
  end.

(** The text of an exception inside a warning; apart from the index error of
    [iloc], the attribute error of [lower] on an integer header and a
    message given explicitly, the class name stands for it. *)
Definition exc_str (e : exc) : string :=
  match e with
  | ValueError => "ValueError"
  | TypeError => "TypeError"
  | IndexError => "single positional indexer is out-of-bounds"
  | OverflowError => "OverflowError"
  | OSError => "OSError"
  | AttributeError => "'int' object has no attribute 'lower'"
  | KeyError k => k
  | Exception m => m
  end.

(** ** Python strings *)

Module PyStr.

Definition is_upper (c : ascii) : bool :=
  let n := nat_of_ascii c in ((65 <=? n) && (n <=? 90))%nat.

Definition lower_char (c : ascii) : ascii :=
  if is_upper c then ascii_of_nat (nat_of_ascii c + 32) else c.

(** [s.lower()] *)
Fixpoint lower (s : string) : string :=
  match s with
  | EmptyString => EmptyString
  | String c s' => String (lower_char c) (lower s')
  end.

(** White space in the sense of [str.isspace], ASCII range. *)
Definition is_space (c : ascii) : bool :=
  let n := nat_of_ascii c in
  (((9 <=? n) && (n <=? 13)) || ((28 <=? n) && (n <=? 32)))%nat.

Fixpoint lstrip (s : string) : string :=
  match s with
  | EmptyString => EmptyString
  | String c s' => if is_space c then lstrip s' else s
  end.

Fixpoint rstrip (s : string) : string :=
  match s with
  | EmptyString => EmptyString
  | String c s' =>
      match rstrip s' with
      | EmptyString => if is_space c then EmptyString else String c EmptyString
      | r => String c r
      end
  end.

(** [s.strip()] *)
Definition strip (s : string) : string := rstrip (lstrip s).

(** [sub in s] for a non-empty [sub]; always true for the empty one. *)
Fixpoint occurs (sub s : string) : bool :=
  prefix sub s ||
  match s with
  | EmptyString => false
  | String _ s' => occurs sub s'
  end.

(** The left-to-right scan shared by [count] and [replace]: [skip] is the
    number of characters of the current match still to be consumed. *)
Fixpoint count_from (sub : string) (skip : nat) (s : string) : nat :=
  match s with
  | EmptyString => 0
  | String _ s' =>
      match skip with
      | S n => count_from sub n s'
      | O => if prefix sub s
             then S (count_from sub (String.length sub - 1) s')
             else count_from sub 0 s'
      end
  end.

(** [s.count(sub)]: non-overlapping occurrences; the empty string occurs
    between all characters and at both ends. *)
Definition count (s sub : string) : nat :=
  match sub with
  | EmptyString => S (String.length s)
  | _ => count_from sub 0 s
  end.

Fixpoint replace_from (old new : string) (skip : nat) (s : string) : string :=
  match s with
  | EmptyString => EmptyString
  | String c s' =>
      match skip with
      | S n => replace_from old new n s'
      | O => if prefix old s
             then new ++ replace_from old new (String.length old - 1) s'
             else String c (replace_from old new 0 s')
      end
  end.

Fixpoint interleave (new s : string) : string :=
  match s with
  | EmptyString => new
  | String c s' => new ++ String c (interleave new s')
  end.

(** [s.replace(old, new)] *)
Definition replace (s old new : string) : string :=
  match old with
  | EmptyString => interleave new s
  | _ => replace_from old new 0 s
  end.

Definition is_digit (c : ascii) : bool :=
  let n := nat_of_ascii c in ((48 <=? n) && (n <=? 57))%nat.

Definition digit_char (n : nat) : ascii := ascii_of_nat (48 + n).

(** Decimal digits of a natural number, most significant first. *)
Fixpoint digits_fuel (fuel n : nat) (acc : string) : string :=
  match fuel with
  | O => acc
  | S f =>
      let acc' := String (digit_char (n mod 10)) acc in
      if (n <? 10)%nat then acc' else digits_fuel f (n / 10) acc'
  end.

Definition str_of_nat (n : nat) : string := digits_fuel (S n) n EmptyString.

(** [str(z)] for a Python [int]. *)
Definition str_of_Z (z : Z) : string :=
  match z with
  | Z0 => "0"
  | Zpos _ => str_of_nat (Z.to_nat z)
  | Zneg _ => String "-" (str_of_nat (Z.to_nat (- z)))
  end.

Definition digit_val (c : ascii) : Z := Z.of_nat (nat_of_ascii c - 48).

(** Value of a non-empty run of decimal digits. *)
Fixpoint digits_val (acc : Z) (s : string) : option Z :=
  match s with
  | EmptyString => Some acc
  | String c s' =>
      if is_digit c then digits_val (acc * 10 + digit_val c) s' else None
  end.

Definition unsigned_val (s : string) : option Z :=
  match s with
  | EmptyString => None
  | _ => digits_val 0 s
  end.

(** Digit grouping: an underscore is accepted between two digits only; the
    result is the text without its underscores. *)
Fixpoint ungroup (after_digit : bool) (s : string) : option string :=
  match s with
  | EmptyString => Some EmptyString
  | String "_" s' =>
      match s' with
      | String d _ =>
          if after_digit && is_digit d then ungroup false s' else None
      | EmptyString => None
      end
  | String c s' => option_map (String c) (ungroup (is_digit c) s')
  end.

(** An optional sign. *)
Definition split_sign (s : string) : bool * string :=
  match s with
  | String "-" r => (true, r)
  | String "+" r => (false, r)
  | r => (false, r)
  end.

Definition signed (neg : bool) (z : Z) : Z := if neg then (- z)%Z else z.

(** [int(s)] on a string: white space is trimmed, one sign is allowed and
    the digits may be grouped with underscores. *)
Definition int_of_str (s : string) : result Z :=
  match ungroup false (strip s) with
  | None => Raise ValueError
  | Some t =>
      let '(neg, r) := split_sign t in
      match unsigned_val r with
      | Some z => Ok (signed neg z)
      | None => Raise ValueError
      end
  end.

Fixpoint all_digits (s : string) : bool :=
  match s with
  | EmptyString => true
  | String c s' => is_digit c && all_digits s'
  end.

(** The longest run of digits at the head of [s], and what follows it. *)
Fixpoint leading_digits (s : string) : string * string :=
  match s with
  | EmptyString => (EmptyString, EmptyString)
  | String c s' =>
      if is_digit c
      then let '(ds, rest) := leading_digits s' in (String c ds, rest)
      else (EmptyString, s)
  end.

(** A float literal without its sign: [inf], [nan], or the decimal
    [mant * 10 ^ exp10]. *)
Inductive float_lit : Type :=
| LitInf
| LitNan
| LitDec (mant exp10 : Z).

Definition digits_or_zero (s : string) : Z :=
  match digits_val 0 s with
  | Some z => z
  | None => 0%Z
  end.

(** [e] or [E], an optional sign and at least one digit; no exponent at
    all counts as zero. *)
Definition exponent_of (s : string) : option Z :=
  match s with
  | EmptyString => Some 0%Z
  | String c r =>
      if Ascii.eqb (lower_char c) "e" then
        let '(neg, ds) := split_sign r in
        option_map (signed neg) (unsigned_val ds)
      else None
  end.

(** Digits, an optional point and digits, with a digit on one side of the
    point at least, and an optional exponent. *)
Definition decimal_of (s : string) : option float_lit :=
  let '(ip, r1) := leading_digits s in
  let '(fp, r2) :=
    match r1 with
    | String "." r => leading_digits r
    | _ => (EmptyString, r1)
    end in
  match ip ++ fp with
  | EmptyString => None
  | ds =>
      match exponent_of r2 with
      | Some e =>
          Some (LitDec (digits_or_zero ds) (e - Z.of_nat (String.length fp)))
      | None => None
      end
  end.

Definition float_lit_of (s : string) : option float_lit :=
  let l := lower s in
  if (l =? "inf") || (l =? "infinity") then Some LitInf
  else if l =? "nan" then Some LitNan
  else decimal_of s.

(** [int(x)] for the double [x] nearest to [p / q] (ties to even), where
    [0 <= p] and [0 < q]: with [2^e <= p/q < 2^(e+1)] the double is
    [m * 2^(e-52)] for the integer [m] nearest to [p / (q * 2^(e-52))]; a
    value that rounds to [2^1024] or beyond is infinite, and [int] of an
    infinite float is an [OverflowError]. *)
Definition trunc_nearest_double (p q : Z) : result Z :=
  if (p =? 0)%Z then Ok 0%Z
  else
    let e0 := (Z.log2 p - Z.log2 q)%Z in
    let below :=
      if (0 <=? e0)%Z then (p <? q * 2 ^ e0)%Z else (p * 2 ^ (- e0) <? q)%Z in
    let e := if below then (e0 - 1)%Z else e0 in
    let s := (e - 52)%Z in
    let num := if (0 <=? s)%Z then p else (p * 2 ^ (- s))%Z in
    let den := if (0 <=? s)%Z then (q * 2 ^ s)%Z else q in
    let k := (num / den)%Z in
    let rem := (num mod den)%Z in
    let m :=
      if (den <? 2 * rem)%Z then (k + 1)%Z
      else if (2 * rem =? den)%Z then (k + k mod 2)%Z
      else k in
    if (0 <=? s)%Z then
      if (2 ^ 1024 <=? m * 2 ^ s)%Z then Raise OverflowError
      else Ok (m * 2 ^ s)%Z
    else Ok (m / 2 ^ (- s))%Z.

(** [int(float(z))] for an integer [z]. *)
Definition trunc_float_of_Z (z : Z) : result Z :=
  rbind (trunc_nearest_double (Z.abs z) 1) (fun a =>
  Ok (signed (z <? 0)%Z a)).

(** [int(float(s))] on a string: white space is trimmed; the text is an
    optional sign followed by [inf], [infinity] or [nan] in any case, or
    by a decimal with an optional exponent, its digits possibly grouped
    with underscores.  Text that is no float and [nan] are a
    [ValueError], an infinite value is an [OverflowError]; otherwise the
    nearest double is truncated towards zero. *)
Definition trunc_float_of_str (s : string) : result Z :=
  match ungroup false (strip s) with
  | None => Raise ValueError
  | Some t =>
      let '(neg, r) := split_sign t in
      match float_lit_of r with
      | None => Raise ValueError
      | Some LitNan => Raise ValueError
      | Some LitInf => Raise OverflowError
      | Some (LitDec m e) =>
          rbind (if (0 <=? e)%Z
                 then trunc_nearest_double (m * 10 ^ e) 1
                 else trunc_nearest_double m (10 ^ (- e))) (fun a =>
          Ok (signed neg a))
      end
  end.

End PyStr.

Example lower_ex : PyStr.lower "eNodeB Name" = "enodeb name".
Proof. reflexivity. Qed.

Example strip_ex : PyStr.strip "  eNodeB   Name " = "eNodeB   Name".
Proof. reflexivity. Qed.

Example replace_ex : PyStr.replace "xxAxx-xxABxx-xxAxx" "xxAxx" "1" = "1-xxABxx-1".
Proof. reflexivity. Qed.

Example replace_overlap_ex : PyStr.replace "aaaaa" "aa" "b" = "bba".
Proof. reflexivity. Qed.

Example replace_empty_ex : PyStr.replace "ab" "" "-" = "-a-b-".
Proof. reflexivity. Qed.

Example count_ex : PyStr.count "aaaaa" "aa" = 2.
Proof. reflexivity. Qed.

Example str_of_Z_ex : PyStr.str_of_Z 1204 = "1204" /\ PyStr.str_of_Z (-30) = "-30".
Proof. split; reflexivity. Qed.

Example int_of_str_ex :
  PyStr.int_of_str " 42 " = Ok 42%Z /\ PyStr.int_of_str "4.0" = Raise ValueError
  /\ PyStr.int_of_str "1_000" = Ok 1000%Z.
Proof. repeat split; reflexivity. Qed.

Example trunc_float_ex :
  PyStr.trunc_float_of_str "100.0" = Ok 100%Z /\
  PyStr.trunc_float_of_str "" = Raise ValueError /\
  PyStr.trunc_float_of_str "abc" = Raise ValueError /\
  PyStr.trunc_float_of_str "1e3" = Ok 1000%Z /\
  PyStr.trunc_float_of_str "1_000.9" = Ok 1000%Z /\
  PyStr.trunc_float_of_str "-inf" = Raise OverflowError /\
  PyStr.trunc_float_of_str "1e400" = Raise OverflowError /\
  PyStr.trunc_float_of_str "nan" = Raise ValueError /\
  PyStr.trunc_float_of_str "9007199254740993" = Ok 9007199254740992%Z /\
  PyStr.trunc_float_of_str "0.99999999999999999" = Ok 1%Z.
Proof. repeat split; vm_compute; reflexivity. Qed.

(** ** Spreadsheet cells *)

Inductive cell : Type :=
| CNull                 (* NaN / None *)
| CBool (b : bool)
| CInt (z : Z)
| CFloat (z : Z)        (* a float whose value is the integer [z] *)
| CStr (s : string).

(** [pd.isna(c)] *)
Definition isna (c : cell) : bool :=
  match c with
  | CNull => true
  | _ => false
  end.

(** [pd.notna(c)] *)
Definition notna (c : cell) : bool := negb (isna c).

(** [str(c)] *)
Definition py_str (c : cell) : string :=
  match c with
  | CNull => "nan"
  | CBool true => "True"
  | CBool false => "False"
  | CInt z => PyStr.str_of_Z z
  | CFloat z => PyStr.str_of_Z z ++ ".0"
  | CStr s => s
  end.

(** [int(c)] *)
Definition py_int (c : cell) : result Z :=
  match c with
  | CNull => Raise ValueError
  | CBool b => Ok (if b then 1 else 0)%Z
  | CInt z => Ok z
  | CFloat z => Ok z
  | CStr s => PyStr.int_of_str s
  end.

(** [int(float(c))]: an integer goes through the nearest double. *)
Definition py_int_of_float (c : cell) : result Z :=
  match c with
  | CNull => Raise ValueError
  | CBool b => Ok (if b then 1 else 0)%Z
  | CInt z => PyStr.trunc_float_of_Z z
  | CFloat z => Ok z
  | CStr s => PyStr.trunc_float_of_str s
  end.

(** Truth value of a cell in an [if]. *)
Definition truthy (c : cell) : bool :=
  match c with
  | CNull => true       (* NaN is a non-zero float *)
  | CBool b => b
  | CInt z => negb (z =? 0)%Z
  | CFloat z => negb (z =? 0)%Z
  | CStr s => negb (s =? "")
  end.

(** [c == True], element-wise on a column. *)
Definition cell_eq_true (c : cell) : bool :=
  match c with
  | CBool b => b
  | CInt z => (z =? 1)%Z
  | CFloat z => (z =? 1)%Z
  | _ => false
  end.

(** [c == s] for a string [s], element-wise on a column. *)
Definition cell_eq_str (c : cell) (s : string) : bool :=
  match c with
  | CStr t => t =? s
  | _ => false
  end.

(** ** Data frames *)

Definition row := list cell.

(** A header of a table: text, or an integer, which is no [str].  A
    header cell of another kind (a float, a date) behaves like the integer
    one, up to the type its [AttributeError] names. *)
Inductive label : Type :=
| LStr (s : string)
| LNum (z : Z).

Record DataFrame : Type := mkDF {
  columns : list label;
  rows : list row
}.

(** The header of a sheet whose header cells are all text. *)
Definition text_header (names : list string) : list label := map LStr names.

(** [col == name] for a column name, which is text. *)
Definition is_label (name : string) (col : label) : bool :=
  match col with
  | LStr s => s =? name
  | LNum _ => false
  end.

Fixpoint col_index (name : string) (cols : list label) : option nat :=
  match cols with
  | [] => None
  | c :: cs =>
      if is_label name c then Some 0
      else option_map S (col_index name cs)
  end.

(** [name in df.columns] *)
Definition in_columns (name : string) (df : DataFrame) : bool :=
  match col_index name (columns df) with
  | Some _ => true
  | None => false
  end.

(** [r[name]] for a row of a frame with header [cols]; a cell the sheet
    does not hold reads as null. *)
Definition row_get (cols : list label) (r : row) (name : string) : cell :=
  match col_index name cols with
  | Some i => nth i r CNull
  | None => CNull
  end.

(** [df[name]]: the column as a list of cells. *)
Definition column_values (df : DataFrame) (name : string) : list cell :=
  map (fun r => row_get (columns df) r name) (rows df).

(** [df.empty]: no column or no row. *)
Definition df_empty (df : DataFrame) : bool :=
  match columns df, rows df with
  | [], _ => true
  | _, [] => true
  | _, _ => false
  end.

(** [pd.DataFrame([r])] for a row [r] of [df]. *)
Definition frame_of_row (df : DataFrame) (r : row) : DataFrame :=
  mkDF (columns df) [r].

(** [s.iloc[i]]: positional access; a negative index counts from the end. *)
Definition iloc {A} (l : list A) (i : Z) : result A :=
  let n := Z.of_nat (List.length l) in
  let j := if (i <? 0)%Z then (i + n)%Z else i in
  if ((0 <=? j) && (j <? n))%Z then
    match nth_error l (Z.to_nat j) with
    | Some a => Ok a
    | None => Raise IndexError
    end
  else Raise IndexError.

(** ** Python dictionaries, in insertion order *)

Definition dict (V : Type) := list (string * V).

Fixpoint dict_get {V} (k : string) (d : dict V) : option V :=
  match d with
  | [] => None
  | (k', v) :: d' => if k' =? k then Some v else dict_get k d'
  end.

Definition dict_mem {V} (k : string) (d : dict V) : bool :=
  match dict_get k d with
  | Some _ => true
  | None => false
  end.

(** [d[k] = v]: an existing key keeps its position. *)
Fixpoint dict_set {V} (k : string) (v : V) (d : dict V) : dict V :=
  match d with
  | [] => [(k, v)]
  | (k', v') :: d' =>
      if k' =? k then (k, v) :: d' else (k', v') :: dict_set k v d'
  end.

Definition dict_keys {V} (d : dict V) : list string := map fst d.

(** ** [find_column] *)

Definition normalize (s : string) : string :=
  PyStr.replace (PyStr.replace (PyStr.strip (PyStr.lower s)) " " "") "_" "".

(** The dictionary comprehension of the source, from the entries made so
    far: normalized name to column, a later column replacing an earlier
    one of the same normalized name.  [col.lower()] raises on a header
    that is not text. *)
Fixpoint columns_lower (cols : list label) (d : dict string)
  : result (dict string) :=
  match cols with
  | [] => Ok d
  | LStr col :: rest => columns_lower rest (dict_set (normalize col) col d)
  | LNum _ :: _ => Raise AttributeError
  end.

Definition df_columns_lower (df : DataFrame) : result (dict string) :=
  columns_lower (columns df) [].

Fixpoint first_candidate (m : dict string) (possible_names : list string)
  : option string :=
  match possible_names with
  | [] => None
  | name :: rest =>
      match dict_get (normalize name) m with
      | Some col => Some col
      | None => first_candidate m rest
      end
  end.

Definition find_column (df : option DataFrame) (possible_names : list string)
  : result (option string) :=
  match df with
  | None => Ok None
  | Some d =>
      if df_empty d then Ok None
      else
        rbind (df_columns_lower d) (fun m =>
        Ok (first_candidate m possible_names))
  end.

(** ** [safe_get_value] *)

Definition try_catch {A} (body : result A) (handler : exc -> result A)
  : result A :=
  match body with
  | Ok a => Ok a
  | Raise e => handler e
  end.

Definition safe_get_value (df : option DataFrame) (column_name : option string)
    (row_idx : Z) (default : cell) : result cell :=
  match df, column_name with
  | Some d, Some c =>
      if negb (in_columns c d) then Ok default
      else
        try_catch
          (if (Z.of_nat (List.length (rows d)) <=? row_idx)%Z then Ok default
           else
             rbind (iloc (column_values d c) row_idx) (fun val =>
             if isna val then Ok default else Ok val))
          (fun _ => Ok default)
  | _, _ => Ok default
  end.

(** ** [safe_load_sheet] *)

(** A workbook that could be opened: its sheets in file order. *)
Definition Workbook := list (string * DataFrame).

Fixpoint find_sheet (p : string -> bool) (wb : Workbook) : option DataFrame :=
  match wb with
  | [] => None
  | (n, df) :: wb' => if p n then Some df else find_sheet p wb'
  end.

Fixpoint find_alternative (wb : Workbook) (alternative_names : list string)
  : option DataFrame :=
  match alternative_names with
  | [] => None
  | alt_name :: rest =>
      let alt_lower := PyStr.strip (PyStr.lower alt_name) in
      match find_sheet
              (fun avail => PyStr.strip (PyStr.lower avail) =? alt_lower) wb with
      | Some df => Some df
      | None => find_alternative wb rest
      end
  end.

(** [excel_file] is [None] when the file cannot be opened: the exception is
    swallowed and the sheet is absent. *)
Definition safe_load_sheet (excel_file : option Workbook) (sheet_name : string)
    (alternative_names : list string) : option DataFrame :=
  match excel_file with
  | None => None
  | Some wb =>
      match find_sheet (fun avail => avail =? sheet_name) wb with
      | Some df => Some df
      | None =>
          let sheet_lower := PyStr.strip (PyStr.lower sheet_name) in
          match find_sheet
                  (fun avail => PyStr.strip (PyStr.lower avail) =? sheet_lower)
                  wb with
          | Some df => Some df
          | None => find_alternative wb alternative_names
          end
      end
  end.

Example normalize_ex :
  normalize "  eNodeB   Name" = "enodebname" /\
  normalize "e_nodeb_name" = "enodebname" /\
  normalize "ENODEBNAME" = "enodebname".
Proof. repeat split; reflexivity. Qed.

(** ** The two band patterns of [re.search] *)

Module Band.

Definition is_ABC (c : ascii) : bool :=
  match c with
  | "A"%char | "B"%char | "C"%char => true
  | _ => false
  end.

(** [_(\d+)[ABC]_] anchored at the head of [s]; the result is group 1.
    The letter after the digits is not a digit, so the greedy run is the
    only way the pattern can match. *)
Definition lte_at (s : string) : option string :=
  match s with
  | String "_" r =>
      match PyStr.leading_digits r with
      | (EmptyString, _) => None
      | (ds, String c (String "_" _)) => if is_ABC c then Some ds else None
      | _ => None
      end
  | _ => None
  end.

(** [_(N\d{3})[ABC]_] anchored at the head of [s]; the result is group 1. *)
Definition nr_at (s : string) : option string :=
  match s with
  | String "_" (String "N" (String d1 (String d2 (String d3
      (String c (String "_" _)))))) =>
      if PyStr.is_digit d1 && PyStr.is_digit d2 && PyStr.is_digit d3
         && is_ABC c
      then Some (String "N" (String d1 (String d2 (String d3 EmptyString))))
      else None
  | _ => None
  end.

(** [re.search]: the leftmost position where the anchored pattern matches. *)
Fixpoint search (anchored : string -> option string) (s : string)
  : option string :=
  match anchored s with
  | Some g => Some g
  | None =>
      match s with
      | EmptyString => None
      | String _ s' => search anchored s'
      end
  end.

(** [re.search(r'_(\d+)[ABC]_', s)] *)
Definition lte_band_match (s : string) : option string := search lte_at s.

(** [re.search(r'_(N\d{3})[ABC]_', s)] *)
Definition nr_band_match (s : string) : option string := search nr_at s.

End Band.

Example lte_band_ex : Band.lte_band_match "SITE1_66A_1" = Some "66".
Proof. reflexivity. Qed.

Example nr_band_ex : Band.nr_band_match "SITE1_N066A_1" = Some "N066".
Proof. reflexivity. Qed.

Example lte_band_none_ex : Band.lte_band_match "SITE1X" = None.
Proof. reflexivity. Qed.

(** ** Sorting *)

(** Insertion before the first element that [le] puts after [x]: folding it
    from the right gives a stable sort. *)
Fixpoint insert_by {A} (le : A -> A -> bool) (x : A) (l : list A) : list A :=
  match l with
  | [] => [x]
  | y :: l' => if le x y then x :: l else y :: insert_by le x l'
  end.

Definition sort_by {A} (le : A -> A -> bool) (l : list A) : list A :=
  fold_right (insert_by le) [] l.

(** Keys of [sort_values]: numbers compare with numbers and strings with
    strings; comparing one with the other is a [TypeError]. *)
Inductive sort_key : Type :=
| KNum (z : Z)
| KStr (s : string).

Definition key_of_cell (c : cell) : option sort_key :=
  match c with
  | CNull => None
  | CBool b => Some (KNum (if b then 1 else 0))
  | CInt z => Some (KNum z)
  | CFloat z => Some (KNum z)
  | CStr s => Some (KStr s)
  end.

Definition is_num_cell (c : cell) : bool :=
  match key_of_cell c with
  | Some (KNum _) => true
  | _ => false
  end.

Definition is_str_cell (c : cell) : bool :=
  match c with
  | CStr _ => true
  | _ => false
  end.

(** [a <= b] on cells of one kind. *)
Definition cell_leb (a b : cell) : bool :=
  match key_of_cell a, key_of_cell b with
  | Some (KNum x), Some (KNum y) => (x <=? y)%Z
  | Some (KStr x), Some (KStr y) => String.leb x y
  | _, _ => true
  end.

(** [rows.sort_values(by)]: ascending, rows with a null key last in their
    original order, rows with equal keys in their original order. *)
Definition sort_values (cols : list label) (by_col : string) (rs : list row)
  : result (list row) :=
  let key r := row_get cols r by_col in
  let keyed := filter (fun r => notna (key r)) rs in
  let nulls := filter (fun r => isna (key r)) rs in
  if forallb (fun r => is_num_cell (key r)) keyed
     || forallb (fun r => is_str_cell (key r)) keyed
  then Ok (sort_by (fun a b => cell_leb (key a) (key b)) keyed ++ nulls)%list
  else Raise TypeError.

(** ** The placeholder map and the monad of the extraction stage

    Assignments to [replacements] made before an exception stay made: the
    state is threaded through and returned beside the outcome. *)

Definition Replacements := dict string.

Definition M (A : Type) : Type := Replacements -> result A * Replacements.

Definition ret {A} (a : A) : M A := fun r => (Ok a, r).

Definition bind {A B} (m : M A) (k : A -> M B) : M B :=
  fun r =>
    match m r with
    | (Ok a, r') => k a r'
    | (Raise e, r') => (Raise e, r')
    end.

Definition lift {A} (x : result A) : M A := fun r => (x, r).

(** [replacements[k] = v] *)
Definition set_item (k v : string) : M unit :=
  fun r => (Ok tt, dict_set k v r).

(** [k in replacements] *)
Definition has_item (k : string) : M bool :=
  fun r => (Ok (dict_mem k r), r).

(** [replacements[k]] *)
Definition get_item (k : string) : M string :=
  fun r =>
    match dict_get k r with
    | Some v => (Ok v, r)
    | None => (Raise (KeyError k), r)
    end.

Declare Scope py_scope.
Delimit Scope py_scope with py.
Notation "x <- m ;; k" := (bind m (fun x => k))
  (at level 61, m at next level, right associativity) : py_scope.
Notation "m ;;; k" := (bind m (fun _ => k))
  (at level 61, right associativity) : py_scope.

(** [if col:] on a resolved column: present and not the empty string. *)
Definition as_truthy (col : option string) : option string :=
  match col with
  | Some EmptyString => None
  | c => c
  end.

(** ** [process_template] *)

Section Extraction.

Local Open Scope py_scope.

(** *** Primary node *)

(** The [iterrows] loop: the first row whose legacy node name is
    non-empty. *)
Fixpoint first_named_row (df : DataFrame) (enb_name_col : option string)
    (rs : list row) : result (option row) :=
  match rs with
  | [] => Ok None
  | r :: rest =>
      rbind (safe_get_value (Some (frame_of_row df r)) enb_name_col 0
               (CStr "")) (fun enb_val =>
      if truthy enb_val && negb (PyStr.strip (py_str enb_val) =? "")
      then Ok (Some r)
      else first_named_row df enb_name_col rest)
  end.

Definition select_primary_node (mixed_mode_df : DataFrame)
    (cabinet_col enb_name_col : option string) : result (option row) :=
  let by_cabinet :=
    match as_truthy cabinet_col with
    | Some c =>
        find (fun r => cell_eq_true (row_get (columns mixed_mode_df) r c))
             (rows mixed_mode_df)
    | None => None
    end in
  match by_cabinet, as_truthy enb_name_col with
  | Some r, _ => Ok (Some r)
  | None, Some _ =>
      first_named_row mixed_mode_df enb_name_col (rows mixed_mode_df)
  | None, None => Ok None
  end.

Definition extract_primary_node (mixed_mode_df : DataFrame) : M unit :=
  let df := Some mixed_mode_df in
  cabinet_col <-
    lift (find_column df ["Cabinet Controlling DUL"; "CabinetControllingDUL"]) ;;
  enb_name_col <- lift (find_column df ["eNodeB Name"; "eNodeBName"]) ;;
  enb_id_col <- lift (find_column df ["eNBId"; "eNBID"]) ;;
  gnb_name_col <- lift (find_column df ["gNodeB Name"; "gNodeBName"]) ;;
  gnb_id_col <- lift (find_column df ["gNBId"; "gNBID"]) ;;
  primary_node <-
    lift (select_primary_node mixed_mode_df cabinet_col enb_name_col) ;;
  match primary_node with
  | None => ret tt
  | Some node =>
      let one := Some (frame_of_row mixed_mode_df node) in
      site_val <- lift (safe_get_value one enb_name_col 0 (CStr "")) ;;
      let site_name := PyStr.strip (py_str site_val) in
      (if negb (site_name =? "")
       then set_item "xxMMBB_Primary_Node_Namexx" site_name ;;;
            set_item "xxLTE_Site_IDxx" site_name
       else ret tt) ;;;
      enb_id_val <- lift (safe_get_value one enb_id_col 0 (CStr "")) ;;
      (if notna enb_id_val
       then z <- lift (py_int_of_float enb_id_val) ;;
            set_item "xxLTE_eNBIDxx" (PyStr.strip (PyStr.str_of_Z z))
       else ret tt) ;;;
      gnb_val <- lift (safe_get_value one gnb_name_col 0 (CStr "")) ;;
      let gnb_name := PyStr.strip (py_str gnb_val) in
      (if negb (gnb_name =? "")
       then set_item "xx5G_NR_Node_Namexx" gnb_name
       else ret tt) ;;;
      gnb_id_val <- lift (safe_get_value one gnb_id_col 0 (CStr "")) ;;
      (if notna gnb_id_val
       then z <- lift (py_int_of_float gnb_id_val) ;;
            set_item "xx5G_NR_gNBIDxx" (PyStr.strip (PyStr.str_of_Z z))
       else ret tt)
  end.

(** *** DSS cells *)

(** The rows of "5G Info" that qualify: node name equal to [gnb_name],
    cross-reference not null and not the marker [NO]. *)
Definition dss_filter (cols : list label) (gnb_name_5g_col dss_col : string)
    (gnb_name : string) (r : row) : bool :=
  cell_eq_str (row_get cols r gnb_name_5g_col) gnb_name
  && notna (row_get cols r dss_col)
  && negb (cell_eq_str (row_get cols r dss_col) "NO").

Definition nr_dss_cells (five_g_df : DataFrame)
    (gnb_name_5g_col dss_col nr_cell_col gnb_name : string)
  : result (list row) :=
  sort_values (columns five_g_df) nr_cell_col
    (filter (dss_filter (columns five_g_df) gnb_name_5g_col dss_col gnb_name)
            (rows five_g_df)).

(** [replacements[k] = str(int(c))] *)
Definition set_int (k : string) (c : cell) : M unit :=
  z <- lift (py_int c) ;; set_item k (PyStr.str_of_Z z).

(** [replacements[k] = str(int(rows.iloc[0][col]))] *)
Definition set_int_of_first (k : string) (cols : list label)
    (matching : list row) (col : string) : M unit :=
  r <- lift (iloc matching 0) ;; set_int k (row_get cols r col).

(** The join with "eUtran Parameters". *)
Definition lte_cell_details (eutran_df : option DataFrame)
    (lte_alpha lte_beta lte_gamma : string) : M unit :=
  match eutran_df with
  | None => ret tt
  | Some edf =>
      let cols := columns edf in
      eutran_cell_col <-
        lift (find_column eutran_df ["EutranCellFDDId"; "EUtranCellFDDId"]) ;;
      cell_id_col <- lift (find_column eutran_df ["cellId"; "cellid"]) ;;
      sector_id_col <- lift (find_column eutran_df ["sectorId"; "sectorid"]) ;;
      match as_truthy eutran_cell_col with
      | None => ret tt
      | Some ecc =>
          let matching name :=
            filter (fun r => cell_eq_str (row_get cols r ecc) name)
                   (rows edf) in
          let lte_alpha_row := matching lte_alpha in
          let lte_beta_row := matching lte_beta in
          let lte_gamma_row := matching lte_gamma in
          match as_truthy cell_id_col, as_truthy sector_id_col with
          | Some cid, Some sid =>
              if (0 <? List.length lte_alpha_row)%nat then
                set_int_of_first "LTE_cellidA" cols lte_alpha_row cid ;;;
                set_int_of_first "LTE_cellidB" cols lte_beta_row cid ;;;
                set_int_of_first "LTE_cellidC" cols lte_gamma_row cid ;;;
                set_int_of_first "xxLTE_SectorCarrier_No_Alphaxx" cols
                  lte_alpha_row sid ;;;
                set_int_of_first "xxLTE_SectorCarrier_No_Betaxx" cols
                  lte_beta_row sid ;;;
                set_int_of_first "xxLTE_SectorCarrier_No_Gammaxx" cols
                  lte_gamma_row sid
              else ret tt
          | _, _ => ret tt
          end
      end
  end.

(** What is emitted once both band patterns matched. *)
Definition emit_dss (five_g_df : DataFrame) (eutran_df : option DataFrame)
    (dss_col nr_cell_col : string)
    (cell_local_id_col nr_sector_col : option string)
    (alpha_nr beta_nr gamma_nr : row) (nr_band : string) : M unit :=
  let cols := columns five_g_df in
  let lte_alpha := PyStr.strip (py_str (row_get cols alpha_nr dss_col)) in
  let lte_beta := PyStr.strip (py_str (row_get cols beta_nr dss_col)) in
  let lte_gamma := PyStr.strip (py_str (row_get cols gamma_nr dss_col)) in
  let nr_alpha := PyStr.strip (py_str (row_get cols alpha_nr nr_cell_col)) in
  let nr_beta := PyStr.strip (py_str (row_get cols beta_nr nr_cell_col)) in
  let nr_gamma := PyStr.strip (py_str (row_get cols gamma_nr nr_cell_col)) in
  match as_truthy cell_local_id_col with
  | Some cl =>
      set_int "xx5G_celllocalidAxx" (row_get cols alpha_nr cl) ;;;
      set_int "xx5G_celllocalidBxx" (row_get cols beta_nr cl) ;;;
      set_int "xx5G_celllocalidCxx" (row_get cols gamma_nr cl)
  | None => ret tt
  end ;;;
  match as_truthy nr_sector_col with
  | Some sc =>
      set_item "xx5G_NRSectorCarrier_Alphaxx"
        (py_str (row_get cols alpha_nr sc)) ;;;
      set_item "xx5G_NRSectorCarrier_Betaxx"
        (py_str (row_get cols beta_nr sc)) ;;;
      set_item "xx5G_NRSectorCarrier_Gammaxx"
        (py_str (row_get cols gamma_nr sc))
  | None => ret tt
  end ;;;
  set_item "xxLTE_Site_IDxx_XA_1" lte_alpha ;;;
  set_item "xxLTE_Site_IDxx_XB_1" lte_beta ;;;
  set_item "xxLTE_Site_IDxx_XC_1" lte_gamma ;;;
  set_item "xx5G_NR_Node_Namexx_N00XA_1" nr_alpha ;;;
  set_item "xx5G_NR_Node_Namexx_N00XB_1" nr_beta ;;;
  set_item "xx5G_NR_Node_Namexx_N00XC_1" nr_gamma ;;;
  has_site <- has_item "xxLTE_Site_IDxx" ;;
  (if has_site : bool then
     site_id <- get_item "xxLTE_Site_IDxx" ;;
     set_item "xxMMBB_Primary_Node_Namexx_N00XA_1"
       (site_id ++ "_" ++ nr_band ++ "A_1") ;;;
     set_item "xxMMBB_Primary_Node_Namexx_N00XB_1"
       (site_id ++ "_" ++ nr_band ++ "B_1") ;;;
     set_item "xxMMBB_Primary_Node_Namexx_N00XC_1"
       (site_id ++ "_" ++ nr_band ++ "C_1") ;;;
     set_item "xxLTE_Site_IDxx_X*" (site_id ++ "_X*")
   else ret tt) ;;;
  set_item "N00XA" (nr_band ++ "A") ;;;
  set_item "N00XB" (nr_band ++ "B") ;;;
  set_item "N00XC" (nr_band ++ "C") ;;;
  lte_cell_details eutran_df lte_alpha lte_beta lte_gamma.

(** The band check on the alpha row, guarding everything that is
    emitted. *)
Definition emit_if_bands (five_g_df : DataFrame)
    (eutran_df : option DataFrame) (dss_col nr_cell_col : string)
    (cell_local_id_col nr_sector_col : option string)
    (alpha_nr beta_nr gamma_nr : row) : M unit :=
  let cols := columns five_g_df in
  let lte_alpha := PyStr.strip (py_str (row_get cols alpha_nr dss_col)) in
  let nr_alpha := PyStr.strip (py_str (row_get cols alpha_nr nr_cell_col)) in
  match Band.lte_band_match lte_alpha, Band.nr_band_match nr_alpha with
  | Some lte_band, Some nr_band =>
      emit_dss five_g_df eutran_df dss_col nr_cell_col cell_local_id_col
        nr_sector_col alpha_nr beta_nr gamma_nr nr_band
  | _, _ => ret tt
  end.

(** The body of the [try] block. *)
Definition extract_dss_cells (five_g_df : DataFrame)
    (eutran_df : option DataFrame) : M unit :=
  let df := Some five_g_df in
  gnb_name <- get_item "xx5G_NR_Node_Namexx" ;;
  gnb_name_5g_col <- lift (find_column df ["gNB Name"; "gNodeB Name"]) ;;
  dss_col <- lift (find_column df ["DSS"; "dss"]) ;;
  nr_cell_col <- lift (find_column df ["NRCellDU"; "NRCellDu"]) ;;
  cell_local_id_col <- lift (find_column df ["cellLocalId"; "celllocalid"]) ;;
  nr_sector_col <-
    lift (find_column df ["NRSectorCarrier"; "nrsectorcarrier"]) ;;
  match as_truthy dss_col, as_truthy gnb_name_5g_col,
        as_truthy nr_cell_col with
  | Some dc, Some gc, Some nc =>
      cells <- lift (nr_dss_cells five_g_df gc dc nc gnb_name) ;;
      match cells with
      | alpha_nr :: beta_nr :: gamma_nr :: _ =>
          emit_if_bands five_g_df eutran_df dc nc cell_local_id_col
            nr_sector_col alpha_nr beta_nr gamma_nr
      | _ => ret tt
      end
  | _, _, _ => ret tt
  end.

(** [f"Error extracting DSS cells: {e}"] *)
Definition dss_warning (e : exc) : string :=
  "Error extracting DSS cells: " ++ exc_str e.

(** The guarded stage: an exception of the body becomes one warning and
    the assignments made before it are kept. *)
Definition dss_stage (five_g_df eutran_df : option DataFrame)
    (replacements : Replacements) (warnings : list string)
  : Replacements * list string :=
  match five_g_df with
  | Some df =>
      if dict_mem "xx5G_NR_Node_Namexx" replacements then
        match extract_dss_cells df eutran_df replacements with
        | (Ok _, r) => (r, warnings)
        | (Raise e, r) => (r, (warnings ++ [dss_warning e])%list)
        end
      else (replacements, warnings)
  | None => (replacements, warnings)
  end.

(** *** Filling the template *)

(** [sorted(replacements.items(), key=lambda x: len(x[0]), reverse=True)]:
    longest key first, keys of one length in insertion order. *)
Definition sorted_replacements (replacements : Replacements)
  : list (string * string) :=
  sort_by (fun x y => (String.length (fst y) <=? String.length (fst x))%nat)
          replacements.

Definition fill_step (acc : string * dict nat) (item : string * string)
  : string * dict nat :=
  let '(filled_content, replacement_count) := acc in
  let '(placeholder, value) := item in
  let count := PyStr.count filled_content placeholder in
  if (0 <? count)%nat
  then (PyStr.replace filled_content placeholder value,
        dict_set placeholder count replacement_count)
  else acc.

Definition fill_template (template_content : string)
    (replacements : Replacements) : string * dict nat :=
  fold_left fill_step (sorted_replacements replacements)
            (template_content, []).

(** *** The whole run

    [excel_path] is [None] when the workbook cannot be opened and
    [template_path] is [None] when the template cannot be read.  The
    result is [(filled_content, replacement_count, warnings)]. *)
Definition load_mixed_mode (excel_path : option Workbook) : option DataFrame :=
  safe_load_sheet excel_path "Mixed Mode Info"
    ["MixedModeInfo"; "Mixed_Mode_Info"].

Definition load_five_g (excel_path : option Workbook) : option DataFrame :=
  safe_load_sheet excel_path "5G Info" ["5GInfo"; "5G_Info"].

Definition load_eutran (excel_path : option Workbook) : option DataFrame :=
  safe_load_sheet excel_path "eUtran Parameters"
    ["EUtranParameters"; "eUtran_Parameters"].

(** The primary-node block; it is not guarded, so what it raises leaves
    [process_template]. *)
Definition primary_stage (excel_path : option Workbook) : M unit :=
  match load_mixed_mode excel_path with
  | Some df => extract_primary_node df
  | None => ret tt
  end.

Definition build_replacements (excel_path : option Workbook)
  : result (Replacements * list string) :=
  let five_g_df := load_five_g excel_path in
  let eutran_df := load_eutran excel_path in
  match primary_stage excel_path [] with
  | (Raise e, _) => Raise e
  | (Ok _, replacements) =>
      Ok (dss_stage five_g_df eutran_df replacements [])
  end.

Definition process_template (excel_path : option Workbook)
    (template_path : option string)
  : result (string * dict nat * list string) :=
  match excel_path with
  | None => Raise (Exception "Cannot open Excel file")
  | Some _ =>
      match template_path with
      | None => Raise OSError
      | Some template_content =>
          rbind (build_replacements excel_path) (fun '(replacements, warnings) =>
          let '(filled_content, replacement_count) :=
            fill_template template_content replacements in
          Ok (filled_content, replacement_count, warnings))
      end
  end.

End Extraction.

(** * Properties *)

Unset Implicit Arguments.

(** ** Dictionaries *)

Lemma dict_get_set {V} (k k' : string) (v : V) (d : dict V) :
  dict_get k (dict_set k' v d) = if k' =? k then Some v else dict_get k d.
Proof.
  induction d as [|[k0 v0] d IH]; simpl.
  - reflexivity.
  - destruct (k0 =? k') eqn:E0; simpl.
    + apply String.eqb_eq in E0; subst k0.
      destruct (k' =? k); reflexivity.
    + destruct (k0 =? k) eqn:E1.
      * apply String.eqb_eq in E1; subst k0.
        rewrite String.eqb_sym, E0. reflexivity.
      * exact IH.
Qed.

Lemma dict_mem_set {V} (k k' : string) (v : V) (d : dict V) :
  dict_mem k (dict_set k' v d) = (k' =? k) || dict_mem k d.
Proof.
  unfold dict_mem. rewrite dict_get_set.
  destruct (k' =? k); reflexivity.
Qed.

Lemma dict_get_In {V} (k : string) (v : V) (d : dict V) :
  dict_get k d = Some v -> In (k, v) d.
Proof.
  induction d as [|[k0 v0] d IH]; simpl; [discriminate|].
  destruct (k0 =? k) eqn:E.
  - apply String.eqb_eq in E. intros [= ->]. left. now subst.
  - intros H. right. auto.
Qed.

(** ** Column resolution *)

(** The headers as text, when they all are. *)
Fixpoint header_texts (cols : list label) : option (list string) :=
  match cols with
  | [] => Some []
  | LStr s :: rest => option_map (cons s) (header_texts rest)
  | LNum _ :: _ => None
  end.

Definition matches (name col : string) : bool :=
  normalize col =? normalize name.

(** The column the comprehension keeps for a candidate: the last one of
    that normalized name. *)
Definition last_column_matching (cols : list string) (name : string)
  : option string :=
  find (matches name) (rev cols).

(** The reading of the resolver in which the first such column is kept. *)
Definition first_column_matching (cols : list string) (name : string)
  : option string :=
  find (matches name) cols.

Fixpoint first_resolved (pick : string -> option string)
    (possible_names : list string) : option string :=
  match possible_names with
  | [] => None
  | name :: rest =>
      match pick name with
      | Some col => Some col
      | None => first_resolved pick rest
      end
  end.

Definition find_column_first_reading (df : option DataFrame)
    (possible_names : list string) : option string :=
  match df with
  | None => None
  | Some d =>
      if df_empty d then None
      else
        match header_texts (columns d) with
        | Some cols =>
            first_resolved (first_column_matching cols) possible_names
        | None => None
        end
  end.

Lemma find_app_single {A} (p : A -> bool) (l : list A) (x : A) :
  find p (l ++ [x]) =
  match find p l with
  | Some y => Some y
  | None => if p x then Some x else None
  end.
Proof.
  induction l as [|y l IH]; simpl.
  - reflexivity.
  - destruct (p y); [reflexivity | exact IH].
Qed.

Lemma columns_lower_get (cols : list string) (d0 : dict string) (k : string) :
  dict_get k (fold_left (fun d col => dict_set (normalize col) col d) cols d0) =
  match find (fun col => normalize col =? k) (rev cols) with
  | Some c => Some c
  | None => dict_get k d0
  end.
Proof.
  revert d0. induction cols as [|c cols IH]; intros d0; simpl.
  - reflexivity.
  - rewrite IH, find_app_single, dict_get_set.
    destruct (find _ (rev cols)); [reflexivity|].
    destruct (normalize c =? k); reflexivity.
Qed.

(** On headers that are all text the comprehension is a fold; a header
    that is not text makes it raise. *)
Lemma columns_lower_texts (cols : list label) (d0 : dict string) :
  columns_lower cols d0 =
  match header_texts cols with
  | Some ts =>
      Ok (fold_left (fun d col => dict_set (normalize col) col d) ts d0)
  | None => Raise AttributeError
  end.
Proof.
  revert d0. induction cols as [|[c|z] cols IH]; intros d0; simpl.
  - reflexivity.
  - rewrite IH. now destruct (header_texts cols).
  - reflexivity.
Qed.

Lemma first_candidate_resolved (cols : list string) (names : list string) :
  first_candidate
    (fold_left (fun d col => dict_set (normalize col) col d) cols []) names =
  first_resolved (last_column_matching cols) names.
Proof.
  induction names as [|n names IH]; simpl.
  - reflexivity.
  - rewrite columns_lower_get. simpl.
    unfold last_column_matching at 1, matches.
    destruct (find _ (rev cols)); [reflexivity | exact IH].
Qed.

Lemma find_column_texts (d : DataFrame) (names : list string) :
  find_column (Some d) names =
  if df_empty d then Ok None
  else
    match header_texts (columns d) with
    | Some cols => Ok (first_resolved (last_column_matching cols) names)
    | None => Raise AttributeError
    end.
Proof.
  unfold find_column, df_columns_lower.
  destruct (df_empty d); [reflexivity|].
  rewrite columns_lower_texts.
  destruct (header_texts (columns d)) as [cols|]; [|reflexivity].
  cbn [rbind]. now rewrite first_candidate_resolved.
Qed.

Definition two_spellings : DataFrame :=
  mkDF (text_header ["eNodeB Name"; "ENODEBNAME"])
       [[CStr "SITE1"; CStr "SITE2"]].

Definition year_header : DataFrame :=
  mkDF [LStr "eNodeB Name"; LNum 2024] [[CStr "SITE1"; CInt 7]].

(** C7, as stated, fails: when two headers share a normalized name the
    resolver returns the last of them, not the first; and on a table with
    a header that is not text it returns nothing at all, it raises. *)
Lemma find_column_first_reading_fails :
  find_column (Some two_spellings) ["eNodeB Name"] = Ok (Some "ENODEBNAME") /\
  find_column_first_reading (Some two_spellings) ["eNodeB Name"]
    = Some "eNodeB Name" /\
  find_column (Some two_spellings) ["eNodeB Name"]
    <> Ok (find_column_first_reading (Some two_spellings) ["eNodeB Name"]) /\
  find_column (Some year_header) ["eNodeB Name"] = Raise AttributeError.
Proof.
  repeat split; try reflexivity. vm_compute. discriminate.
Qed.

(** C7 (amended): [find_column] answers not-found on an absent or empty
    table; on a table that is not empty and has a header that is not text
    it raises [AttributeError]; otherwise it tries the candidates in the
    caller's order and, for the first candidate whose normalized form
    (lower-cased, trimmed, spaces and underscores removed) is the
    normalized form of some header, returns the last header of that
    normalized form; not-found if no candidate matches.  The three
    spellings of "eNodeB Name" all resolve. *)
Theorem find_column_spec (df : option DataFrame) (possible_names : list string) :
  find_column df possible_names =
    match df with
    | None => Ok None
    | Some d =>
        if df_empty d then Ok None
        else
          match header_texts (columns d) with
          | None => Raise AttributeError
          | Some cols =>
              Ok (first_resolved (last_column_matching cols) possible_names)
          end
    end
  /\ Forall (fun header =>
               forall (r : row) (rs : list row),
                 find_column (Some (mkDF [LStr header] (r :: rs)))
                   ["eNodeB Name"]
                   = Ok (Some header))
            ["ENODEBNAME"; "e_nodeb_name"; "  eNodeB   Name"].
Proof.
  split.
  - destruct df as [d|]; [|reflexivity].
    rewrite find_column_texts.
    destruct (df_empty d); [reflexivity|].
    now destruct (header_texts (columns d)).
  - repeat constructor.
Qed.

(** Headers with pairwise distinct normalized names: the first and the last
    matching column coincide, and the resolver agrees with the first-column
    reading. *)
Lemma find_unique {A} (p : A -> bool) (l : list A) :
  (forall x y, In x l -> In y l -> p x = true -> p y = true -> x = y) ->
  find p (rev l) = find p l.
Proof.
  induction l as [|a l IH]; intros U; simpl.
  - reflexivity.
  - rewrite find_app_single, IH.
    + destruct (p a) eqn:Pa.
      * destruct (find p l) eqn:F; [|reflexivity].
        apply find_some in F. destruct F as [Hin Hp].
        f_equal. apply U; simpl; auto.
      * destruct (find p l); reflexivity.
    + intros x y Hx Hy. apply U; simpl; auto.
Qed.

Lemma find_column_distinct_headers (d : DataFrame) (cols names : list string) :
  header_texts (columns d) = Some cols ->
  NoDup (map normalize cols) ->
  find_column (Some d) names = Ok (find_column_first_reading (Some d) names).
Proof.
  intros Ht ND. rewrite find_column_texts. unfold find_column_first_reading.
  rewrite Ht. destruct (df_empty d); [reflexivity|]. f_equal.
  assert (E : forall n, last_column_matching cols n
                        = first_column_matching cols n).
  { intros n. apply find_unique. intros x y Hx Hy Px Py.
    unfold matches in Px, Py.
    apply String.eqb_eq in Px. apply String.eqb_eq in Py.
    assert (Hn : normalize x = normalize y) by congruence.
    clear Px Py Ht. revert ND Hx Hy Hn.
    induction cols as [|c cs IH]; simpl; intros ND Hx Hy Hn; [tauto|].
    inversion ND as [|? ? Hnotin ND']; subst.
    destruct Hx as [->|Hx], Hy as [->|Hy]; auto.
    - exfalso. apply Hnotin. rewrite Hn. now apply in_map.
    - exfalso. apply Hnotin. rewrite <- Hn. now apply in_map. }
  induction names as [|n names IH]; simpl; [reflexivity|].
  rewrite E. destruct (first_column_matching cols n); auto.
Qed.

(** *** Resolved columns

    What a call of [find_column] returned, for stating what the callers do
    with it; a call that raised returned nothing. *)
Definition column (df : option DataFrame) (names : list string)
  : option string :=
  match find_column df names with
  | Ok col => col
  | Raise _ => None
  end.

(** [find_column] returns on [df], whatever the candidates: the table is
    absent or empty, or its headers are all text. *)
Definition readable (df : option DataFrame) : bool :=
  match df with
  | None => true
  | Some d =>
      df_empty d
      || match header_texts (columns d) with
         | Some _ => true
         | None => false
         end
  end.

Lemma find_column_readable (df : option DataFrame) (names : list string) :
  find_column df names =
  if readable df then Ok (column df names) else Raise AttributeError.
Proof.
  unfold column. destruct df as [d|]; [|reflexivity].
  rewrite find_column_texts. unfold readable.
  destruct (df_empty d); [reflexivity|].
  now destruct (header_texts (columns d)).
Qed.

Lemma find_column_returned (df : option DataFrame) (names : list string)
    (col : option string) :
  find_column df names = Ok col -> readable df = true /\ column df names = col.
Proof.
  intros H. unfold column. rewrite H. split; [|reflexivity].
  rewrite find_column_readable in H.
  destruct (readable df); [reflexivity | discriminate].
Qed.

Lemma column_readable (df : option DataFrame) (names : list string)
    (c : string) :
  column df names = Some c -> readable df = true.
Proof.
  unfold column. intros H.
  destruct (find_column df names) as [col|e] eqn:E; [|discriminate].
  exact (proj1 (find_column_returned df names col E)).
Qed.

Lemma resolved_readable (df : option DataFrame) (names : list string)
    (c : string) :
  as_truthy (column df names) = Some c -> readable df = true.
Proof.
  intros H. destruct (column df names) as [c'|] eqn:E; [|discriminate].
  exact (column_readable df names c' E).
Qed.

Lemma bind_raise {A B} (m : M A) (k : A -> M B) (r r' : Replacements) (e : exc) :
  m r = (Raise e, r') -> bind m k r = (Raise e, r').
Proof. intros H. unfold bind. now rewrite H. Qed.

Lemma bind_ok {A B} (m : M A) (k : A -> M B) (r r' : Replacements) (a : A) :
  m r = (Ok a, r') -> bind m k r = k a r'.
Proof. intros H. unfold bind. now rewrite H. Qed.

(** Binding a call of [find_column] that returns. *)
Lemma bind_find_column {B} (df : option DataFrame) (names : list string)
    (k : option string -> M B) (r : Replacements) :
  readable df = true ->
  bind (lift (find_column df names)) k r = k (column df names) r.
Proof.
  intros H. rewrite find_column_readable, H. reflexivity.
Qed.

Lemma bind_find_column_raises {B} (df : option DataFrame) (names : list string)
    (k : option string -> M B) (r : Replacements) :
  readable df = false ->
  bind (lift (find_column df names)) k r = (Raise AttributeError, r).
Proof.
  intros H. rewrite find_column_readable, H. reflexivity.
Qed.

(** The calls of [find_column] at the head of a block, on a table on which
    they return. *)
Ltac columns_returned Hr :=
  repeat (rewrite bind_find_column by exact Hr; cbv beta).

(** ** The safe cell reader *)

Lemma is_label_eq (c : string) (h : label) :
  is_label c h = true <-> h = LStr c.
Proof.
  destruct h as [s|z]; simpl.
  - rewrite String.eqb_eq. split; [now intros -> | now intros [= ->]].
  - split; discriminate.
Qed.

Lemma in_columns_In (c : string) (d : DataFrame) :
  in_columns c d = true <-> In (LStr c) (columns d).
Proof.
  unfold in_columns.
  induction (columns d) as [|h cols IH]; simpl.
  - split; [discriminate | tauto].
  - destruct (is_label c h) eqn:E.
    + apply is_label_eq in E. split; auto.
    + assert (Hne : h <> LStr c).
      { intros H. apply is_label_eq in H. congruence. }
      destruct (col_index c cols); simpl in *.
      * split; auto. intros _. right. now apply IH.
      * split; [discriminate|]. intros [H|H]; [contradiction|].
        now apply IH.
Qed.

Lemma iloc_map {A B} (f : A -> B) (l : list A) (i : Z) :
  iloc (map f l) i =
  match iloc l i with
  | Ok a => Ok (f a)
  | Raise e => Raise e
  end.
Proof.
  unfold iloc. rewrite length_map.
  destruct ((0 <=? _) && _)%Z; [|reflexivity].
  rewrite nth_error_map.
  destruct (nth_error l _); reflexivity.
Qed.

Lemma iloc_range {A} (l : list A) (i : Z) :
  (- Z.of_nat (List.length l) <= i < Z.of_nat (List.length l))%Z ->
  exists a, iloc l i = Ok a.
Proof.
  intros H. unfold iloc.
  set (n := Z.of_nat (List.length l)) in *.
  set (j := if (i <? 0)%Z then (i + n)%Z else i).
  assert (Hj : (0 <= j < n)%Z).
  { subst j. destruct (i <? 0)%Z eqn:E.
    - apply Z.ltb_lt in E. lia.
    - apply Z.ltb_ge in E. lia. }
  replace ((0 <=? j) && (j <? n))%Z with true.
  - destruct (nth_error l (Z.to_nat j)) eqn:E; [eauto|].
    apply nth_error_None in E. subst n. lia.
  - symmetry. apply andb_true_iff. split.
    + apply Z.leb_le. lia.
    + apply Z.ltb_lt. lia.
Qed.

Lemma iloc_outside {A} (l : list A) (i : Z) :
  (i < - Z.of_nat (List.length l) \/ Z.of_nat (List.length l) <= i)%Z ->
  iloc l i = Raise IndexError.
Proof.
  intros H. unfold iloc.
  set (n := Z.of_nat (List.length l)) in *.
  destruct (i <? 0)%Z eqn:E.
  - apply Z.ltb_lt in E.
    destruct (0 <=? i + n)%Z eqn:E1; simpl; [|reflexivity].
    apply Z.leb_le in E1. lia.
  - apply Z.ltb_ge in E.
    destruct (i <? n)%Z eqn:E1; [|now rewrite andb_false_r].
    apply Z.ltb_lt in E1. lia.
Qed.

(** The four situations in which no value can be read. *)
Definition table_absent (df : option DataFrame) : Prop := df = None.

Definition column_absent (df : option DataFrame) (column_name : option string)
  : Prop :=
  column_name = None \/
  exists d c, df = Some d /\ column_name = Some c /\ ~ In (LStr c) (columns d).

(** The index designates no row, counting from either end. *)
Definition row_beyond (df : option DataFrame) (row_idx : Z) : Prop :=
  exists d, df = Some d /\
    (Z.of_nat (List.length (rows d)) <= row_idx
     \/ row_idx < - Z.of_nat (List.length (rows d)))%Z.

Definition cell_null (df : option DataFrame) (column_name : option string)
    (row_idx : Z) : Prop :=
  exists d c r, df = Some d /\ column_name = Some c /\
    iloc (rows d) row_idx = Ok r /\ isna (row_get (columns d) r c) = true.

(** The raw cell is there and holds a value. *)
Definition cell_present (df : option DataFrame) (column_name : option string)
    (row_idx : Z) (v : cell) : Prop :=
  exists d c r, df = Some d /\ column_name = Some c /\
    In (LStr c) (columns d) /\
    iloc (rows d) row_idx = Ok r /\ row_get (columns d) r c = v /\
    isna v = false.

(** C8: [safe_get_value] never raises; it returns the default when the
    table is absent, the column is absent, the row index is beyond the
    table or the cell is null, and the raw cell value in the one remaining
    case. *)
Theorem safe_get_value_spec (df : option DataFrame)
    (column_name : option string) (row_idx : Z) (default : cell) :
  (exists v, safe_get_value df column_name row_idx default = Ok v)
  /\ ((table_absent df \/ column_absent df column_name
       \/ row_beyond df row_idx \/ cell_null df column_name row_idx)
      /\ safe_get_value df column_name row_idx default = Ok default
      \/
      (exists v, cell_present df column_name row_idx v
         /\ ~ (table_absent df \/ column_absent df column_name
               \/ row_beyond df row_idx)
         /\ safe_get_value df column_name row_idx default = Ok v)).
Proof.
  assert (Main :
    (table_absent df \/ column_absent df column_name
       \/ row_beyond df row_idx \/ cell_null df column_name row_idx)
      /\ safe_get_value df column_name row_idx default = Ok default
      \/
      (exists v, cell_present df column_name row_idx v
         /\ ~ (table_absent df \/ column_absent df column_name
               \/ row_beyond df row_idx)
         /\ safe_get_value df column_name row_idx default = Ok v)).
  { destruct df as [d|]; [|left; split; [left|]; reflexivity].
    destruct column_name as [c|];
      [|left; split; [right; left; left|]; reflexivity].
    unfold safe_get_value.
    destruct (in_columns c d) eqn:Hin; simpl.
    - apply in_columns_In in Hin.
      destruct (Z.of_nat (List.length (rows d)) <=? row_idx)%Z eqn:Hlen.
      + apply Z.leb_le in Hlen. left. split; [|reflexivity].
        right; right; left. exists d. auto.
      + apply Z.leb_gt in Hlen.
        unfold column_values. rewrite iloc_map.
        destruct (iloc (rows d) row_idx) as [r|e] eqn:Hr; simpl.
        * destruct (isna (row_get (columns d) r c)) eqn:Hna.
          -- left. split; [|reflexivity].
             right; right; right. exists d, c, r. auto.
          -- right. exists (row_get (columns d) r c).
             split; [exists d, c, r; auto 6|]. split; [|reflexivity].
             intros [H|[H|H]].
             ++ discriminate H.
             ++ destruct H as [H|(d' & c' & [= <-] & [= <-] & H)];
                  [discriminate | contradiction].
             ++ destruct H as (d' & [= <-] & H).
                rewrite iloc_outside in Hr by lia. discriminate.
        * left. split; [|reflexivity].
          right; right; left. exists d. split; [reflexivity|].
          destruct (Z_lt_dec row_idx (- Z.of_nat (List.length (rows d))));
            [auto|].
          destruct (@iloc_range _ (rows d) row_idx) as [a Ha]; [lia|].
          congruence.
    - left. split; [|reflexivity].
      right; left; right. exists d, c. repeat split; auto.
      intros H. apply in_columns_In in H. congruence. }
  split; [|exact Main].
  destruct Main as [[_ H]|(v & _ & _ & H)]; eauto.
Qed.

(** ** Occurrences, [count] and [replace] *)

Module StrFacts.
Import PyStr.

Fixpoint drop (n : nat) (s : string) : string :=
  match n, s with
  | O, _ => s
  | S _, EmptyString => EmptyString
  | S n', String _ s' => drop n' s'
  end.

Lemma append_nil_r (s : string) : s ++ "" = s.
Proof. induction s; simpl; congruence. Qed.

Lemma append_assoc (a b c : string) : (a ++ b) ++ c = a ++ b ++ c.
Proof. induction a; simpl; congruence. Qed.

Lemma length_append (a b : string) :
  String.length (a ++ b) = String.length a + String.length b.
Proof. induction a; simpl; congruence. Qed.

Lemma prefix_append (k r : string) : prefix k (k ++ r) = true.
Proof.
  induction k as [|a k IH]; simpl.
  - now destruct r.
  - destruct (ascii_dec a a); [exact IH | contradiction].
Qed.

Lemma prefix_split (k s : string) :
  prefix k s = true -> s = k ++ drop (String.length k) s.
Proof.
  revert s. induction k as [|a k IH]; intros s H; simpl.
  - reflexivity.
  - destruct s as [|b s]; simpl in H; [discriminate|].
    destruct (ascii_dec a b); [|discriminate].
    subst b. f_equal. auto.
Qed.

Lemma prefix_extend (k l r : string) :
  prefix k l = true -> prefix k (l ++ r) = true.
Proof.
  intros H. rewrite (prefix_split _ _ H), append_assoc.
  apply prefix_append.
Qed.

Lemma occurs_nil (s : string) : occurs "" s = true.
Proof. destruct s; reflexivity. Qed.

Lemma occurs_cons (k : string) (c : ascii) (s : string) :
  occurs k (String c s) = prefix k (String c s) || occurs k s.
Proof. reflexivity. Qed.

Lemma occurs_app_l (k l r : string) :
  occurs k l = true -> occurs k (l ++ r) = true.
Proof.
  induction l as [|c l IH]; intros H.
  - simpl in H. rewrite orb_false_r in H.
    destruct k; [apply occurs_nil | discriminate].
  - rewrite occurs_cons in H. simpl append. rewrite occurs_cons.
    apply orb_true_iff in H. apply orb_true_iff.
    destruct H as [H|H]; [left | right; auto].
    now apply (prefix_extend _ (String c l)).
Qed.

Lemma occurs_app_r (k l r : string) :
  occurs k r = true -> occurs k (l ++ r) = true.
Proof.
  intros H. induction l as [|c l IH]; simpl append; [exact H|].
  rewrite occurs_cons, IH. apply orb_true_r.
Qed.

Lemma occurs_prefix (k s : string) : prefix k s = true -> occurs k s = true.
Proof. intros H. destruct s; simpl in *; rewrite H; reflexivity. Qed.

Lemma replace_from_skip (old new : string) (n : nat) (s : string) :
  replace_from old new n s = replace_from old new 0 (drop n s).
Proof.
  revert n. induction s as [|c s IH]; intros [|n]; simpl; auto.
Qed.

Lemma count_from_skip (sub : string) (n : nat) (s : string) :
  count_from sub n s = count_from sub 0 (drop n s).
Proof.
  revert n. induction s as [|c s IH]; intros [|n]; simpl; auto.
Qed.

Lemma length_drop (n : nat) (s : string) :
  String.length (drop n s) <= String.length s.
Proof.
  revert s. induction n as [|n IH]; intros [|c s]; simpl; try lia.
  specialize (IH s). lia.
Qed.

(** One step of the scan for a non-empty pattern: either the pattern does
    not occur and the text is unchanged, or the text splits at the first
    match. *)
Lemma replace_from_split (a : ascii) (k new s : string) :
  let old := String a k in
  (occurs old s = false /\ replace_from old new 0 s = s
   /\ count_from old 0 s = 0)
  \/ (exists pre rest,
        s = pre ++ old ++ rest
        /\ occurs old pre = false
        /\ replace_from old new 0 s = pre ++ new ++ replace_from old new 0 rest
        /\ count_from old 0 s = S (count_from old 0 rest)
        /\ String.length rest < String.length s).
Proof.
  intros old. induction s as [|c s IH].
  - left. repeat split; reflexivity.
  - destruct (prefix old (String c s)) eqn:P.
    + right. exists "", (drop (String.length old) (String c s)).
      split; [exact (prefix_split _ _ P)|].
      split; [reflexivity|].
      split; [|split].
      * simpl replace_from. simpl in P. rewrite P.
        rewrite replace_from_skip. simpl. now rewrite Nat.sub_0_r.
      * simpl count_from. simpl in P. rewrite P.
        rewrite count_from_skip. simpl. now rewrite Nat.sub_0_r.
      * simpl. pose proof (length_drop (String.length k) s). lia.
    + destruct IH as [(O & R & C)|(pre & rest & E & O & R & C & L)].
      * left. rewrite occurs_cons, P, O.
        repeat split; simpl in *; rewrite P; [now rewrite R | exact C].
      * right. exists (String c pre), rest.
        split; [simpl; now rewrite E|].
        split; [|split; [|split]].
        -- rewrite occurs_cons, O, orb_false_r.
           destruct (prefix old (String c pre)) eqn:P'; [|reflexivity].
           apply (prefix_extend _ _ (old ++ rest)) in P'.
           change (prefix old (String c (pre ++ old ++ rest)) = true) in P'.
           rewrite <- E in P'. congruence.
        -- simpl in *. rewrite P. now rewrite R.
        -- simpl in *. rewrite P. exact C.
        -- simpl. lia.
Qed.

(** A key [k] is isolated from a value [v] when an occurrence of [k] in a
    text around [v] never touches [v]. *)
Definition isolated (k v : string) : Prop :=
  forall l r, occurs k (l ++ v ++ r) = true ->
              occurs k l = true \/ occurs k r = true.

Lemma replace_from_no_new (a : ascii) (k new key : string) :
  isolated key new ->
  forall n s, String.length s <= n ->
    occurs key (replace_from (String a k) new 0 s) = true ->
    occurs key s = true.
Proof.
  intros Iso. induction n as [|n IH]; intros s Hn H.
  - destruct s; [exact H | simpl in Hn; lia].
  - destruct (replace_from_split a k new s)
      as [(_ & R & _)|(pre & rest & E & _ & R & _ & L)].
    + now rewrite R in H.
    + rewrite R in H. apply Iso in H. rewrite E.
      destruct H as [H|H].
      * now apply occurs_app_l.
      * apply occurs_app_r, occurs_app_r. apply IH; [lia | exact H].
Qed.

Lemma replace_from_removes (a : ascii) (k new : string) :
  isolated (String a k) new ->
  forall n s, String.length s <= n ->
    occurs (String a k) (replace_from (String a k) new 0 s) = false.
Proof.
  intros Iso. induction n as [|n IH]; intros s Hn.
  - destruct s; [reflexivity | simpl in Hn; lia].
  - destruct (replace_from_split a k new s)
      as [(O & R & _)|(pre & rest & E & O & R & _ & L)].
    + now rewrite R.
    + rewrite R.
      destruct (occurs (String a k) (pre ++ new ++ _)) eqn:H; [|reflexivity].
      apply Iso in H. destruct H as [H|H]; [congruence|].
      rewrite IH in H by lia. discriminate.
Qed.

Lemma replace_no_occurrence (s old new : string) :
  old <> "" -> occurs old s = false -> replace s old new = s.
Proof.
  intros Hne O. destruct old as [|a k]; [contradiction|]. unfold replace.
  destruct (replace_from_split a k new s)
    as [(_ & R & _)|(pre & rest & E & _)]; [exact R|].
  rewrite E in O. rewrite occurs_app_r in O; [discriminate|].
  apply occurs_prefix, prefix_append.
Qed.

Lemma count_no_occurrence (s sub : string) :
  sub <> "" -> occurs sub s = false -> count s sub = 0.
Proof.
  intros Hne O. destruct sub as [|a k]; [contradiction|]. unfold count.
  destruct (replace_from_split a k "" s)
    as [(_ & _ & C)|(pre & rest & E & _)]; [exact C|].
  rewrite E in O. rewrite occurs_app_r in O; [discriminate|].
  apply occurs_prefix, prefix_append.
Qed.

(** Replacing a pattern that [count] does not find changes nothing. *)
Lemma replace_count_zero (s old new : string) :
  count s old = 0 -> replace s old new = s.
Proof.
  destruct old as [|a k]; [discriminate|]. unfold count, replace.
  destruct (replace_from_split a k new s)
    as [(_ & R & _)|(pre & rest & _ & _ & _ & C & _)]; [auto|].
  rewrite C. discriminate.
Qed.

Lemma replace_no_new (s old new key : string) :
  old <> "" -> isolated key new ->
  occurs key (replace s old new) = true -> occurs key s = true.
Proof.
  intros Hne Iso. destruct old as [|a k]; [contradiction|].
  apply (replace_from_no_new a k new key Iso (String.length s)). lia.
Qed.

Lemma replace_removes (s old new : string) :
  old <> "" -> isolated old new -> occurs old (replace s old new) = false.
Proof.
  intros Hne Iso. destruct old as [|a k]; [contradiction|].
  apply (replace_from_removes a k new Iso (String.length s)). lia.
Qed.

End StrFacts.

(** ** Stable insertion sort *)

Section SortFacts.

Context {A : Type} (le : A -> A -> bool).

Lemma insert_by_perm (x : A) (l : list A) :
  Permutation (insert_by le x l) (x :: l).
Proof.
  induction l as [|y l IH]; simpl.
  - apply Permutation_refl.
  - destruct (le x y).
    + apply Permutation_refl.
    + eapply Permutation_trans; [apply perm_skip, IH | apply perm_swap].
Qed.

Lemma sort_by_perm (l : list A) : Permutation (sort_by le l) l.
Proof.
  induction l as [|x l IH]; simpl.
  - apply Permutation_refl.
  - eapply Permutation_trans; [apply insert_by_perm | now apply perm_skip].
Qed.

Hypothesis le_total : forall x y, le x y = false -> le y x = true.

Lemma insert_by_sorted (x : A) (l : list A) :
  Sorted (fun a b => le a b = true) l ->
  Sorted (fun a b => le a b = true) (insert_by le x l).
Proof.
  induction 1 as [|y l Hs IH Hd]; simpl.
  - repeat constructor.
  - destruct (le x y) eqn:E.
    + repeat constructor; assumption.
    + constructor; [exact IH|].
      destruct l as [|z l]; simpl.
      * constructor. now apply le_total.
      * destruct (le x z); constructor.
        -- now apply le_total.
        -- now inversion Hd.
Qed.

Lemma sort_by_sorted (l : list A) :
  Sorted (fun a b => le a b = true) (sort_by le l).
Proof.
  induction l as [|x l IH]; simpl.
  - constructor.
  - now apply insert_by_sorted.
Qed.

End SortFacts.

(** In a list sorted by a transitive order, an element that may not come
    before another one comes after it. *)
Lemma strongly_sorted_order {A} (R : A -> A -> Prop) (l : list A) (x y : A) :
  StronglySorted R l -> In x l -> In y l -> ~ R x y -> x <> y ->
  exists l1 l2 l3, l = (l1 ++ y :: l2 ++ x :: l3)%list.
Proof.
  induction 1 as [|h t Hs IH Hall]; intros Hx Hy Hn Hne; [contradiction|].
  simpl in Hx, Hy. destruct Hy as [->|Hy].
  - destruct Hx as [->|Hx]; [contradiction|].
    apply in_split in Hx. destruct Hx as (l2 & l3 & ->).
    now exists [], l2, l3.
  - destruct Hx as [->|Hx].
    + rewrite Forall_forall in Hall. now apply Hall in Hy.
    + destruct (IH Hx Hy Hn Hne) as (l1 & l2 & l3 & ->).
      now exists (h :: l1), l2, l3.
Qed.

(** ** The template filler *)

Definition longer_first (x y : string * string) : Prop :=
  String.length (fst y) <= String.length (fst x).

Lemma sorted_replacements_perm (d : Replacements) :
  Permutation (sorted_replacements d) d.
Proof. apply sort_by_perm. Qed.

Lemma sorted_replacements_sorted (d : Replacements) :
  StronglySorted longer_first (sorted_replacements d).
Proof.
  apply Sorted_StronglySorted.
  - intros x y z. unfold longer_first. lia.
  - unfold sorted_replacements.
    eapply Sorted_ind with
      (P := fun l => Sorted longer_first l).
    + constructor.
    + intros a l _ IH Hd. constructor; [exact IH|].
      destruct Hd as [|b l' Hb]; constructor.
      unfold longer_first. apply Nat.leb_le. exact Hb.
    + apply sort_by_sorted. intros x y H.
      apply Nat.leb_gt in H. apply Nat.leb_le. lia.
Qed.

(** The text component of the filler: one [replace] per item. *)
Definition fill_text (items : list (string * string)) (text : string) : string :=
  fold_left (fun t kv => PyStr.replace t (fst kv) (snd kv)) items text.

Lemma fill_step_text (text : string) (counts : dict nat) (kv : string * string) :
  fst (fill_step (text, counts) kv) = PyStr.replace text (fst kv) (snd kv).
Proof.
  destruct kv as [k v]. simpl.
  destruct (PyStr.count text k) eqn:C; simpl.
  - symmetry. now apply StrFacts.replace_count_zero.
  - reflexivity.
Qed.

Lemma fold_fill_step_text (items : list (string * string)) (acc : string * dict nat) :
  fst (fold_left fill_step items acc) = fill_text items (fst acc).
Proof.
  revert acc. induction items as [|kv items IH]; intros [text counts]; simpl.
  - reflexivity.
  - rewrite IH. unfold fill_text. f_equal. apply fill_step_text.
Qed.

Lemma fill_template_text (template : string) (d : Replacements) :
  fst (fill_template template d) = fill_text (sorted_replacements d) template.
Proof. unfold fill_template. now rewrite fold_fill_step_text. Qed.

Lemma fold_fill_step_fixed (items : list (string * string)) (text : string)
    (counts : dict nat) :
  (forall kv, In kv items -> PyStr.count text (fst kv) = 0) ->
  fold_left fill_step items (text, counts) = (text, counts).
Proof.
  induction items as [|[k v] items IH]; intros H; cbn [fold_left].
  - reflexivity.
  - assert (E : fill_step (text, counts) (k, v) = (text, counts)).
    { pose proof (H (k, v) (or_introl eq_refl)) as C. cbn [fst] in C.
      unfold fill_step. now rewrite C. }
    rewrite E. apply IH. intros kv Hin. apply H. now right.
Qed.

Lemma first_occurrence_replaced (text old new : string) :
  old <> "" -> PyStr.occurs old text = true ->
  exists pre post,
    text = pre ++ old ++ post
    /\ PyStr.occurs old pre = false
    /\ PyStr.replace text old new = pre ++ new ++ PyStr.replace post old new.
Proof.
  intros Hne O. destruct old as [|a k]; [contradiction|].
  unfold PyStr.replace.
  destruct (StrFacts.replace_from_split a k new text)
    as [(O' & _)|(pre & rest & E & Op & R & _)]; [congruence|].
  exists pre, rest. auto.
Qed.

(** *** Prefix safety *)

Lemma longest_key_first (d : Replacements) (long b : string) :
  NoDup (dict_keys d) ->
  dict_get long d = Some b ->
  (forall k, In k (dict_keys d) -> k <> long ->
             String.length k < String.length long) ->
  exists rest, sorted_replacements d = (long, b) :: rest.
Proof.
  intros ND Hb Hlong.
  pose proof (sorted_replacements_perm d) as P.
  pose proof (sorted_replacements_sorted d) as S.
  apply dict_get_In in Hb.
  apply (Permutation_in _ (Permutation_sym P)) in Hb.
  assert (ND' : NoDup (map fst (sorted_replacements d))).
  { eapply Permutation_NoDup; [|exact ND].
    apply Permutation_sym, Permutation_map, P. }
  assert (K : forall kv, In kv (sorted_replacements d) -> In (fst kv) (dict_keys d)).
  { intros kv H. apply in_map. eapply Permutation_in; eauto. }
  destruct (sorted_replacements d) as [|h t]; [contradiction|].
  destruct Hb as [->|Hin]; [eauto|]. exfalso.
  inversion S as [|? ? _ Hall]; subst.
  rewrite Forall_forall in Hall. pose proof (Hall _ Hin) as Hle.
  unfold longer_first in Hle. simpl in Hle.
  inversion ND' as [|? ? Hnotin _]; subst.
  destruct (string_dec (fst h) long) as [E|E].
  - apply Hnotin. rewrite E. change long with (fst (long, b)). now apply in_map.
  - specialize (Hlong (fst h) (K h (or_introl eq_refl)) E). lia.
Qed.

Definition three_keys : Replacements :=
  [("xxAxx", "1"); ("xxABxx", "2"); ("xxABxxC", "3")].

(** C5, as stated, fails: in a map that also holds a longer key covering
    the occurrence, the occurrence of [xxABxx] is consumed by that key and
    the value of [xxABxx] appears nowhere in the output. *)
Lemma prefix_safety_any_map_fails :
  dict_get "xxAxx" three_keys = Some "1"
  /\ dict_get "xxABxx" three_keys = Some "2"
  /\ PyStr.occurs "xxABxx" "xxABxxC" = true
  /\ fst (fill_template "xxABxxC" three_keys) = "3"
  /\ PyStr.occurs "2" (fst (fill_template "xxABxxC" three_keys)) = false.
Proof. repeat split; reflexivity. Qed.

Lemma strongly_sorted_before {A} (R : A -> A -> Prop) (l1 l2 : list A) (y : A) :
  StronglySorted R (l1 ++ y :: l2) -> forall x, In x l1 -> R x y.
Proof.
  induction l1 as [|h l1 IH]; simpl; intros S x Hx; [contradiction|].
  inversion S as [|? ? S' Hall]; subst. destruct Hx as [<-|Hx].
  - rewrite Forall_forall in Hall. apply Hall. apply in_or_app. right. now left.
  - now apply IH.
Qed.

Lemma fill_text_app (l1 l2 : list (string * string)) (text : string) :
  fill_text (l1 ++ l2) text = fill_text l2 (fill_text l1 text).
Proof. unfold fill_text. apply fold_left_app. Qed.

Lemma fill_text_absent (items : list (string * string)) (text : string) :
  (forall kv, In kv items -> PyStr.occurs (fst kv) text = false) ->
  fill_text items text = text.
Proof.
  induction items as [|[k v] items IH]; intros H; [reflexivity|].
  simpl. pose proof (H (k, v) (or_introl eq_refl)) as O. simpl in O.
  rewrite StrFacts.replace_no_occurrence; [|intros ->|exact O].
  - apply IH. intros kv Hin. apply H. now right.
  - rewrite StrFacts.occurs_nil in O. discriminate.
Qed.

(** C5 (amended): the filler substitutes in descending key-length order, so
    in any map holding a shorter and a longer key (such as [xxAxx] and
    [xxABxx]) the longer one is substituted before the shorter one; and
    when no other key of the map that is at least as long as the longer
    key occurs in the template, the keys tried before it replace nothing:
    the filled text is what the keys after it in the order, the shorter
    key among them, make of the template in which the left-to-right
    occurrences of the longer key have been replaced by its value. *)
Theorem prefix_safety (d : Replacements) (short long a b template : string) :
  NoDup (dict_keys d) ->
  dict_get short d = Some a ->
  dict_get long d = Some b ->
  String.length short < String.length long ->
  (exists l1 l2 l3,
      sorted_replacements d = (l1 ++ (long, b) :: l2 ++ (short, a) :: l3)%list)
  /\ ((forall k, In k (dict_keys d) -> k <> long ->
                 String.length long <= String.length k ->
                 PyStr.occurs k template = false) ->
      exists before rest,
        sorted_replacements d = (before ++ (long, b) :: rest)%list
        /\ (forall kv, In kv before -> PyStr.occurs (fst kv) template = false)
        /\ In (short, a) rest
        /\ fst (fill_template template d)
           = fill_text rest (PyStr.replace template long b)
        /\ (PyStr.occurs long template = true ->
            exists pre post,
              template = pre ++ long ++ post
              /\ PyStr.occurs long pre = false
              /\ fst (fill_template template d)
                 = fill_text rest (pre ++ b ++ PyStr.replace post long b))).
Proof.
  intros ND Ha Hb Hlen.
  pose proof (sorted_replacements_perm d) as P.
  pose proof (sorted_replacements_sorted d) as S.
  assert (Ia : In (short, a) (sorted_replacements d)).
  { eapply Permutation_in; [apply Permutation_sym, P|]. now apply dict_get_In. }
  assert (Ib : In (long, b) (sorted_replacements d)).
  { eapply Permutation_in; [apply Permutation_sym, P|]. now apply dict_get_In. }
  assert (Order : exists l1 l2 l3,
             sorted_replacements d
             = (l1 ++ (long, b) :: l2 ++ (short, a) :: l3)%list).
  { apply (@strongly_sorted_order _ _ _ _ _ S Ia Ib).
    - unfold longer_first. simpl. lia.
    - intros [= E _]. subst. lia. }
  split; [exact Order|].
  intros Habsent. destruct Order as (l1 & l2 & l3 & E).
  exists l1, (l2 ++ (short, a) :: l3)%list.
  assert (ND' : NoDup (map fst (sorted_replacements d))).
  { eapply Permutation_NoDup; [|exact ND].
    apply Permutation_sym, Permutation_map, P. }
  assert (Hbefore : forall kv, In kv l1 -> PyStr.occurs (fst kv) template = false).
  { intros kv Hin. apply Habsent.
    - apply in_map. apply (Permutation_in _ P). rewrite E.
      apply in_or_app. now left.
    - rewrite E, map_app in ND'. cbn [map fst] in ND'.
      apply NoDup_remove_2 in ND'. intros Heq. apply ND'.
      apply in_or_app. left. rewrite <- Heq. now apply in_map.
    - rewrite E in S.
      exact (strongly_sorted_before _ _ _ _ S kv Hin). }
  assert (T : fst (fill_template template d)
              = fill_text (l2 ++ (short, a) :: l3)
                  (PyStr.replace template long b)).
  { rewrite fill_template_text, E, fill_text_app.
    rewrite (fill_text_absent l1 template Hbefore). reflexivity. }
  split; [exact E|]. split; [exact Hbefore|].
  split; [apply in_or_app; right; now left|]. split; [exact T|].
  intros O.
  assert (Hne : long <> "") by (intros ->; simpl in Hlen; lia).
  destruct (@first_occurrence_replaced template long b Hne O)
    as (pre & post & E1 & E2 & E3).
  exists pre, post. rewrite T, E3. auto.
Qed.

Definition two_keys : Replacements := [("xxAxx", "1"); ("xxABxx", "2")].

Lemma prefix_safety_witness :
  fst (fill_template "a xxABxx b xxAxx" three_keys) = "a 2 b 1".
Proof.
  destruct (@prefix_safety three_keys "xxAxx" "xxABxx" "1" "2"
              "a xxABxx b xxAxx") as [_ H].
  - repeat constructor; simpl; intuition discriminate.
  - reflexivity.
  - reflexivity.
  - simpl. lia.
  - destruct H as (before & rest & E & _ & _ & T & _).
    + intros k Hk Hne Hle. simpl in Hk.
      destruct Hk as [<-|[<-|[<-|[]]]];
        [simpl in Hle; lia | contradiction | reflexivity].
    + destruct before as [|x [|y [|z [|t before]]]]; try discriminate E.
      injection E as _ <-. exact T.
Defined.

(** *** Idempotence *)

(** The hypothesis of the stated property: no key occurs inside the value
    of another key. *)
Definition no_key_in_other_value (d : Replacements) : Prop :=
  forall k v k' v', In (k, v) d -> In (k', v') d -> k <> k' ->
                    PyStr.occurs k v' = false.

Definition growing_key : Replacements := [("xxAxx", "xxA")].

(** C6, as stated, fails: a value followed by template text can spell the
    key again, and the second run substitutes it. *)
Lemma fill_twice_differs :
  NoDup (dict_keys growing_key)
  /\ no_key_in_other_value growing_key
  /\ fst (fill_template "xxAxxxx" growing_key) = "xxAxx"
  /\ fst (fill_template (fst (fill_template "xxAxxxx" growing_key)) growing_key)
     = "xxA"
  /\ fst (fill_template (fst (fill_template "xxAxxxx" growing_key)) growing_key)
     <> fst (fill_template "xxAxxxx" growing_key).
Proof.
  split; [repeat constructor; simpl; tauto|].
  split.
  - intros k v k' v' [[= <- <-]|[]] [[= <- <-]|[]] Hd. contradiction.
  - repeat split; try reflexivity. vm_compute. discriminate.
Qed.

Lemma fill_text_clears (keys : list string) (items : list (string * string)) :
  (forall k, In k keys -> k <> "") ->
  (forall kv, In kv items ->
     In (fst kv) keys /\ forall k, In k keys -> StrFacts.isolated k (snd kv)) ->
  forall text k, In k keys ->
    PyStr.occurs k text = false \/ In k (map fst items) ->
    PyStr.occurs k (fill_text items text) = false.
Proof.
  intros Hne. induction items as [|[k0 v0] items IH]; intros Hit text k Hk H.
  - destruct H as [H|[]]. exact H.
  - simpl. apply IH; [intros kv Hin; apply Hit; now right | exact Hk |].
    destruct (Hit (k0, v0) (or_introl eq_refl)) as [Hk0 Hiso]. simpl in *.
    destruct (string_dec k0 k) as [->|Hd].
    + left. apply StrFacts.replace_removes; auto.
    + destruct H as [H|[H|H]]; [|contradiction|now right].
      left. destruct (PyStr.occurs k (PyStr.replace text k0 v0)) eqn:O; auto.
      apply StrFacts.replace_no_new in O; auto. congruence.
Qed.

(** C6 (amended): for every placeholder map whose keys are non-empty and
    isolated from every value of the map (a key occurring in a text around
    a value never touches the value; in particular no key is a substring of
    any value, its own included), and for every template, a second run of
    the filler on the output of the first leaves the text unchanged and
    replaces nothing. *)
Theorem fill_idempotent (d : Replacements) (template : string) :
  (forall k, In k (dict_keys d) -> k <> "") ->
  (forall k v, In k (dict_keys d) -> In v (map snd d) -> StrFacts.isolated k v) ->
  fill_template (fst (fill_template template d)) d
  = (fst (fill_template template d), []).
Proof.
  intros Hne Hiso.
  pose proof (sorted_replacements_perm d) as P.
  assert (Hkeys : forall kv, In kv (sorted_replacements d) ->
                    In (fst kv) (dict_keys d) /\ In (snd kv) (map snd d)).
  { intros kv H. apply (Permutation_in _ P) in H.
    split; now apply in_map. }
  unfold fill_template at 1. apply fold_fill_step_fixed.
  intros [k v] Hin. simpl.
  apply StrFacts.count_no_occurrence.
  - apply Hne. now apply (Hkeys (k, v)).
  - rewrite fill_template_text.
    apply (@fill_text_clears (dict_keys d)); auto.
    + intros kv H. destruct (Hkeys kv H). split; auto.
    + now apply (Hkeys (k, v)).
    + right. change k with (fst (k, v)). now apply in_map.
Qed.

(** A sufficient condition for isolation that can be checked by
    computation: a non-empty value sharing no character with the key. *)
Fixpoint has_char (c : ascii) (s : string) : bool :=
  match s with
  | EmptyString => false
  | String c' s' => Ascii.eqb c' c || has_char c s'
  end.

Fixpoint shares_char (k v : string) : bool :=
  match v with
  | EmptyString => false
  | String c v' => has_char c k || shares_char k v'
  end.

Lemma prefix_head (k : string) (c : ascii) (s : string) :
  prefix k (String c s) = true -> k = "" \/ has_char c k = true.
Proof.
  destruct k as [|a k]; [now left|]. simpl.
  destruct (ascii_dec a c) as [->|]; [|discriminate].
  intros _. right. now rewrite Ascii.eqb_refl.
Qed.

Lemma occurs_skip_value (k v r : string) :
  shares_char k v = false ->
  PyStr.occurs k (v ++ r) = true -> PyStr.occurs k r = true.
Proof.
  induction v as [|c v IH]; simpl append; intros Hs H; [exact H|].
  simpl in Hs. apply orb_false_iff in Hs. destruct Hs as [Hc Hs].
  rewrite StrFacts.occurs_cons in H. apply orb_true_iff in H.
  destruct H as [H|H]; [|auto].
  apply prefix_head in H. destruct H as [->|H]; [|congruence].
  apply StrFacts.occurs_nil.
Qed.

Lemma prefix_reaches_value (l k : string) (c : ascii) (v r : string) :
  prefix k (l ++ String c v ++ r) = true ->
  prefix k l = true \/ has_char c k = true.
Proof.
  revert k. induction l as [|b l IH]; intros k H.
  - simpl in H. apply prefix_head in H.
    destruct H as [->|H]; [left; reflexivity | now right].
  - destruct k as [|a k]; [now left|].
    simpl in H |- *. destruct (ascii_dec a b) as [->|]; [|discriminate].
    apply IH in H. destruct H as [H|H]; [now left|].
    right. rewrite H. apply orb_true_r.
Qed.

Lemma disjoint_isolated (k v : string) :
  v <> "" -> shares_char k v = false -> StrFacts.isolated k v.
Proof.
  intros Hv Hs l r. induction l as [|b l IH]; intros H.
  - right. now apply (occurs_skip_value k v).
  - simpl append in H. rewrite StrFacts.occurs_cons in H.
    apply orb_true_iff in H. destruct H as [H|H].
    + destruct v as [|c v]; [contradiction|].
      change (String b (l ++ String c v ++ r))
        with (String b l ++ String c v ++ r) in H.
      apply prefix_reaches_value in H. destruct H as [H|H].
      * left. now apply StrFacts.occurs_prefix.
      * simpl in Hs. rewrite H in Hs. discriminate.
    + destruct (IH H) as [H'|H']; [left | now right].
      rewrite StrFacts.occurs_cons, H'. apply orb_true_r.
Qed.

Lemma fill_idempotent_witness :
  fill_template (fst (fill_template "a xxABxx b xxAxx" two_keys)) two_keys
  = ("a 2 b 1", []).
Proof.
  apply (@fill_idempotent two_keys "a xxABxx b xxAxx").
  - intros k Hk. simpl in Hk.
    destruct Hk as [<-|[<-|[]]]; discriminate.
  - intros k v Hk Hv. simpl in Hk, Hv.
    destruct Hk as [<-|[<-|[]]]; destruct Hv as [<-|[<-|[]]];
      apply disjoint_isolated; (discriminate || reflexivity).
Defined.

(** ** [sort_values] *)

(** Ascending order of identifiers, null last. *)
Definition cell_ord (a b : cell) : Prop :=
  match key_of_cell a, key_of_cell b with
  | _, None => True
  | None, Some _ => False
  | Some (KNum x), Some (KNum y) => (x <= y)%Z
  | Some (KStr x), Some (KStr y) => String.leb x y = true
  | _, _ => False
  end.

Lemma cell_leb_total (a b : cell) : cell_leb a b = false -> cell_leb b a = true.
Proof.
  unfold cell_leb.
  destruct (key_of_cell a) as [[x|x]|], (key_of_cell b) as [[y|y]|];
    try discriminate; try reflexivity.
  - intros H. apply Z.leb_gt in H. apply Z.leb_le. lia.
  - intros H. destruct (String.leb_total x y); congruence.
Qed.

Lemma Sorted_impl_in {A} (R R' : A -> A -> Prop) (l : list A) :
  (forall a b, In a l -> In b l -> R a b -> R' a b) ->
  Sorted R l -> Sorted R' l.
Proof.
  intros H S. induction S as [|a l S IH Hd].
  - constructor.
  - constructor.
    + apply IH. intros x y Hx Hy. apply H; now right.
    + destruct Hd as [|b l Hb]; constructor.
      apply H; simpl; auto.
Qed.

Lemma Sorted_append {A} (R : A -> A -> Prop) (l1 l2 : list A) :
  Sorted R l1 -> Sorted R l2 ->
  (forall a b, In a l1 -> In b l2 -> R a b) ->
  Sorted R (l1 ++ l2)%list.
Proof.
  intros S1 S2 H. induction S1 as [|a l S IH Hd]; simpl.
  - exact S2.
  - constructor.
    + apply IH. intros x y Hx. apply H. now right.
    + destruct Hd as [|b l Hb]; simpl.
      * destruct l2 as [|c l2]; constructor. apply H; simpl; auto.
      * now constructor.
Qed.

Lemma filter_partition {A} (p : A -> bool) (l : list A) :
  Permutation (filter p l ++ filter (fun x => negb (p x)) l)%list l.
Proof.
  induction l as [|x l IH]; simpl.
  - constructor.
  - destruct (p x); simpl.
    + now constructor.
    + eapply Permutation_trans; [apply Permutation_sym, Permutation_middle|].
      now constructor.
Qed.

Lemma isna_negb_notna (c : cell) : isna c = negb (notna c).
Proof. unfold notna. now rewrite negb_involutive. Qed.

Lemma sort_values_ok (cols : list label) (by_col : string)
    (rs cells : list row) :
  sort_values cols by_col rs = Ok cells ->
  Permutation cells rs
  /\ Sorted (fun a b => cell_ord (row_get cols a by_col) (row_get cols b by_col))
            cells.
Proof.
  unfold sort_values. cbv zeta.
  set (key := fun r : row => row_get cols r by_col).
  change (fun r : row => notna (row_get cols r by_col))
    with (fun r => notna (key r)).
  change (fun r : row => isna (row_get cols r by_col))
    with (fun r => isna (key r)).
  change (fun a b : row =>
            cell_leb (row_get cols a by_col) (row_get cols b by_col))
    with (fun a b => cell_leb (key a) (key b)).
  change (fun r : row => is_num_cell (row_get cols r by_col))
    with (fun r => is_num_cell (key r)).
  change (fun r : row => is_str_cell (row_get cols r by_col))
    with (fun r => is_str_cell (key r)).
  set (keyed := filter (fun r => notna (key r)) rs).
  set (nulls := filter (fun r => isna (key r)) rs).
  set (sorted := sort_by (fun a b => cell_leb (key a) (key b)) keyed).
  destruct (forallb (fun r => is_num_cell (key r)) keyed
            || forallb (fun r => is_str_cell (key r)) keyed) eqn:Hom;
    [|discriminate].
  intros [= <-].
  assert (Pk : Permutation sorted keyed) by apply sort_by_perm.
  split.
  - eapply Permutation_trans; [apply Permutation_app_tail, Pk|].
    subst keyed nulls.
    erewrite (filter_ext (fun r => isna (key r)));
      [apply filter_partition|].
    intros r. apply isna_negb_notna.
  - apply Sorted_append.
    + apply Sorted_impl_in with
        (R := fun a b => cell_leb (key a) (key b) = true).
      * intros a b Ha Hb Hle. change (cell_ord (key a) (key b)).
        apply (Permutation_in _ Pk) in Ha.
        apply (Permutation_in _ Pk) in Hb.
        apply orb_true_iff in Hom.
        destruct Hom as [Hom|Hom]; rewrite forallb_forall in Hom;
          pose proof (Hom _ Ha) as Ka; pose proof (Hom _ Hb) as Kb;
          unfold cell_ord, cell_leb in *;
          unfold is_num_cell, is_str_cell in *.
        -- destruct (key_of_cell (key a)) as [[x|x]|]; try discriminate.
           destruct (key_of_cell (key b)) as [[y|y]|]; try discriminate.
           now apply Z.leb_le.
        -- destruct (key a); try discriminate.
           destruct (key b); try discriminate. exact Hle.
      * apply sort_by_sorted. intros x y. apply cell_leb_total.
    + assert (Hn : forall r, In r nulls -> key_of_cell (key r) = None).
      { intros r Hr. apply filter_In in Hr. destruct Hr as [_ Hr].
        destruct (key r); try discriminate. reflexivity. }
      clear - Hn. induction nulls as [|r l IH]; constructor.
      * apply IH. intros x Hx. apply Hn. now right.
      * destruct l as [|r' l]; constructor.
        change (cell_ord (key r) (key r')).
        unfold cell_ord. rewrite (Hn r') by (simpl; auto).
        now destruct (key_of_cell (key r)) as [[|]|].
    + intros a b _ Hb. apply filter_In in Hb. destruct Hb as [_ Hb].
      change (cell_ord (key a) (key b)). unfold cell_ord.
      destruct (key b); try discriminate. simpl.
      now destruct (key_of_cell (key a)) as [[|]|].
Qed.

(** Sorting succeeds when the identifiers that are not null are all text or
    all numbers. *)
Lemma sort_values_total (cols : list label) (by_col : string) (rs : list row) :
  (forall r, In r rs ->
     is_str_cell (row_get cols r by_col) = true
     \/ isna (row_get cols r by_col) = true)
  \/ (forall r, In r rs ->
        is_num_cell (row_get cols r by_col) = true
        \/ isna (row_get cols r by_col) = true) ->
  exists cells, sort_values cols by_col rs = Ok cells.
Proof.
  intros H. unfold sort_values. cbv zeta.
  match goal with
  | |- context [if ?c then _ else _] => assert (E : c = true)
  end.
  { apply orb_true_iff.
    destruct H as [H|H]; [right | left]; apply forallb_forall;
      intros r Hr; apply filter_In in Hr; destruct Hr as [Hr Hna];
      destruct (H r Hr) as [Hk|Hk]; auto;
      unfold notna in Hna; rewrite Hk in Hna; discriminate. }
  rewrite E. eauto.
Qed.

(** ** The DSS extraction stage *)

Definition five_g_local_id_col (df : DataFrame) : option string :=
  column (Some df) ["cellLocalId"; "celllocalid"].

Definition five_g_sector_col (df : DataFrame) : option string :=
  column (Some df) ["NRSectorCarrier"; "nrsectorcarrier"].

(** The rows of "5G Info" that qualify for a node name. *)
Definition qualifying (five_g_df : DataFrame) (gc dc gnb_name : string)
  : list row :=
  filter (dss_filter (columns five_g_df) gc dc gnb_name) (rows five_g_df).

(** The cross-reference and the identifier of a row, as the stage reads
    them. *)
Definition lte_name (five_g_df : DataFrame) (dc : string) (r : row) : string :=
  PyStr.strip (py_str (row_get (columns five_g_df) r dc)).

Definition nr_name (five_g_df : DataFrame) (nc : string) (r : row) : string :=
  PyStr.strip (py_str (row_get (columns five_g_df) r nc)).

Section DssStage.

Variables (five_g_df : DataFrame) (eutran_df : option DataFrame).
Variables (gnb_name gc dc nc : string).

(** The three required columns of "5G Info" resolved. *)
Hypothesis Hgc :
  as_truthy (column (Some five_g_df) ["gNB Name"; "gNodeB Name"]) = Some gc.
Hypothesis Hdc :
  as_truthy (column (Some five_g_df) ["DSS"; "dss"]) = Some dc.
Hypothesis Hnc :
  as_truthy (column (Some five_g_df) ["NRCellDU"; "NRCellDu"]) = Some nc.

Lemma extract_dss_cells_resolved (r : Replacements) :
  dict_get "xx5G_NR_Node_Namexx" r = Some gnb_name ->
  extract_dss_cells five_g_df eutran_df r =
    match nr_dss_cells five_g_df gc dc nc gnb_name with
    | Ok (alpha :: beta :: gamma :: _) =>
        emit_if_bands five_g_df eutran_df dc nc
          (five_g_local_id_col five_g_df) (five_g_sector_col five_g_df)
          alpha beta gamma r
    | Ok _ => (Ok tt, r)
    | Raise e => (Raise e, r)
    end.
Proof.
  intros H. pose proof (resolved_readable _ _ _ Hgc) as Hr.
  unfold extract_dss_cells. cbv zeta.
  rewrite (bind_ok _ _ r r gnb_name) by (unfold get_item; now rewrite H).
  columns_returned Hr. rewrite Hdc, Hgc, Hnc. unfold bind, lift.
  destruct (nr_dss_cells five_g_df gc dc nc gnb_name)
    as [[|a [|b [|c rest]]]|e]; reflexivity.
Qed.

Lemma dss_stage_resolved (r : Replacements) (ws : list string) :
  dict_get "xx5G_NR_Node_Namexx" r = Some gnb_name ->
  dss_stage (Some five_g_df) eutran_df r ws =
    match extract_dss_cells five_g_df eutran_df r with
    | (Ok _, r') => (r', ws)
    | (Raise e, r') => (r', (ws ++ [dss_warning e])%list)
    end.
Proof.
  intros H. unfold dss_stage, dict_mem. rewrite H. reflexivity.
Qed.

Lemma emit_if_bands_failure (cl sc : option string) (alpha beta gamma : row)
    (r : Replacements) :
  Band.lte_band_match (lte_name five_g_df dc alpha) = None
  \/ Band.nr_band_match (nr_name five_g_df nc alpha) = None ->
  emit_if_bands five_g_df eutran_df dc nc cl sc alpha beta gamma r = (Ok tt, r).
Proof.
  unfold emit_if_bands, lte_name, nr_name. cbv zeta. intros [H|H]; rewrite H.
  - reflexivity.
  - now destruct (Band.lte_band_match _).
Qed.

Lemma dss_stage_band_failure (r : Replacements) (ws : list string)
    (alpha beta gamma : row) (rest : list row) :
  dict_get "xx5G_NR_Node_Namexx" r = Some gnb_name ->
  nr_dss_cells five_g_df gc dc nc gnb_name = Ok (alpha :: beta :: gamma :: rest) ->
  Band.lte_band_match (lte_name five_g_df dc alpha) = None
  \/ Band.nr_band_match (nr_name five_g_df nc alpha) = None ->
  dss_stage (Some five_g_df) eutran_df r ws = (r, ws).
Proof.
  intros Hname Hcells Hband.
  rewrite (dss_stage_resolved r ws Hname), (extract_dss_cells_resolved r Hname).
  rewrite Hcells. now rewrite emit_if_bands_failure.
Qed.

Lemma dss_stage_few_rows (r : Replacements) (ws : list string)
    (cells : list row) :
  dict_get "xx5G_NR_Node_Namexx" r = Some gnb_name ->
  nr_dss_cells five_g_df gc dc nc gnb_name = Ok cells ->
  List.length cells < 3 ->
  dss_stage (Some five_g_df) eutran_df r ws = (r, ws).
Proof.
  intros Hname Hcells Hlen.
  rewrite (dss_stage_resolved r ws Hname), (extract_dss_cells_resolved r Hname).
  rewrite Hcells.
  destruct cells as [|a [|b [|c rest]]]; simpl in Hlen; try lia; reflexivity.
Qed.

(** C1 (amended): when the legacy band pattern or the next-gen band
    pattern fails to match on the alpha row, the stage emits nothing at
    all: neither the band-dependent placeholders nor the local-ID and
    sector-carrier placeholders, whatever columns resolved; the map and
    the warnings are as they were. *)
Theorem band_failure_emits_nothing (r : Replacements) (ws : list string)
    (alpha beta gamma : row) (rest : list row) :
  dict_get "xx5G_NR_Node_Namexx" r = Some gnb_name ->
  nr_dss_cells five_g_df gc dc nc gnb_name = Ok (alpha :: beta :: gamma :: rest) ->
  Band.lte_band_match (lte_name five_g_df dc alpha) = None
  \/ Band.nr_band_match (nr_name five_g_df nc alpha) = None ->
  dss_stage (Some five_g_df) eutran_df r ws = (r, ws).
Proof.
  intros Hname Hcells Hband.
  rewrite (dss_stage_resolved r ws Hname), (extract_dss_cells_resolved r Hname).
  rewrite Hcells. now rewrite emit_if_bands_failure.
Qed.

(** C4: the rows that qualify (node name equal to the resolved one,
    cross-reference not null and not [NO]) are sorted ascending by
    next-gen cell identifier, and the first three of the sorted rows are
    alpha, beta and gamma; with fewer than three qualifying rows the
    stage leaves the placeholder map as it was and returns.  Sorting
    returns when the identifiers are all text or all numbers; when it
    raises, nothing is emitted either and the handler logs the
    exception. *)
Theorem dss_triple_selection (r : Replacements) (ws : list string) :
  dict_get "xx5G_NR_Node_Namexx" r = Some gnb_name ->
  let rows_q := qualifying five_g_df gc dc gnb_name in
  let ident (x : row) := row_get (columns five_g_df) x nc in
  (forall cells,
      nr_dss_cells five_g_df gc dc nc gnb_name = Ok cells ->
      Permutation cells rows_q
      /\ Sorted (fun a b => cell_ord (ident a) (ident b)) cells
      /\ (3 <= List.length rows_q ->
          exists alpha beta gamma rest,
            cells = alpha :: beta :: gamma :: rest
            /\ extract_dss_cells five_g_df eutran_df r
               = emit_if_bands five_g_df eutran_df dc nc
                   (five_g_local_id_col five_g_df)
                   (five_g_sector_col five_g_df) alpha beta gamma r))
  /\ ((forall x, In x rows_q ->
         is_str_cell (ident x) = true \/ isna (ident x) = true)
      \/ (forall x, In x rows_q ->
            is_num_cell (ident x) = true \/ isna (ident x) = true) ->
      exists cells, nr_dss_cells five_g_df gc dc nc gnb_name = Ok cells)
  /\ (List.length rows_q < 3 ->
      exists ws', dss_stage (Some five_g_df) eutran_df r ws = (r, ws'))
  /\ (forall e,
        nr_dss_cells five_g_df gc dc nc gnb_name = Raise e ->
        dss_stage (Some five_g_df) eutran_df r ws
        = (r, (ws ++ [dss_warning e])%list)).
Proof.
  intros Hname rows_q ident. subst rows_q. unfold qualifying.
  split; [|split; [|split]].
  - intros cells Hcells.
    destruct (sort_values_ok _ _ _ _ Hcells) as [P S].
    split; [exact P | split; [exact S|]].
    intros Hlen. pose proof (Permutation_length P) as L.
    destruct cells as [|a [|b [|c rest]]]; simpl in L; try lia.
    exists a, b, c, rest. split; [reflexivity|].
    now rewrite (extract_dss_cells_resolved r Hname), Hcells.
  - intros H. apply sort_values_total. exact H.
  - intros Hlen.
    rewrite (dss_stage_resolved r ws Hname), (extract_dss_cells_resolved r Hname).
    destruct (nr_dss_cells five_g_df gc dc nc gnb_name) as [cells|e] eqn:Hcells;
      [|eauto].
    destruct (sort_values_ok _ _ _ _ Hcells) as [P _].
    pose proof (Permutation_length P) as L.
    destruct cells as [|a [|b [|c rest]]]; simpl in L; try lia; eauto.
  - intros e He.
    rewrite (dss_stage_resolved r ws Hname), (extract_dss_cells_resolved r Hname).
    now rewrite He.
Qed.

End DssStage.

(** ** The legacy cell detail join *)

(** The rows of "eUtran Parameters" whose cell identifier is [name]. *)
Definition eutran_rows (edf : DataFrame) (ecc name : string) : list row :=
  filter (fun r => cell_eq_str (row_get (columns edf) r ecc) name) (rows edf).

Lemma set_int_of_first_nil (k : string) (cols : list label) (col : string)
    (r : Replacements) :
  set_int_of_first k cols [] col r = (Raise IndexError, r).
Proof. reflexivity. Qed.

Lemma set_int_of_first_cases (k : string) (cols : list label)
    (matching : list row) (col : string) (r : Replacements) :
  (exists v, set_int_of_first k cols matching col r = (Ok tt, dict_set k v r))
  \/ (exists e, set_int_of_first k cols matching col r = (Raise e, r)).
Proof.
  unfold set_int_of_first, set_int, bind, lift, set_item.
  destruct (iloc matching 0) as [x|e]; [|eauto].
  destruct (py_int (row_get cols x col)) as [z|e]; eauto.
Qed.

Lemma set_int_of_first_int (k : string) (cols : list label) (x : row)
    (matching : list row) (col : string) (z : Z) (r : Replacements) :
  py_int (row_get cols x col) = Ok z ->
  set_int_of_first k cols (x :: matching) col r
  = (Ok tt, dict_set k (PyStr.str_of_Z z) r).
Proof.
  intros H. unfold set_int_of_first, set_int, bind, lift, set_item.
  change (iloc (x :: matching) 0) with (Ok x). cbv beta iota.
  now rewrite H.
Qed.

Section Join.

Local Open Scope py_scope.

Variables (edf : DataFrame) (ecc cid sid : string).

(** The six assignments of the join, in source order. *)
Definition join_assignments (alpha_rows beta_rows gamma_rows : list row)
  : M unit :=
  let cols := columns edf in
  set_int_of_first "LTE_cellidA" cols alpha_rows cid ;;;
  set_int_of_first "LTE_cellidB" cols beta_rows cid ;;;
  set_int_of_first "LTE_cellidC" cols gamma_rows cid ;;;
  set_int_of_first "xxLTE_SectorCarrier_No_Alphaxx" cols alpha_rows sid ;;;
  set_int_of_first "xxLTE_SectorCarrier_No_Betaxx" cols beta_rows sid ;;;
  set_int_of_first "xxLTE_SectorCarrier_No_Gammaxx" cols gamma_rows sid.

Hypothesis Hecc :
  as_truthy (column (Some edf) ["EutranCellFDDId"; "EUtranCellFDDId"])
  = Some ecc.

Lemma lte_cell_details_skipped (la lb lg : string) (r : Replacements) :
  eutran_rows edf ecc la = [] ->
  lte_cell_details (Some edf) la lb lg r = (Ok tt, r).
Proof.
  intros H. pose proof (resolved_readable _ _ _ Hecc) as Hr.
  unfold lte_cell_details. cbv zeta. columns_returned Hr. rewrite Hecc.
  unfold eutran_rows in H. rewrite H.
  destruct (as_truthy (column (Some edf) ["cellId"; "cellid"]));
    [|reflexivity].
  destruct (as_truthy (column (Some edf) ["sectorId"; "sectorid"]));
    reflexivity.
Qed.

Hypothesis Hcid :
  as_truthy (column (Some edf) ["cellId"; "cellid"]) = Some cid.
Hypothesis Hsid :
  as_truthy (column (Some edf) ["sectorId"; "sectorid"]) = Some sid.

Lemma lte_cell_details_resolved (la lb lg : string) (r : Replacements) :
  lte_cell_details (Some edf) la lb lg r =
    if (0 <? List.length (eutran_rows edf ecc la))%nat
    then join_assignments (eutran_rows edf ecc la) (eutran_rows edf ecc lb)
           (eutran_rows edf ecc lg) r
    else (Ok tt, r).
Proof.
  pose proof (resolved_readable _ _ _ Hecc) as Hr.
  unfold lte_cell_details. cbv zeta. columns_returned Hr.
  rewrite Hecc, Hcid, Hsid.
  unfold eutran_rows, join_assignments.
  destruct (0 <? _)%nat; reflexivity.
Qed.

(** What a missing beta row does once alpha's row is there. *)
Lemma beta_miss_after_alpha (la lb lg : string) (x : row) (xs : list row)
    (z : Z) (r : Replacements) :
  eutran_rows edf ecc la = x :: xs ->
  py_int (row_get (columns edf) x cid) = Ok z ->
  eutran_rows edf ecc lb = [] ->
  lte_cell_details (Some edf) la lb lg r
  = (Raise IndexError, dict_set "LTE_cellidA" (PyStr.str_of_Z z) r).
Proof.
  intros Ha Hz Hb. rewrite lte_cell_details_resolved, Ha, Hb. simpl Nat.ltb.
  cbv iota. unfold join_assignments. cbv zeta.
  erewrite bind_ok; [|apply set_int_of_first_int; exact Hz].
  apply bind_raise, set_int_of_first_nil.
Qed.

End Join.

Lemma join_beta_missing (edf : DataFrame) (cid sid : string)
    (alpha_rows gamma_rows : list row) (r : Replacements) :
  let out := join_assignments edf cid sid alpha_rows [] gamma_rows r in
  dict_get "LTE_cellidB" (snd out) = dict_get "LTE_cellidB" r
  /\ dict_get "xxLTE_SectorCarrier_No_Betaxx" (snd out)
     = dict_get "xxLTE_SectorCarrier_No_Betaxx" r.
Proof.
  unfold join_assignments. cbv zeta.
  destruct (set_int_of_first_cases "LTE_cellidA" (columns edf) alpha_rows cid r)
    as [[v E]|[e E]].
  - rewrite (bind_ok _ _ _ _ _ E).
    rewrite (bind_raise _ _ _ _ _ (set_int_of_first_nil _ _ _ _)).
    cbn [snd]. rewrite !dict_get_set. split; reflexivity.
  - rewrite (bind_raise _ _ _ _ _ E). split; reflexivity.
Qed.

Lemma join_gamma_missing (edf : DataFrame) (cid sid : string)
    (alpha_rows beta_rows : list row) (r : Replacements) :
  let out := join_assignments edf cid sid alpha_rows beta_rows [] r in
  dict_get "LTE_cellidC" (snd out) = dict_get "LTE_cellidC" r
  /\ dict_get "xxLTE_SectorCarrier_No_Gammaxx" (snd out)
     = dict_get "xxLTE_SectorCarrier_No_Gammaxx" r.
Proof.
  unfold join_assignments. cbv zeta.
  destruct (set_int_of_first_cases "LTE_cellidA" (columns edf) alpha_rows cid r)
    as [[v E]|[e E]].
  - rewrite (bind_ok _ _ _ _ _ E).
    destruct (set_int_of_first_cases "LTE_cellidB" (columns edf) beta_rows cid
                (dict_set "LTE_cellidA" v r)) as [[v' E']|[e' E']].
    + rewrite (bind_ok _ _ _ _ _ E').
      rewrite (bind_raise _ _ _ _ _ (set_int_of_first_nil _ _ _ _)).
      cbn [snd]. rewrite !dict_get_set. split; reflexivity.
    + rewrite (bind_raise _ _ _ _ _ E').
      cbn [snd]. rewrite !dict_get_set. split; reflexivity.
  - rewrite (bind_raise _ _ _ _ _ E). split; reflexivity.
Qed.

(** C3 (amended): a role whose legacy cross-reference matches no row of
    "eUtran Parameters" contributes no cell-ID and no sector-ID value for
    that role; when that role is alpha the join is skipped as a whole,
    without failure: no value is emitted for any role and the placeholder
    map is left as it was. *)
Theorem missing_role_contributes_nothing (edf : DataFrame) (ecc : string)
    (la lb lg : string) (r : Replacements) :
  as_truthy (column (Some edf) ["EutranCellFDDId"; "EUtranCellFDDId"])
  = Some ecc ->
  let out := lte_cell_details (Some edf) la lb lg r in
  (eutran_rows edf ecc la = [] -> out = (Ok tt, r))
  /\ (eutran_rows edf ecc lb = [] ->
      dict_get "LTE_cellidB" (snd out) = dict_get "LTE_cellidB" r
      /\ dict_get "xxLTE_SectorCarrier_No_Betaxx" (snd out)
         = dict_get "xxLTE_SectorCarrier_No_Betaxx" r)
  /\ (eutran_rows edf ecc lg = [] ->
      dict_get "LTE_cellidC" (snd out) = dict_get "LTE_cellidC" r
      /\ dict_get "xxLTE_SectorCarrier_No_Gammaxx" (snd out)
         = dict_get "xxLTE_SectorCarrier_No_Gammaxx" r).
Proof.
  intros Hecc out. subst out.
  pose proof (resolved_readable _ _ _ Hecc) as Hr.
  split; [apply lte_cell_details_skipped; exact Hecc|].
  destruct (as_truthy (column (Some edf) ["cellId"; "cellid"]))
    as [cid|] eqn:Hcid;
    [destruct (as_truthy (column (Some edf) ["sectorId"; "sectorid"]))
       as [sid|] eqn:Hsid|].
  - rewrite (lte_cell_details_resolved edf ecc cid sid Hecc Hcid Hsid).
    destruct (0 <? _)%nat; [|repeat split; reflexivity].
    split; intros ->; [apply join_beta_missing | apply join_gamma_missing].
  - assert (E : lte_cell_details (Some edf) la lb lg r = (Ok tt, r)).
    { unfold lte_cell_details. cbv zeta. columns_returned Hr.
      now rewrite Hecc, Hcid, Hsid. }
    rewrite E. repeat split; reflexivity.
  - assert (E : lte_cell_details (Some edf) la lb lg r = (Ok tt, r)).
    { unfold lte_cell_details. cbv zeta. columns_returned Hr.
      now rewrite Hecc, Hcid. }
    rewrite E. repeat split; reflexivity.
Qed.

(** ** Keys are never removed *)

Definition keeps_keys {A} (m : M A) : Prop :=
  forall r k, dict_mem k r = true -> dict_mem k (snd (m r)) = true.

Lemma keeps_ret {A} (a : A) : keeps_keys (ret a).
Proof. intros r k H. exact H. Qed.

Lemma keeps_lift {A} (x : result A) : keeps_keys (lift x).
Proof. intros r k H. exact H. Qed.

Lemma keeps_set (k v : string) : keeps_keys (set_item k v).
Proof.
  intros r k' H. simpl. rewrite dict_mem_set, H. apply orb_true_r.
Qed.

Lemma keeps_has (k : string) : keeps_keys (has_item k).
Proof. intros r k' H. exact H. Qed.

Lemma keeps_get (k : string) : keeps_keys (get_item k).
Proof.
  intros r k' H. unfold get_item. now destruct (dict_get k r).
Qed.

Lemma keeps_bind {A B} (m : M A) (f : A -> M B) :
  keeps_keys m -> (forall a, keeps_keys (f a)) -> keeps_keys (bind m f).
Proof.
  intros Hm Hf r k H. unfold bind.
  specialize (Hm r k H). destruct (m r) as [[a|e] r1]; simpl in *.
  - now apply Hf.
  - exact Hm.
Qed.

Create HintDb keeps.
#[export] Hint Resolve keeps_ret keeps_lift keeps_set keeps_has keeps_get : keeps.

Ltac keeps_step :=
  match goal with
  | |- keeps_keys (bind _ _) => apply keeps_bind; [|intros ?]
  | |- keeps_keys (match ?x with _ => _ end) => destruct x
  | |- keeps_keys _ => solve [auto with keeps]
  end.

Lemma keeps_set_int (k : string) (c : cell) : keeps_keys (set_int k c).
Proof. unfold set_int. repeat keeps_step. Qed.

Lemma keeps_set_int_of_first (k : string) (cols : list label)
    (matching : list row) (col : string) :
  keeps_keys (set_int_of_first k cols matching col).
Proof. unfold set_int_of_first. repeat keeps_step. apply keeps_set_int. Qed.

#[export] Hint Resolve keeps_set_int keeps_set_int_of_first : keeps.

Lemma keeps_lte_cell_details (eutran_df : option DataFrame)
    (la lb lg : string) :
  keeps_keys (lte_cell_details eutran_df la lb lg).
Proof. unfold lte_cell_details. cbv zeta. repeat keeps_step. Qed.

#[export] Hint Resolve keeps_lte_cell_details : keeps.

Lemma keeps_emit_dss (five_g_df : DataFrame) (eutran_df : option DataFrame)
    (dc nc : string) (cl sc : option string) (a b c : row) (nr_band : string) :
  keeps_keys (emit_dss five_g_df eutran_df dc nc cl sc a b c nr_band).
Proof. unfold emit_dss. cbv zeta. repeat keeps_step. Qed.

#[export] Hint Resolve keeps_emit_dss : keeps.

Lemma keeps_extract_dss_cells (five_g_df : DataFrame)
    (eutran_df : option DataFrame) :
  keeps_keys (extract_dss_cells five_g_df eutran_df).
Proof.
  unfold extract_dss_cells, emit_if_bands. cbv zeta. repeat keeps_step.
Qed.

(** ** The whole run *)

Lemma process_template_after_primary (wb : Workbook) (template : string)
    (r0 : Replacements) :
  primary_stage (Some wb) [] = (Ok tt, r0) ->
  let out := dss_stage (load_five_g (Some wb)) (load_eutran (Some wb)) r0 [] in
  process_template (Some wb) (Some template)
  = Ok (fst (fill_template template (fst out)),
        snd (fill_template template (fst out)),
        snd out).
Proof.
  intros H out. subst out. unfold process_template, build_replacements.
  cbv zeta. rewrite H. cbn [rbind].
  destruct (dss_stage _ _ r0 []) as [r' ws].
  cbn [fst snd]. now destruct (fill_template template r').
Qed.

Lemma dss_stage_raised (five_g_df : DataFrame) (eutran_df : option DataFrame)
    (r r' : Replacements) (ws : list string) (e : exc) :
  dict_mem "xx5G_NR_Node_Namexx" r = true ->
  extract_dss_cells five_g_df eutran_df r = (Raise e, r') ->
  dss_stage (Some five_g_df) eutran_df r ws = (r', (ws ++ [dss_warning e])%list).
Proof.
  intros Hm He. unfold dss_stage. now rewrite Hm, He.
Qed.

(** C10 (amended): the DSS stage is not atomic with respect to the
    placeholder map.  When its body raises, the map as it stands at that
    point is kept (every key the map held before the stage is still
    there, with whatever the body assigned before the exception), the
    exception becomes exactly one warning, and [process_template] returns
    normally: the filled text and the returned replacement counts are those
    of the partial map.  A missing beta row in the join is such a case: it
    raises once the cell ID of alpha is in the map. *)
Theorem partial_map_kept (wb : Workbook) (template : string)
    (five_g_df : DataFrame) (r0 r' : Replacements) (e : exc) :
  primary_stage (Some wb) [] = (Ok tt, r0) ->
  load_five_g (Some wb) = Some five_g_df ->
  dict_mem "xx5G_NR_Node_Namexx" r0 = true ->
  extract_dss_cells five_g_df (load_eutran (Some wb)) r0 = (Raise e, r') ->
  (forall k, dict_mem k r0 = true -> dict_mem k r' = true)
  /\ dss_stage (Some five_g_df) (load_eutran (Some wb)) r0 []
     = (r', [dss_warning e])
  /\ process_template (Some wb) (Some template)
     = Ok (fst (fill_template template r'),
           snd (fill_template template r'),
           [dss_warning e])
  /\ (forall edf ecc cid sid la lb lg x xs z r,
        as_truthy (column (Some edf)
                     ["EutranCellFDDId"; "EUtranCellFDDId"]) = Some ecc ->
        as_truthy (column (Some edf) ["cellId"; "cellid"]) = Some cid ->
        as_truthy (column (Some edf) ["sectorId"; "sectorid"]) = Some sid ->
        eutran_rows edf ecc la = x :: xs ->
        py_int (row_get (columns edf) x cid) = Ok z ->
        eutran_rows edf ecc lb = [] ->
        lte_cell_details (Some edf) la lb lg r
        = (Raise IndexError, dict_set "LTE_cellidA" (PyStr.str_of_Z z) r)).
Proof.
  intros Hp Hs Hm He.
  pose proof (dss_stage_raised five_g_df (load_eutran (Some wb)) r0 r' [] e Hm He)
    as Hd.
  split; [|split; [exact Hd|split]];
    [| |intros edf ecc cid sid la lb lg x xs z r Hecc Hcid Hsid Ha Hz Hb;
        exact (beta_miss_after_alpha edf ecc cid sid Hecc Hcid Hsid
                 la lb lg x xs z r Ha Hz Hb)].
  - intros k Hk.
    pose proof (keeps_extract_dss_cells five_g_df (load_eutran (Some wb)) r0 k Hk)
      as K.
    now rewrite He in K.
  - rewrite (process_template_after_primary wb template r0 Hp).
    rewrite Hs, Hd. reflexivity.
Qed.

(** *** What is logged and what is not *)

Lemma bind_ext {A B} (m : M A) (f g : A -> M B) (r : Replacements) :
  (forall a r', f a r' = g a r') -> bind m f r = bind m g r.
Proof.
  intros H. unfold bind. destruct (m r) as [[a|e] r']; [apply H | reflexivity].
Qed.

(** With no row for alpha the join is skipped: the emission ends as it
    does without the "eUtran Parameters" sheet. *)
Lemma emit_dss_alpha_miss (five_g_df edf : DataFrame) (ecc dc nc : string)
    (cl sc : option string) (alpha beta gamma : row) (nr_band : string)
    (r : Replacements) :
  as_truthy (column (Some edf) ["EutranCellFDDId"; "EUtranCellFDDId"])
  = Some ecc ->
  eutran_rows edf ecc (lte_name five_g_df dc alpha) = [] ->
  emit_dss five_g_df (Some edf) dc nc cl sc alpha beta gamma nr_band r
  = emit_dss five_g_df None dc nc cl sc alpha beta gamma nr_band r.
Proof.
  intros Hecc Hrows. unfold emit_dss. cbv zeta.
  repeat (apply bind_ext; intros).
  fold (lte_name five_g_df dc alpha).
  now rewrite (lte_cell_details_skipped edf ecc Hecc).
Qed.

Lemma dss_stage_alpha_miss (five_g_df edf : DataFrame)
    (gnb_name gc dc nc ecc : string) (alpha beta gamma : row)
    (rest : list row) (r : Replacements) (ws : list string) :
  as_truthy (column (Some five_g_df) ["gNB Name"; "gNodeB Name"]) = Some gc ->
  as_truthy (column (Some five_g_df) ["DSS"; "dss"]) = Some dc ->
  as_truthy (column (Some five_g_df) ["NRCellDU"; "NRCellDu"]) = Some nc ->
  dict_get "xx5G_NR_Node_Namexx" r = Some gnb_name ->
  nr_dss_cells five_g_df gc dc nc gnb_name = Ok (alpha :: beta :: gamma :: rest) ->
  as_truthy (column (Some edf) ["EutranCellFDDId"; "EUtranCellFDDId"])
  = Some ecc ->
  eutran_rows edf ecc (lte_name five_g_df dc alpha) = [] ->
  dss_stage (Some five_g_df) (Some edf) r ws
  = dss_stage (Some five_g_df) None r ws.
Proof.
  intros Hgc Hdc Hnc Hname Hcells Hecc Hrows.
  rewrite !(dss_stage_resolved five_g_df _ gnb_name r ws Hname).
  rewrite !(extract_dss_cells_resolved five_g_df _ gnb_name gc dc nc
              Hgc Hdc Hnc r Hname).
  rewrite Hcells. unfold emit_if_bands. cbv zeta.
  destruct (Band.lte_band_match _); [|reflexivity].
  destruct (Band.nr_band_match _); [|reflexivity].
  now rewrite (emit_dss_alpha_miss five_g_df edf ecc dc nc _ _ alpha beta gamma
                 _ r Hecc Hrows).
Qed.

(** [find_column] returned not-found, or a name that fails [if col:]. *)
Definition not_found (df : option DataFrame) (names : list string) : Prop :=
  exists col, find_column df names = Ok col /\ as_truthy col = None.

Lemma not_found_column (df : option DataFrame) (names : list string) :
  not_found df names ->
  readable df = true /\ as_truthy (column df names) = None.
Proof.
  intros (col & E & H). destruct (find_column_returned df names col E) as [Hr Hc].
  now rewrite Hc.
Qed.

(** C9 (amended): the warnings a run returns are those of the DSS stage,
    and the only warning the stage logs is the one its handler appends
    when its body raises; a sort of the qualifying rows that raises is such
    an exception.  The other degraded conditions are not logged.  When the
    "5G Info" sheet is not found, when the next-gen node name is not in
    the map (as when "Mixed Mode Info" is not found), when [find_column]
    returns not-found for a required column of "5G Info", when fewer than
    three rows qualify and sorting them returns, and when a band pattern
    does not match on the alpha row, the stage returns with the map and the
    warnings as they were.  When "eUtran Parameters" is not found, or the
    cross-reference of alpha matches no row of it under the resolved
    cell-identifier column, the join assigns nothing and raises nothing:
    in the second case a stage that reaches the join ends exactly as it
    does without that sheet. *)
Theorem only_stage_exceptions_warn (five_g_df eutran_df : option DataFrame)
    (r : Replacements) (ws : list string) :
  (forall excel_path template_path filled counts warnings,
      process_template excel_path template_path
      = Ok (filled, counts, warnings) ->
      exists r0,
        warnings = snd (dss_stage (load_five_g excel_path)
                          (load_eutran excel_path) r0 []))
  /\ ((snd (dss_stage five_g_df eutran_df r ws) = ws
       /\ forall df e r', five_g_df = Some df ->
            dict_mem "xx5G_NR_Node_Namexx" r = true ->
            extract_dss_cells df eutran_df r <> (Raise e, r'))
      \/ (exists df e r',
            five_g_df = Some df
            /\ dict_mem "xx5G_NR_Node_Namexx" r = true
            /\ extract_dss_cells df eutran_df r = (Raise e, r')
            /\ dss_stage five_g_df eutran_df r ws
               = (r', (ws ++ [dss_warning e])%list)))
  /\ (forall df gnb_name gc dc nc e,
        five_g_df = Some df ->
        as_truthy (column (Some df) ["gNB Name"; "gNodeB Name"]) = Some gc ->
        as_truthy (column (Some df) ["DSS"; "dss"]) = Some dc ->
        as_truthy (column (Some df) ["NRCellDU"; "NRCellDu"]) = Some nc ->
        dict_get "xx5G_NR_Node_Namexx" r = Some gnb_name ->
        nr_dss_cells df gc dc nc gnb_name = Raise e ->
        dss_stage five_g_df eutran_df r ws
        = (r, (ws ++ [dss_warning e])%list))
  /\ (five_g_df = None -> dss_stage five_g_df eutran_df r ws = (r, ws))
  /\ (dict_mem "xx5G_NR_Node_Namexx" r = false ->
      dss_stage five_g_df eutran_df r ws = (r, ws))
  /\ (forall df,
        five_g_df = Some df ->
        not_found (Some df) ["gNB Name"; "gNodeB Name"]
        \/ not_found (Some df) ["DSS"; "dss"]
        \/ not_found (Some df) ["NRCellDU"; "NRCellDu"] ->
        dss_stage five_g_df eutran_df r ws = (r, ws))
  /\ (forall df gnb_name gc dc nc cells,
        five_g_df = Some df ->
        as_truthy (column (Some df) ["gNB Name"; "gNodeB Name"]) = Some gc ->
        as_truthy (column (Some df) ["DSS"; "dss"]) = Some dc ->
        as_truthy (column (Some df) ["NRCellDU"; "NRCellDu"]) = Some nc ->
        dict_get "xx5G_NR_Node_Namexx" r = Some gnb_name ->
        nr_dss_cells df gc dc nc gnb_name = Ok cells ->
        (List.length (qualifying df gc dc gnb_name) < 3
         \/ (exists alpha rest, cells = alpha :: rest
               /\ (Band.lte_band_match (lte_name df dc alpha) = None
                   \/ Band.nr_band_match (nr_name df nc alpha) = None))) ->
        dss_stage five_g_df eutran_df r ws = (r, ws))
  /\ (forall la lb lg r1,
        (eutran_df = None
         \/ exists edf ecc,
              eutran_df = Some edf
              /\ as_truthy (column (Some edf)
                              ["EutranCellFDDId"; "EUtranCellFDDId"]) = Some ecc
              /\ eutran_rows edf ecc la = []) ->
        lte_cell_details eutran_df la lb lg r1 = (Ok tt, r1))
  /\ (forall df edf gnb_name gc dc nc ecc alpha beta gamma rest,
        five_g_df = Some df ->
        eutran_df = Some edf ->
        as_truthy (column (Some df) ["gNB Name"; "gNodeB Name"]) = Some gc ->
        as_truthy (column (Some df) ["DSS"; "dss"]) = Some dc ->
        as_truthy (column (Some df) ["NRCellDU"; "NRCellDu"]) = Some nc ->
        dict_get "xx5G_NR_Node_Namexx" r = Some gnb_name ->
        nr_dss_cells df gc dc nc gnb_name
        = Ok (alpha :: beta :: gamma :: rest) ->
        as_truthy (column (Some edf)
                     ["EutranCellFDDId"; "EUtranCellFDDId"]) = Some ecc ->
        eutran_rows edf ecc (lte_name df dc alpha) = [] ->
        dss_stage five_g_df eutran_df r ws = dss_stage five_g_df None r ws).
Proof.
  split; [|split; [|split; [|split; [|split; [|split; [|split; [|split]]]]]]].
  - intros excel_path template_path filled counts warnings H.
    unfold process_template in H.
    destruct excel_path as [wb|]; [|discriminate].
    destruct template_path as [template|]; [|discriminate].
    unfold build_replacements in H. cbv zeta in H.
    destruct (primary_stage (Some wb) []) as [[u|e] r0]; [|discriminate].
    cbn [rbind] in H.
    destruct (dss_stage (load_five_g (Some wb)) (load_eutran (Some wb)) r0 [])
      as [r1 ws1] eqn:E.
    destruct (fill_template template r1). injection H as _ _ <-.
    exists r0. now rewrite E.
  - destruct five_g_df as [df|]; [|left; split; [reflexivity | discriminate]].
    destruct (dict_mem "xx5G_NR_Node_Namexx" r) eqn:Hm.
    + destruct (extract_dss_cells df eutran_df r) as [[u|e] r'] eqn:He.
      * left. unfold dss_stage. rewrite Hm, He. split; [reflexivity|].
        intros df' e r'' [= <-] _. congruence.
      * right. exists df, e, r'. repeat split; auto.
        now apply dss_stage_raised.
    + left. unfold dss_stage. rewrite Hm. split; [reflexivity|].
      intros; discriminate.
  - intros df gnb_name gc dc nc e -> Hgc Hdc Hnc Hname He.
    rewrite (dss_stage_resolved df eutran_df gnb_name r ws Hname).
    rewrite (extract_dss_cells_resolved df eutran_df gnb_name gc dc nc
               Hgc Hdc Hnc r Hname).
    now rewrite He.
  - intros ->. reflexivity.
  - intros Hm. unfold dss_stage. rewrite Hm. now destruct five_g_df.
  - intros df -> H. unfold dss_stage.
    destruct (dict_mem "xx5G_NR_Node_Namexx" r) eqn:Hm; [|reflexivity].
    unfold dict_mem in Hm.
    assert (E : extract_dss_cells df eutran_df r = (Ok tt, r)).
    { destruct (dict_get "xx5G_NR_Node_Namexx" r) as [gnb_name|] eqn:Hname;
        [|discriminate].
      assert (Hr : readable (Some df) = true).
      { destruct H as [H|[H|H]]; exact (proj1 (not_found_column _ _ H)). }
      unfold extract_dss_cells. cbv zeta.
      rewrite (bind_ok _ _ r r gnb_name)
        by (unfold get_item; now rewrite Hname).
      columns_returned Hr.
      destruct H as [H|[H|H]]; rewrite (proj2 (not_found_column _ _ H)).
      - now destruct (as_truthy (column (Some df) ["DSS"; "dss"])).
      - reflexivity.
      - destruct (as_truthy (column (Some df) ["DSS"; "dss"]));
          [|reflexivity].
        now destruct (as_truthy (column (Some df) ["gNB Name"; "gNodeB Name"])). }
    now rewrite E.
  - intros df gnb_name gc dc nc cells -> Hgc Hdc Hnc Hname Hcells [Hlen|Hband].
    + apply (dss_stage_few_rows df eutran_df gnb_name gc dc nc Hgc Hdc Hnc
               r ws cells Hname Hcells).
      destruct (sort_values_ok _ _ _ _ Hcells) as [P _].
      rewrite (Permutation_length P). exact Hlen.
    + destruct Hband as (alpha & rest & -> & Hband).
      destruct rest as [|beta [|gamma rest]].
      * apply (dss_stage_few_rows df eutran_df gnb_name gc dc nc Hgc Hdc Hnc
                 r ws [alpha] Hname Hcells). simpl. lia.
      * apply (dss_stage_few_rows df eutran_df gnb_name gc dc nc Hgc Hdc Hnc
                 r ws [alpha; beta] Hname Hcells). simpl. lia.
      * exact (dss_stage_band_failure df eutran_df gnb_name gc dc nc
                 Hgc Hdc Hnc r ws alpha beta gamma rest Hname Hcells Hband).
  - intros la lb lg r1 [->|(edf & ecc & -> & Hecc & Hrows)].
    + reflexivity.
    + now apply (lte_cell_details_skipped edf ecc Hecc).
  - intros df edf gnb_name gc dc nc ecc alpha beta gamma rest -> ->
      Hgc Hdc Hnc Hname Hcells Hecc Hrows.
    exact (dss_stage_alpha_miss df edf gnb_name gc dc nc ecc alpha beta gamma
             rest r ws Hgc Hdc Hnc Hname Hcells Hecc Hrows).
Qed.

(** ** Worked workbooks *)

Definition mixed_mode_sheet : DataFrame :=
  mkDF (text_header ["Cabinet Controlling DUL"; "eNodeB Name"; "eNBId";
                     "gNodeB Name"; "gNBId"])
       [[CBool true; CStr "SITE1"; CFloat 100; CStr "GSITE1"; CFloat 200]].

Definition five_g_header : list label :=
  text_header
    ["gNB Name"; "DSS"; "NRCellDU"; "cellLocalId"; "NRSectorCarrier"].

Definition cell_a : row :=
  [CStr "GSITE1"; CStr "SITE1_66A_1"; CStr "SITE1_N066A_1"; CInt 1; CStr "S1"].
Definition cell_b : row :=
  [CStr "GSITE1"; CStr "SITE1_66B_1"; CStr "SITE1_N066B_1"; CInt 2; CStr "S2"].
Definition cell_c : row :=
  [CStr "GSITE1"; CStr "SITE1_66C_1"; CStr "SITE1_N066C_1"; CInt 3; CStr "S3"].
Definition cell_no : row :=
  [CStr "GSITE1"; CStr "NO"; CStr "SITE1_N066D_1"; CInt 4; CStr "S4"].
Definition cell_x : row :=
  [CStr "GSITE1"; CStr "SITE1X"; CStr "SITE1_N066A_1"; CInt 1; CStr "S1"].

Definition five_g_sheet : DataFrame :=
  mkDF five_g_header [cell_b; cell_a; cell_no; cell_c].

(** The alpha row carries a cross-reference without the band pattern. *)
Definition five_g_no_band : DataFrame :=
  mkDF five_g_header [cell_x; cell_b; cell_c].

Definition eutran_header : list label :=
  text_header
    ["EutranCellFDDId"; "cellId"; "sectorId"].

Definition lte_a : row := [CStr "SITE1_66A_1"; CInt 11; CInt 1].
Definition lte_b : row := [CStr "SITE1_66B_1"; CInt 12; CInt 2].
Definition lte_c : row := [CStr "SITE1_66C_1"; CInt 13; CInt 3].

Definition eutran_sheet : DataFrame := mkDF eutran_header [lte_a; lte_b; lte_c].
Definition eutran_no_alpha : DataFrame := mkDF eutran_header [lte_b; lte_c].
Definition eutran_no_beta : DataFrame := mkDF eutran_header [lte_a; lte_c].

Definition workbook (five_g eutran : DataFrame) : Workbook :=
  [("Mixed Mode Info", mixed_mode_sheet); ("5G Info", five_g);
   ("eUtran Parameters", eutran)].

(** What the primary-node block leaves in the map for these workbooks. *)
Definition primary_map : Replacements :=
  [("xxMMBB_Primary_Node_Namexx", "SITE1"); ("xxLTE_Site_IDxx", "SITE1");
   ("xxLTE_eNBIDxx", "100"); ("xx5G_NR_Node_Namexx", "GSITE1");
   ("xx5G_NR_gNBIDxx", "200")].

Example primary_stage_ex (five_g eutran : DataFrame) :
  primary_stage (Some (workbook five_g eutran)) [] = (Ok tt, primary_map).
Proof. reflexivity. Qed.

(** A "5G Info" sheet with a header that is not text: the resolver raises
    inside the guarded stage, which logs it. *)
Example header_warning_ex :
  dss_stage (Some (mkDF [LStr "gNB Name"; LNum 2024] [[CStr "GSITE1"; CInt 1]]))
    None primary_map []
  = (primary_map,
     ["Error extracting DSS cells: 'int' object has no attribute 'lower'"]).
Proof. reflexivity. Qed.

(** The end-to-end scenario. *)
Example end_to_end_ex :
  process_template (Some (workbook five_g_sheet eutran_sheet))
    (Some "node xxMMBB_Primary_Node_Namexx id xxLTE_eNBIDxx")
  = Ok ("node SITE1 id 100",
        [("xxMMBB_Primary_Node_Namexx", 1); ("xxLTE_eNBIDxx", 1)], []).
Proof. reflexivity. Qed.

(** *** Band failure (C1) *)

(** C1, as stated, fails: the alpha cross-reference [SITE1X] has no band
    pattern, the local-ID and sector-carrier columns resolved, and yet
    neither placeholder family is emitted. *)
Lemma local_ids_gated_by_band :
  five_g_local_id_col five_g_no_band = Some "cellLocalId"
  /\ five_g_sector_col five_g_no_band = Some "NRSectorCarrier"
  /\ nr_dss_cells five_g_no_band "gNB Name" "DSS" "NRCellDU" "GSITE1"
     = Ok [cell_x; cell_b; cell_c]
  /\ Band.lte_band_match (lte_name five_g_no_band "DSS" cell_x) = None
  /\ build_replacements (Some (workbook five_g_no_band eutran_sheet))
     = Ok (primary_map, [])
  /\ dict_mem "xx5G_celllocalidAxx" primary_map = false
  /\ dict_mem "xx5G_NRSectorCarrier_Alphaxx" primary_map = false.
Proof. repeat split; reflexivity. Qed.

Lemma band_failure_witness :
  dss_stage (Some five_g_no_band) (Some eutran_sheet) primary_map []
  = (primary_map, []).
Proof.
  apply (band_failure_emits_nothing five_g_no_band (Some eutran_sheet)
           "GSITE1" "gNB Name" "DSS" "NRCellDU" eq_refl eq_refl eq_refl
           primary_map [] cell_x cell_b cell_c []).
  - reflexivity.
  - reflexivity.
  - left. reflexivity.
Defined.

(** *** Lookup miss (C3) *)

(** C3, as stated, fails: alpha has no row in "eUtran Parameters", beta and
    gamma have one each, and no cell ID or sector ID is emitted for beta or
    gamma either. *)
Lemma alpha_miss_drops_other_roles :
  eutran_rows eutran_no_alpha "EutranCellFDDId" "SITE1_66A_1" = []
  /\ eutran_rows eutran_no_alpha "EutranCellFDDId" "SITE1_66B_1" = [lte_b]
  /\ eutran_rows eutran_no_alpha "EutranCellFDDId" "SITE1_66C_1" = [lte_c]
  /\ match build_replacements (Some (workbook five_g_sheet eutran_no_alpha)) with
     | Ok (m, ws) =>
         dict_get "xxLTE_Site_IDxx_XB_1" m = Some "SITE1_66B_1"
         /\ dict_mem "LTE_cellidB" m = false
         /\ dict_mem "xxLTE_SectorCarrier_No_Betaxx" m = false
         /\ dict_mem "LTE_cellidC" m = false
         /\ ws = []
     | Raise _ => False
     end.
Proof. vm_compute. repeat split; reflexivity. Qed.

Lemma missing_role_witness :
  lte_cell_details (Some eutran_no_alpha)
    "SITE1_66A_1" "SITE1_66B_1" "SITE1_66C_1" primary_map
  = (Ok tt, primary_map).
Proof.
  apply (missing_role_contributes_nothing eutran_no_alpha "EutranCellFDDId"
           "SITE1_66A_1" "SITE1_66B_1" "SITE1_66C_1" primary_map eq_refl).
  reflexivity.
Defined.

(** *** Triple selection (C4) *)

Definition five_rows : DataFrame :=
  mkDF (text_header ["gNB Name"; "DSS"; "NRCellDU"])
       [[CStr "G"; CStr "L2"; CStr "C2"]; [CStr "G"; CStr "L1"; CStr "C1"];
        [CStr "G"; CStr "L4"; CStr "C4"]; [CStr "G"; CStr "L3"; CStr "C3"];
        [CStr "G"; CStr "L5"; CStr "C5"]; [CStr "H"; CStr "L0"; CStr "C0"];
        [CStr "G"; CNull; CStr "C6"]].

(** The tie-break example: identifiers [C2, C1, C4, C3, C5] sort to
    [C1 .. C5], and alpha, beta, gamma are C1, C2, C3. *)
Example triple_tie_break_ex :
  nr_dss_cells five_rows "gNB Name" "DSS" "NRCellDU" "G"
  = Ok [[CStr "G"; CStr "L1"; CStr "C1"]; [CStr "G"; CStr "L2"; CStr "C2"];
        [CStr "G"; CStr "L3"; CStr "C3"]; [CStr "G"; CStr "L4"; CStr "C4"];
        [CStr "G"; CStr "L5"; CStr "C5"]].
Proof. reflexivity. Qed.

Lemma dss_triple_selection_witness :
  exists alpha beta gamma rest,
    nr_dss_cells five_rows "gNB Name" "DSS" "NRCellDU" "G"
    = Ok (alpha :: beta :: gamma :: rest)
    /\ map (fun x => row_get (columns five_rows) x "NRCellDU")
           [alpha; beta; gamma]
       = [CStr "C1"; CStr "C2"; CStr "C3"].
Proof.
  destruct (dss_triple_selection five_rows None "G" "gNB Name" "DSS" "NRCellDU"
              eq_refl eq_refl eq_refl
              [("xx5G_NR_Node_Namexx", "G")] [] eq_refl) as (H & _ & _ & _).
  destruct (H _ triple_tie_break_ex) as (_ & _ & H3).
  destruct H3 as (alpha & beta & gamma & rest & E & _).
  - simpl. lia.
  - injection E as <- <- <- <-.
    eexists _, _, _, _. split; [exact triple_tie_break_ex | reflexivity].
Defined.

(** *** Warnings (C9) *)

(** C9, as stated, fails: none of the three sheets is found and nothing is
    logged; the band failure of the workbook above is not logged either. *)
Lemma missing_sheets_not_logged :
  load_mixed_mode (Some []) = None
  /\ load_five_g (Some []) = None
  /\ load_eutran (Some []) = None
  /\ process_template (Some []) (Some "xxLTE_Site_IDxx")
     = Ok ("xxLTE_Site_IDxx", [], [])
  /\ process_template (Some (workbook five_g_no_band eutran_sheet)) (Some "")
     = Ok ("", [], []).
Proof. repeat split; reflexivity. Qed.

Lemma only_stage_exceptions_warn_witness :
  dss_stage (Some five_g_sheet) (Some eutran_no_alpha) primary_map []
  = dss_stage (Some five_g_sheet) None primary_map [].
Proof.
  destruct (only_stage_exceptions_warn (Some five_g_sheet)
              (Some eutran_no_alpha) primary_map [])
    as (_ & _ & _ & _ & _ & _ & _ & _ & H).
  apply (H five_g_sheet eutran_no_alpha "GSITE1" "gNB Name" "DSS" "NRCellDU"
           "EutranCellFDDId" cell_a cell_b cell_c []); reflexivity.
Defined.

(** *** Partial map (C10) *)

Definition partial_map : Replacements :=
  Eval vm_compute in
    snd (extract_dss_cells five_g_sheet (Some eutran_no_beta) primary_map).

(** C10, as stated, fails on the returned map: the cell ID of alpha was
    assigned before the exception and is in the placeholder map, but the
    map that is returned counts replacements and does not hold it when the
    template does not mention it. *)
Lemma partial_map_not_returned :
  build_replacements (Some (workbook five_g_sheet eutran_no_beta))
  = Ok (partial_map, [dss_warning IndexError])
  /\ dict_get "LTE_cellidA" partial_map = Some "11"
  /\ process_template (Some (workbook five_g_sheet eutran_no_beta))
       (Some "no placeholder")
     = Ok ("no placeholder", [], [dss_warning IndexError])
  /\ dict_mem "LTE_cellidA" ([] : dict nat) = false.
Proof. repeat split; reflexivity. Qed.

Lemma partial_map_kept_witness :
  dict_get "LTE_cellidA" partial_map = Some "11"
  /\ dict_mem "LTE_cellidB" partial_map = false
  /\ process_template (Some (workbook five_g_sheet eutran_no_beta))
       (Some "LTE_cellidA LTE_cellidB")
     = Ok ("11 LTE_cellidB", [("LTE_cellidA", 1)],
           ["Error extracting DSS cells: single positional indexer is out-of-bounds"]).
Proof.
  split; [reflexivity | split; [reflexivity|]].
  destruct (partial_map_kept (workbook five_g_sheet eutran_no_beta)
              "LTE_cellidA LTE_cellidB" five_g_sheet primary_map partial_map
              IndexError) as (_ & _ & H & _);
    [reflexivity | reflexivity | reflexivity | reflexivity | exact H].
Defined.

(** *** Coercion failure in the primary-node block (C2) *)

Definition bad_node_id : Workbook :=
  [("Mixed Mode Info",
    mkDF (text_header ["eNodeB Name"; "eNBId"]) [[CStr "SITE1"; CStr "abc"]])].

Definition no_node_id : Workbook :=
  [("Mixed Mode Info", mkDF (text_header ["eNodeB Name"]) [[CStr "SITE1"]])].

Definition null_node_id : Workbook :=
  [("Mixed Mode Info",
    mkDF (text_header ["eNodeB Name"; "eNBId"]) [[CStr "SITE1"; CNull]])].

(** C2: the workbook opens and the template is read, and the run still
    aborts: a legacy node ID that is not a number, a node-ID column that is
    missing and a node-ID cell that is null (the reader then hands back the
    empty string, which the not-null test lets through) each raise
    [ValueError] out of [process_template]. *)
Theorem node_id_coercion_aborts (template : string) :
  process_template (Some bad_node_id) (Some template) = Raise ValueError
  /\ process_template (Some no_node_id) (Some template) = Raise ValueError
  /\ process_template (Some null_node_id) (Some template) = Raise ValueError.
Proof. repeat split; reflexivity. Qed.

(** * Further properties of the code *)

(** ** The sheet loader *)

(** The form under which sheet names are compared. *)
Definition sheet_key (s : string) : string := PyStr.strip (PyStr.lower s).

Lemma find_sheet_some (p : string -> bool) (wb : Workbook) (df : DataFrame) :
  find_sheet p wb = Some df -> exists n, In (n, df) wb /\ p n = true.
Proof.
  induction wb as [|[n d] wb IH]; simpl; [discriminate|].
  destruct (p n) eqn:E.
  - intros [= ->]. exists n. auto.
  - intros H. destruct (IH H) as (n' & Hin & Hp). exists n'. auto.
Qed.

Lemma find_sheet_none (p : string -> bool) (wb : Workbook) :
  find_sheet p wb = None <-> (forall n df, In (n, df) wb -> p n = false).
Proof.
  induction wb as [|[n d] wb IH]; simpl.
  - split; [intros _ n df [] | reflexivity].
  - destruct (p n) eqn:E.
    + split; [discriminate|]. intros H.
      rewrite (H n d (or_introl eq_refl)) in E. discriminate.
    + rewrite IH. split.
      * intros H n' df' [[= <- <-]|Hin]; eauto.
      * intros H n' df' Hin. apply (H n' df'). now right.
Qed.

Lemma find_alternative_some (wb : Workbook) (alts : list string) (df : DataFrame) :
  find_alternative wb alts = Some df ->
  exists n alt, In (n, df) wb /\ In alt alts /\ sheet_key n = sheet_key alt.
Proof.
  induction alts as [|alt alts IH]; simpl; [discriminate|].
  destruct (find_sheet _ wb) as [d|] eqn:E.
  - intros [= ->]. apply find_sheet_some in E.
    destruct E as (n & Hin & Hp). apply String.eqb_eq in Hp.
    exists n, alt. auto.
  - intros H. destruct (IH H) as (n & alt' & Hin & Ha & Hk).
    exists n, alt'. auto.
Qed.

Lemma find_alternative_none (wb : Workbook) (alts : list string) :
  find_alternative wb alts = None <->
  (forall n df alt, In (n, df) wb -> In alt alts ->
                    sheet_key n <> sheet_key alt).
Proof.
  induction alts as [|alt alts IH]; simpl.
  - split; [intros _ n df alt _ [] | reflexivity].
  - destruct (find_sheet _ wb) as [d|] eqn:E.
    + split; [discriminate|]. intros H. exfalso.
      apply find_sheet_some in E. destruct E as (n & Hin & Hp).
      apply String.eqb_eq in Hp. apply (H n d alt Hin (or_introl eq_refl) Hp).
    + rewrite IH. rewrite find_sheet_none in E. split.
      * intros H n df a Hin [<-|Ha]; [|eauto].
        apply String.eqb_neq. exact (E n df Hin).
      * intros H n df a Hin Ha. apply (H n df a Hin). now right.
Qed.

Lemma safe_load_sheet_opened (wb : Workbook) (sheet_name : string)
    (alternative_names : list string) :
  safe_load_sheet (Some wb) sheet_name alternative_names =
  match find_sheet (fun avail => avail =? sheet_name) wb with
  | Some df => Some df
  | None =>
      match find_sheet
              (fun avail => sheet_key avail =? sheet_key sheet_name) wb with
      | Some df => Some df
      | None => find_alternative wb alternative_names
      end
  end.
Proof. reflexivity. Qed.

(** X1: a table the loader returns is a sheet of the workbook, and the name
    of that sheet is the canonical name up to case and surrounding white
    space, or, only when no sheet has such a name, an alternative name up
    to case and surrounding white space. *)
Theorem safe_load_sheet_sound (wb : Workbook) (sheet_name : string)
    (alternative_names : list string) (df : DataFrame) :
  safe_load_sheet (Some wb) sheet_name alternative_names = Some df ->
  exists n,
    In (n, df) wb
    /\ (sheet_key n = sheet_key sheet_name
        \/ ((forall n' df', In (n', df') wb ->
               sheet_key n' <> sheet_key sheet_name)
            /\ exists alt, In alt alternative_names
                 /\ sheet_key n = sheet_key alt)).
Proof.
  rewrite safe_load_sheet_opened.
  destruct (find_sheet (fun avail => avail =? sheet_name) wb) as [d|] eqn:E1.
  - intros [= ->]. apply find_sheet_some in E1.
    destruct E1 as (n & Hin & Hp). apply String.eqb_eq in Hp. subst n.
    exists sheet_name. auto.
  - destruct (find_sheet
                (fun avail => sheet_key avail =? sheet_key sheet_name) wb)
      as [d|] eqn:E2.
    + intros [= ->]. apply find_sheet_some in E2.
      destruct E2 as (n & Hin & Hp). apply String.eqb_eq in Hp.
      exists n. auto.
    + intros H. apply find_alternative_some in H.
      destruct H as (n & alt & Hin & Ha & Hk). exists n.
      split; [exact Hin|]. right. split; [|eauto].
      intros n' df' Hin'. apply String.eqb_neq.
      rewrite find_sheet_none in E2. exact (E2 n' df' Hin').
Qed.

Lemma safe_load_sheet_sound_witness :
  exists n, In (n, five_g_sheet) [(" 5g INFO", five_g_sheet)]
            /\ sheet_key n = "5g info".
Proof.
  destruct (safe_load_sheet_sound [(" 5g INFO", five_g_sheet)] "5G Info"
              ["5GInfo"; "5G_Info"] five_g_sheet eq_refl)
    as (n & Hin & H).
  exists n. split; [exact Hin|].
  destruct Hin as [[= <-]|[]]. reflexivity.
Defined.

(** X2: the loader answers absent exactly when the workbook cannot be
    opened or no sheet name equals, up to case and surrounding white
    space, the canonical name or one of the alternatives. *)
Theorem safe_load_sheet_absent (excel_file : option Workbook)
    (sheet_name : string) (alternative_names : list string) :
  safe_load_sheet excel_file sheet_name alternative_names = None <->
  (excel_file = None
   \/ exists wb, excel_file = Some wb
        /\ forall n df, In (n, df) wb ->
             sheet_key n <> sheet_key sheet_name
             /\ forall alt, In alt alternative_names ->
                  sheet_key n <> sheet_key alt).
Proof.
  destruct excel_file as [wb|]; [|split; auto].
  rewrite safe_load_sheet_opened. split.
  - intros H. right. exists wb. split; [reflexivity|].
    destruct (find_sheet (fun avail => avail =? sheet_name) wb) eqn:E1;
      [discriminate|].
    destruct (find_sheet (fun avail => sheet_key avail =? sheet_key sheet_name) wb)
      eqn:E2; [discriminate|].
    rewrite find_sheet_none in E2. rewrite find_alternative_none in H.
    intros n df Hin. split.
    + apply String.eqb_neq. exact (E2 n df Hin).
    + intros alt Ha. exact (H n df alt Hin Ha).
  - intros [H|(wb' & [= <-] & H)]; [discriminate|].
    assert (E2 : find_sheet
                   (fun avail => sheet_key avail =? sheet_key sheet_name) wb
                 = None).
    { apply find_sheet_none. intros n df Hin.
      apply String.eqb_neq. exact (proj1 (H n df Hin)). }
    assert (E1 : find_sheet (fun avail => avail =? sheet_name) wb = None).
    { apply find_sheet_none. intros n df Hin.
      apply String.eqb_neq. intros ->. exact (proj1 (H _ df Hin) eq_refl). }
    rewrite E1, E2.
    apply find_alternative_none. intros n df alt Hin Ha.
    exact (proj2 (H n df Hin) alt Ha).
Qed.

Lemma find_sheet_exact (wb : Workbook) (name : string) (df : DataFrame) :
  NoDup (map fst wb) -> In (name, df) wb ->
  find_sheet (fun avail => avail =? name) wb = Some df.
Proof.
  induction wb as [|[n d] wb IH]; simpl; intros ND Hin; [contradiction|].
  inversion ND as [|? ? Hnotin ND']; subst.
  destruct (n =? name) eqn:E.
  - apply String.eqb_eq in E. subst n.
    destruct Hin as [[= ->]|Hin]; [reflexivity|].
    exfalso. apply Hnotin. change name with (fst (name, df)). now apply in_map.
  - destruct Hin as [[= -> ->]|Hin]; [|auto].
    rewrite String.eqb_refl in E. discriminate.
Qed.

(** X3: a sheet that carries exactly the canonical name is the one loaded,
    wherever it stands in the workbook and whatever other sheets match up
    to case (sheet names of a workbook being distinct). *)
Theorem safe_load_sheet_exact_first (wb : Workbook) (sheet_name : string)
    (alternative_names : list string) (df : DataFrame) :
  NoDup (map fst wb) ->
  In (sheet_name, df) wb ->
  safe_load_sheet (Some wb) sheet_name alternative_names = Some df.
Proof.
  intros ND Hin. rewrite safe_load_sheet_opened.
  now rewrite (find_sheet_exact wb sheet_name df ND Hin).
Qed.

Lemma safe_load_sheet_exact_first_witness :
  safe_load_sheet
    (Some [("5g info", eutran_sheet); ("5G Info", five_g_sheet)])
    "5G Info" ["5GInfo"; "5G_Info"]
  = Some five_g_sheet.
Proof.
  apply safe_load_sheet_exact_first.
  - repeat constructor; simpl; intuition discriminate.
  - right. left. reflexivity.
Defined.

(** ** The column resolver *)

Lemma first_resolved_some (pick : string -> option string)
    (names : list string) (c : string) :
  first_resolved pick names = Some c ->
  exists n, In n names /\ pick n = Some c.
Proof.
  induction names as [|n names IH]; simpl; [discriminate|].
  destruct (pick n) as [c'|] eqn:E.
  - intros [= ->]. exists n. auto.
  - intros H. destruct (IH H) as (n' & Hin & Hp). exists n'. auto.
Qed.

Lemma first_resolved_none (pick : string -> option string)
    (names : list string) :
  first_resolved pick names = None <-> (forall n, In n names -> pick n = None).
Proof.
  induction names as [|n names IH]; simpl.
  - split; [intros _ n [] | reflexivity].
  - destruct (pick n) as [c|] eqn:E.
    + split; [discriminate|]. intros H.
      rewrite (H n (or_introl eq_refl)) in E. discriminate.
    + rewrite IH. split.
      * intros H n' [<-|Hin]; auto.
      * intros H n' Hin. apply H. now right.
Qed.

Lemma last_column_matching_some (cols : list string) (n c : string) :
  last_column_matching cols n = Some c ->
  In c cols /\ normalize c = normalize n.
Proof.
  unfold last_column_matching, matches. intros H.
  apply find_some in H. destruct H as [Hin Hp].
  apply in_rev in Hin. apply String.eqb_eq in Hp. auto.
Qed.

Lemma last_column_matching_none (cols : list string) (n : string) :
  last_column_matching cols n = None <->
  (forall c, In c cols -> normalize c <> normalize n).
Proof.
  unfold last_column_matching, matches. split.
  - intros H c Hin. apply String.eqb_neq.
    apply (find_none _ _ H). now apply in_rev in Hin.
  - intros H. destruct (find _ (rev cols)) as [c|] eqn:E; [|reflexivity].
    apply find_some in E. destruct E as [Hin Hp].
    apply in_rev in Hin. apply String.eqb_eq in Hp.
    now apply H in Hin.
Qed.

Lemma header_texts_map (cols : list label) (ts : list string) :
  header_texts cols = Some ts <-> cols = map LStr ts.
Proof.
  revert ts. induction cols as [|[c|z] cols IH]; intros ts; simpl.
  - split; [intros [= <-]; reflexivity|]. now destruct ts.
  - destruct (header_texts cols) as [ts'|]; simpl.
    + split.
      * intros [= <-]. simpl. f_equal. now apply IH.
      * destruct ts as [|t ts]; [discriminate|]. intros [= -> H].
        apply IH in H. now injection H as ->.
    + split; [discriminate|].
      destruct ts as [|t ts]; [discriminate|]. intros [= _ H].
      apply IH in H. discriminate.
  - split; [discriminate|]. now destruct ts.
Qed.

Lemma header_texts_In (cols : list label) (ts : list string) (c : string) :
  header_texts cols = Some ts -> (In (LStr c) cols <-> In c ts).
Proof.
  intros H. apply header_texts_map in H. subst cols. rewrite in_map_iff.
  split.
  - intros (x & [= ->] & Hx). exact Hx.
  - intros Hc. exists c. auto.
Qed.

Lemma header_texts_all (cols : list label) :
  (exists ts, header_texts cols = Some ts) <->
  (forall h, In h cols -> exists c, h = LStr c).
Proof.
  induction cols as [|[c|z] cols IH]; simpl.
  - split; [intros _ h [] | eauto].
  - split.
    + intros (ts & H). destruct (header_texts cols) as [ts'|]; [|discriminate].
      intros h [<-|Hh]; [eauto|]. apply (proj1 IH); eauto.
    + intros H. destruct (proj2 IH) as (ts & E); [intros h Hh; apply H; auto|].
      rewrite E. simpl. eauto.
  - split; [intros (ts & H); discriminate|].
    intros H. destruct (H (LNum z) (or_introl eq_refl)) as (c & E).
    discriminate.
Qed.

(** X4: a column the resolver returns is a header of the table, the table
    has at least one row, and the header equals one of the candidates once
    both are normalized. *)
Theorem find_column_sound (df : option DataFrame) (possible_names : list string)
    (c : string) :
  find_column df possible_names = Ok (Some c) ->
  exists d,
    df = Some d /\ rows d <> [] /\ In (LStr c) (columns d)
    /\ exists n, In n possible_names /\ normalize c = normalize n.
Proof.
  destruct df as [d|]; [|discriminate].
  rewrite find_column_texts.
  destruct (df_empty d) eqn:E; [discriminate|].
  destruct (header_texts (columns d)) as [ts|] eqn:Ht; [|discriminate].
  intros [= H].
  apply first_resolved_some in H. destruct H as (n & Hn & Hp).
  apply last_column_matching_some in Hp. destruct Hp as [Hin Hnorm].
  exists d. repeat split; eauto.
  - unfold df_empty in E. intros Hr. rewrite Hr in E.
    destruct (columns d); discriminate.
  - now apply (header_texts_In (columns d) ts c Ht).
Qed.

Lemma find_column_sound_witness :
  exists n, In n ["eNBId"; "eNBID"] /\ normalize "eNBId" = normalize n.
Proof.
  destruct (find_column_sound (Some mixed_mode_sheet) ["eNBId"; "eNBID"]
              "eNBId" eq_refl) as (d & _ & _ & _ & H).
  exact H.
Defined.

(** X5: the resolver returns not-found exactly when the table is absent,
    has no column or no row, or has text headers only, none of which
    equals a candidate once both are normalized. *)
Theorem find_column_not_found (df : option DataFrame)
    (possible_names : list string) :
  find_column df possible_names = Ok None <->
  (df = None
   \/ exists d, df = Some d
        /\ (columns d = [] \/ rows d = []
            \/ ((forall h, In h (columns d) -> exists c, h = LStr c)
                /\ forall c n, In (LStr c) (columns d) ->
                               In n possible_names ->
                               normalize c <> normalize n))).
Proof.
  destruct df as [d|]; [|split; auto].
  rewrite find_column_texts. unfold df_empty. split.
  - intros H. right. exists d. split; [reflexivity|].
    destruct (columns d) as [|h cols] eqn:Ec; [auto|].
    destruct (rows d) as [|r rs] eqn:Er; [auto|].
    right; right.
    destruct (header_texts (h :: cols)) as [ts|] eqn:Ht; [|discriminate].
    injection H as H. rewrite first_resolved_none in H. split.
    + apply header_texts_all. eauto.
    + intros c n Hc Hn. apply (header_texts_In _ ts c Ht) in Hc.
      apply (proj1 (last_column_matching_none ts n) (H n Hn) c Hc).
  - intros [H|(d' & [= <-] & H)]; [discriminate|].
    destruct (columns d) as [|h cols] eqn:Ec; [reflexivity|].
    destruct (rows d) as [|r rs] eqn:Er; [reflexivity|].
    destruct H as [H|[H|[Hall H]]]; try discriminate.
    apply header_texts_all in Hall. destruct Hall as (ts & Ht).
    rewrite Ht. f_equal. apply first_resolved_none.
    intros n Hn. apply last_column_matching_none.
    intros c Hc. apply (header_texts_In _ ts c Ht) in Hc.
    exact (H c n Hc Hn).
Qed.

(** X6: the resolver looks at the candidates through their normalized
    forms only: two candidate lists that agree once normalized resolve to
    the same column on every table. *)
Theorem find_column_candidates_normalized (df : option DataFrame)
    (names names' : list string) :
  map normalize names = map normalize names' ->
  find_column df names = find_column df names'.
Proof.
  intros H. destruct df as [d|]; [|reflexivity].
  rewrite !find_column_texts.
  destruct (df_empty d); [reflexivity|].
  destruct (header_texts (columns d)) as [ts|]; [|reflexivity]. f_equal.
  revert names' H. induction names as [|n names IH]; intros [|n' names'] H;
    simpl in *; try discriminate; [reflexivity|].
  injection H as Hn Hrest.
  unfold last_column_matching at 1 3, matches. rewrite Hn.
  destruct (find _ (rev ts)); [reflexivity|].
  now apply IH.
Qed.

Lemma find_column_candidates_normalized_witness :
  find_column (Some mixed_mode_sheet) ["ENODEB_NAME"; " e nodeb name "]
  = Ok (Some "eNodeB Name").
Proof.
  rewrite (find_column_candidates_normalized (Some mixed_mode_sheet)
             ["ENODEB_NAME"; " e nodeb name "] ["eNodeB Name"; "eNodeBName"]);
    reflexivity.
Defined.

(** ** The safe cell reader *)

(** X7: with a default that is not null the reader never hands back a null:
    a null cell is replaced by the default, so a not-null test on the
    result always succeeds. *)
Theorem safe_get_value_not_null (df : option DataFrame)
    (column_name : option string) (row_idx : Z) (default v : cell) :
  isna default = false ->
  safe_get_value df column_name row_idx default = Ok v ->
  isna v = false.
Proof.
  intros Hd. unfold safe_get_value.
  destruct df as [d|]; [|intros [= <-]; exact Hd].
  destruct column_name as [c|]; [|intros [= <-]; exact Hd].
  destruct (negb (in_columns c d)); [intros [= <-]; exact Hd|].
  destruct (Z.of_nat (List.length (rows d)) <=? row_idx)%Z;
    [intros [= <-]; exact Hd|].
  destruct (iloc (column_values d c) row_idx) as [x|e]; simpl;
    [|intros [= <-]; exact Hd].
  destruct (isna x) eqn:Ex; intros [= <-]; assumption.
Qed.

Lemma safe_get_value_not_null_witness :
  isna (CStr "") = false
  /\ safe_get_value (Some (mkDF (text_header ["eNBId"]) [[CNull]])) (Some "eNBId") 0 (CStr "")
     = Ok (CStr "").
Proof.
  assert (E : safe_get_value (Some (mkDF (text_header ["eNBId"]) [[CNull]])) (Some "eNBId") 0
                (CStr "") = Ok (CStr "")) by reflexivity.
  split; [|exact E].
  exact (safe_get_value_not_null (Some (mkDF (text_header ["eNBId"]) [[CNull]]))
           (Some "eNBId") 0 (CStr "") (CStr "") eq_refl E).
Defined.

(** ** Invariants of the extraction monad *)

(** [m] keeps [P]: whatever the outcome, a map satisfying [P] before [m]
    satisfies it afterwards. *)
Definition maintains {A} (P : Replacements -> Prop) (m : M A) : Prop :=
  forall r, P r -> P (snd (m r)).

Lemma maintains_ret {A} (P : Replacements -> Prop) (a : A) :
  maintains P (ret a).
Proof. intros r H. exact H. Qed.

Lemma maintains_lift {A} (P : Replacements -> Prop) (x : result A) :
  maintains P (lift x).
Proof. intros r H. exact H. Qed.

Lemma maintains_has (P : Replacements -> Prop) (k : string) :
  maintains P (has_item k).
Proof. intros r H. exact H. Qed.

Lemma maintains_get (P : Replacements -> Prop) (k : string) :
  maintains P (get_item k).
Proof. intros r H. unfold get_item. now destruct (dict_get k r). Qed.

Lemma maintains_set (P : Replacements -> Prop) (k v : string) :
  (forall r, P r -> P (dict_set k v r)) -> maintains P (set_item k v).
Proof. intros H r Hr. simpl. now apply H. Qed.

Lemma maintains_bind {A B} (P : Replacements -> Prop) (m : M A) (f : A -> M B) :
  maintains P m -> (forall a, maintains P (f a)) -> maintains P (bind m f).
Proof.
  intros Hm Hf r H. unfold bind.
  specialize (Hm r H). destruct (m r) as [[a|e] r1]; simpl in *.
  - now apply Hf.
  - exact Hm.
Qed.

Lemma maintains_set_int (P : Replacements -> Prop) (k : string) (c : cell) :
  (forall v r, P r -> P (dict_set k v r)) -> maintains P (set_int k c).
Proof.
  intros H. unfold set_int. apply maintains_bind; [apply maintains_lift|].
  intros z. apply maintains_set. apply H.
Qed.

Lemma maintains_set_int_of_first (P : Replacements -> Prop) (k : string)
    (cols : list label) (matching : list row) (col : string) :
  (forall v r, P r -> P (dict_set k v r)) ->
  maintains P (set_int_of_first k cols matching col).
Proof.
  intros H. unfold set_int_of_first.
  apply maintains_bind; [apply maintains_lift|].
  intros x. now apply maintains_set_int.
Qed.

(** [P] does not depend on the keys in [written]. *)
Definition ignores (P : Replacements -> Prop) (written : list string) : Prop :=
  forall k v r, In k written -> P r -> P (dict_set k v r).

(** One step of a proof that a computation keeps [P]; [side] settles that
    an assignment to one key keeps [P]. *)
Ltac maintains_with side :=
  repeat match goal with
  | |- maintains _ (bind _ _) => apply maintains_bind; [|intros ?]
  | |- maintains _ (ret _) => apply maintains_ret
  | |- maintains _ (lift _) => apply maintains_lift
  | |- maintains _ (has_item _) => apply maintains_has
  | |- maintains _ (get_item _) => apply maintains_get
  | |- maintains _ (set_item _ _) => apply maintains_set; side
  | |- maintains _ (set_int _ _) => apply maintains_set_int; side
  | |- maintains _ (set_int_of_first _ _ _ _) =>
      apply maintains_set_int_of_first; side
  | |- maintains _ (match ?x with _ => _ end) => destruct x
  end.

(** The keys the join writes, and the keys the DSS stage writes. *)
Definition join_keys : list string :=
  ["LTE_cellidA"; "LTE_cellidB"; "LTE_cellidC";
   "xxLTE_SectorCarrier_No_Alphaxx"; "xxLTE_SectorCarrier_No_Betaxx";
   "xxLTE_SectorCarrier_No_Gammaxx"].

Definition dss_keys : list string :=
  (["xx5G_celllocalidAxx"; "xx5G_celllocalidBxx"; "xx5G_celllocalidCxx";
    "xx5G_NRSectorCarrier_Alphaxx"; "xx5G_NRSectorCarrier_Betaxx";
    "xx5G_NRSectorCarrier_Gammaxx";
    "xxLTE_Site_IDxx_XA_1"; "xxLTE_Site_IDxx_XB_1"; "xxLTE_Site_IDxx_XC_1";
    "xx5G_NR_Node_Namexx_N00XA_1"; "xx5G_NR_Node_Namexx_N00XB_1";
    "xx5G_NR_Node_Namexx_N00XC_1";
    "xxMMBB_Primary_Node_Namexx_N00XA_1"; "xxMMBB_Primary_Node_Namexx_N00XB_1";
    "xxMMBB_Primary_Node_Namexx_N00XC_1"; "xxLTE_Site_IDxx_X*";
    "N00XA"; "N00XB"; "N00XC"] ++ join_keys)%list.

(** The keys the primary-node block writes. *)
Definition primary_keys : list string :=
  ["xxMMBB_Primary_Node_Namexx"; "xxLTE_Site_IDxx"; "xxLTE_eNBIDxx";
   "xx5G_NR_Node_Namexx"; "xx5G_NR_gNBIDxx"].

Ltac written_in :=
  first [ intros ? ? ?; match goal with
                        | H : ignores _ _ |- _ => apply H; [simpl; tauto|assumption]
                        end
        | intros ? ?; match goal with
                      | H : ignores _ _ |- _ => apply H; [simpl; tauto|assumption]
                      end ].

Lemma maintains_lte_cell_details (P : Replacements -> Prop)
    (eutran_df : option DataFrame) (la lb lg : string) :
  ignores P join_keys ->
  maintains P (lte_cell_details eutran_df la lb lg).
Proof.
  intros HP. unfold lte_cell_details. cbv zeta. maintains_with written_in.
Qed.

Lemma ignores_sub (P : Replacements -> Prop) (l l' : list string) :
  (forall k, In k l' -> In k l) -> ignores P l -> ignores P l'.
Proof. intros Hsub H k v r Hin. apply H. now apply Hsub. Qed.

Lemma maintains_emit_dss (P : Replacements -> Prop) (five_g_df : DataFrame)
    (eutran_df : option DataFrame) (dc nc : string) (cl sc : option string)
    (a b c : row) (nr_band : string) :
  ignores P dss_keys ->
  maintains P (emit_dss five_g_df eutran_df dc nc cl sc a b c nr_band).
Proof.
  intros HP. unfold emit_dss. cbv zeta.
  maintains_with written_in.
  apply maintains_lte_cell_details.
  apply (ignores_sub P dss_keys); [|exact HP].
  intros k Hk. unfold dss_keys. apply in_or_app. now right.
Qed.

Lemma maintains_extract_dss_cells (P : Replacements -> Prop)
    (five_g_df : DataFrame) (eutran_df : option DataFrame) :
  ignores P dss_keys ->
  maintains P (extract_dss_cells five_g_df eutran_df).
Proof.
  intros HP. unfold extract_dss_cells, emit_if_bands. cbv zeta.
  maintains_with written_in; now apply maintains_emit_dss.
Qed.

Lemma maintains_dss_stage (P : Replacements -> Prop)
    (five_g_df eutran_df : option DataFrame) (r : Replacements)
    (ws : list string) :
  ignores P dss_keys -> P r -> P (fst (dss_stage five_g_df eutran_df r ws)).
Proof.
  intros HP Hr. unfold dss_stage.
  destruct five_g_df as [df|]; [|exact Hr].
  destruct (dict_mem "xx5G_NR_Node_Namexx" r); [|exact Hr].
  pose proof (maintains_extract_dss_cells P df eutran_df HP r Hr) as H.
  destruct (extract_dss_cells df eutran_df r) as [[u|e] r']; exact H.
Qed.

(** A fact about one key is not affected by an assignment to another. *)
Lemma ignores_other_keys (K : string) (Q : option string -> Prop)
    (written : list string) :
  (forall k, In k written -> (k =? K) = false) ->
  ignores (fun r => Q (dict_get K r)) written.
Proof.
  intros H k v r Hin HQ. rewrite dict_get_set, (H k Hin). exact HQ.
Qed.

Lemma not_in_eqb (K : string) (l : list string) :
  ~ In K l -> forall k, In k l -> (k =? K) = false.
Proof.
  intros H k Hk. apply String.eqb_neq. intros ->. contradiction.
Qed.

(** X8: the DSS stage writes its own placeholders only: whatever it emits
    and however it ends, every other key of the map (the five placeholders
    of the primary-node block among them) holds after the stage what it
    held before it. *)
Theorem dss_stage_writes_only (five_g_df eutran_df : option DataFrame)
    (r : Replacements) (ws : list string) (K : string) :
  ~ In K dss_keys ->
  dict_get K (fst (dss_stage five_g_df eutran_df r ws)) = dict_get K r.
Proof.
  intros HK.
  apply (maintains_dss_stage (fun r' => dict_get K r' = dict_get K r)
           five_g_df eutran_df r ws); [|reflexivity].
  apply (ignores_other_keys K (fun o => o = dict_get K r)).
  now apply not_in_eqb.
Qed.

Lemma dss_stage_writes_only_witness :
  Forall (fun K =>
            dict_get K (fst (dss_stage (Some five_g_sheet) (Some eutran_sheet)
                               primary_map []))
            = dict_get K primary_map)
         primary_keys.
Proof.
  repeat (apply Forall_cons || apply Forall_nil);
    apply dss_stage_writes_only; simpl; intuition discriminate.
Defined.

(** ** The primary-node block *)

Definition mm_cabinet_col (df : DataFrame) : option string :=
  column (Some df) ["Cabinet Controlling DUL"; "CabinetControllingDUL"].
Definition mm_enb_name_col (df : DataFrame) : option string :=
  column (Some df) ["eNodeB Name"; "eNodeBName"].
Definition mm_enb_id_col (df : DataFrame) : option string :=
  column (Some df) ["eNBId"; "eNBID"].
Definition mm_gnb_name_col (df : DataFrame) : option string :=
  column (Some df) ["gNodeB Name"; "gNodeBName"].
Definition mm_gnb_id_col (df : DataFrame) : option string :=
  column (Some df) ["gNBId"; "gNBID"].

(** The row the block works on: its columns are resolved, which raises on
    a sheet with a header that is not text, and the row is selected. *)
Definition primary_node_of (df : DataFrame) : result (option row) :=
  rbind (find_column (Some df)
           ["Cabinet Controlling DUL"; "CabinetControllingDUL"])
    (fun cabinet_col =>
  rbind (find_column (Some df) ["eNodeB Name"; "eNodeBName"])
    (fun enb_name_col =>
  select_primary_node df cabinet_col enb_name_col)).

Lemma primary_node_of_readable (df : DataFrame) :
  primary_node_of df =
  if readable (Some df)
  then select_primary_node df (mm_cabinet_col df) (mm_enb_name_col df)
  else Raise AttributeError.
Proof.
  unfold primary_node_of. rewrite !find_column_readable.
  now destruct (readable (Some df)).
Qed.

(** What the block reads from the selected row for a column. *)
Definition node_field (df : DataFrame) (node : row) (col : option string)
  : result cell :=
  safe_get_value (Some (frame_of_row df node)) col 0 (CStr "").

Lemma safe_get_value_ok (df : option DataFrame) (col : option string)
    (i : Z) (default : cell) :
  exists v, safe_get_value df col i default = Ok v
            /\ (isna default = false -> isna v = false).
Proof.
  unfold safe_get_value.
  destruct df as [d|]; [|exists default; auto].
  destruct col as [c|]; [|exists default; auto].
  destruct (negb (in_columns c d)); [exists default; auto|].
  destruct (Z.of_nat (List.length (rows d)) <=? i)%Z; [exists default; auto|].
  destruct (iloc (column_values d c) i) as [x|e]; simpl;
    [|exists default; auto].
  destruct (isna x) eqn:Ex; [exists default | exists x]; auto.
Qed.

Lemma node_field_ok (df : DataFrame) (node : row) (col : option string) :
  exists v, node_field df node col = Ok v /\ notna v = true.
Proof.
  destruct (safe_get_value_ok (Some (frame_of_row df node)) col 0 (CStr ""))
    as (v & E & H).
  exists v. split; [exact E|]. unfold notna. now rewrite H.
Qed.

(** The cell of a resolved column, null replaced by the empty string. *)
Lemma node_field_resolved (df : DataFrame) (node : row) (c : string) :
  in_columns c df = true ->
  node_field df node (Some c)
  = Ok (if isna (row_get (columns df) node c) then CStr ""
        else row_get (columns df) node c).
Proof.
  intros H. unfold node_field, safe_get_value.
  change (in_columns c (frame_of_row df node)) with (in_columns c df).
  rewrite H. simpl.
  now destruct (isna (row_get (columns df) node c)).
Qed.

Lemma node_field_missing (df : DataFrame) (node : row) :
  node_field df node None = Ok (CStr "").
Proof. reflexivity. Qed.

(** The test of the [iterrows] loop. *)
Definition named_row (df : DataFrame) (enb_name_col : option string) (r : row)
  : bool :=
  match node_field df r enb_name_col with
  | Ok v => truthy v && negb (PyStr.strip (py_str v) =? "")
  | Raise _ => false
  end.

Lemma first_named_row_find (df : DataFrame) (enb_name_col : option string)
    (rs : list row) :
  first_named_row df enb_name_col rs = Ok (find (named_row df enb_name_col) rs).
Proof.
  induction rs as [|r rs IH]; [reflexivity|].
  destruct (node_field_ok df r enb_name_col) as (v & E & _).
  assert (N : named_row df enb_name_col r
              = truthy v && negb (PyStr.strip (py_str v) =? "")).
  { unfold named_row. now rewrite E. }
  cbn [find first_named_row]. rewrite N.
  unfold node_field in E. rewrite E. cbn [rbind].
  destruct (truthy v && negb (PyStr.strip (py_str v) =? "")); auto.
Qed.

Lemma select_primary_node_find (df : DataFrame) (cab enb : option string) :
  select_primary_node df cab enb =
  Ok (match match as_truthy cab with
            | Some c => find (fun r => cell_eq_true (row_get (columns df) r c))
                             (rows df)
            | None => None
            end with
      | Some r => Some r
      | None =>
          match as_truthy enb with
          | Some _ => find (named_row df enb) (rows df)
          | None => None
          end
      end).
Proof.
  unfold select_primary_node. cbv zeta.
  destruct (match as_truthy cab with Some c => _ | None => None end);
    [reflexivity|].
  destruct (as_truthy enb); [apply first_named_row_find | reflexivity].
Qed.

Lemma find_first {A} (p : A -> bool) (pre : list A) (x : A) (post : list A) :
  (forall y, In y pre -> p y = false) -> p x = true ->
  find p (pre ++ x :: post) = Some x.
Proof.
  intros Hpre Hx. induction pre as [|y pre IH]; simpl.
  - now rewrite Hx.
  - rewrite (Hpre y (or_introl eq_refl)). apply IH.
    intros z Hz. apply Hpre. now right.
Qed.

(** A cell that does not name a node: null, or text that is blank. *)
Definition blank_name (v : cell) : Prop :=
  v = CNull \/ exists s, v = CStr s /\ PyStr.strip s = "".

(** X9: selecting the primary node never raises and yields a row of the
    sheet.  The first row whose cabinet flag equals true is selected when
    the flag column resolved and such a row exists; otherwise, when the
    node-name column resolved, the first row whose name is text that is not
    blank, the rows before it holding null or blank names. *)
Theorem select_primary_node_policy (df : DataFrame) (cab enb : option string) :
  (exists o, select_primary_node df cab enb = Ok o
             /\ forall r, o = Some r -> In r (rows df))
  /\ (forall c pre r post,
        as_truthy cab = Some c ->
        rows df = (pre ++ r :: post)%list ->
        (forall x, In x pre -> cell_eq_true (row_get (columns df) x c) = false) ->
        cell_eq_true (row_get (columns df) r c) = true ->
        select_primary_node df cab enb = Ok (Some r))
  /\ (forall c pre r post s,
        (as_truthy cab = None
         \/ forall c' x, as_truthy cab = Some c' -> In x (rows df) ->
              cell_eq_true (row_get (columns df) x c') = false) ->
        enb = Some c -> c <> "" -> in_columns c df = true ->
        rows df = (pre ++ r :: post)%list ->
        (forall x, In x pre -> blank_name (row_get (columns df) x c)) ->
        row_get (columns df) r c = CStr s -> PyStr.strip s <> "" ->
        select_primary_node df cab enb = Ok (Some r)).
Proof.
  rewrite select_primary_node_find. split; [|split].
  - eexists. split; [reflexivity|]. intros r.
    destruct (as_truthy cab) as [c|].
    + destruct (find _ (rows df)) as [x|] eqn:E.
      * intros [= <-]. now apply find_some in E.
      * destruct (as_truthy enb); [|discriminate].
        intros H. now apply find_some in H.
    + destruct (as_truthy enb); [|discriminate].
      intros H. now apply find_some in H.
  - intros c pre r post Hc Hrows Hpre Hr. rewrite Hc, Hrows.
    now rewrite (find_first _ pre r post Hpre Hr).
  - intros c pre r post s Hcab -> Hne Hin Hrows Hpre Hr Hs.
    assert (Hby : match as_truthy cab with
                  | Some c0 =>
                      find (fun r0 => cell_eq_true (row_get (columns df) r0 c0))
                           (rows df)
                  | None => None
                  end = None).
    { destruct (as_truthy cab) as [c'|] eqn:Ec; [|reflexivity].
      destruct Hcab as [Hcab|Hcab]; [discriminate|].
      destruct (find _ (rows df)) as [x|] eqn:E; [|reflexivity].
      apply find_some in E. destruct E as [Hx Hp].
      rewrite (Hcab c' x eq_refl Hx) in Hp. discriminate. }
    rewrite Hby.
    assert (Et : as_truthy (Some c) = Some c) by (destruct c; [contradiction|reflexivity]).
    rewrite Et, Hrows. f_equal. apply find_first.
    + intros x Hx. unfold named_row. rewrite (node_field_resolved df x c Hin).
      destruct (Hpre x Hx) as [E|(t & E & Ht)]; rewrite E; simpl.
      * reflexivity.
      * rewrite Ht. now rewrite andb_false_r.
    + unfold named_row. rewrite (node_field_resolved df r c Hin), Hr. simpl.
      destruct s as [|a s']; [contradiction Hs; reflexivity|]. simpl.
      destruct (PyStr.strip (String a s')) eqn:E; [contradiction|reflexivity].
Qed.

Definition two_nodes : DataFrame :=
  mkDF (text_header ["Cabinet Controlling DUL"; "eNodeB Name"])
       [[CBool false; CStr "SITE0"]; [CBool true; CStr "SITE1"];
        [CBool true; CStr "SITE2"]].

Lemma select_primary_node_policy_witness :
  select_primary_node two_nodes (mm_cabinet_col two_nodes)
    (mm_enb_name_col two_nodes)
  = Ok (Some [CBool true; CStr "SITE1"]).
Proof.
  destruct (select_primary_node_policy two_nodes (mm_cabinet_col two_nodes)
              (mm_enb_name_col two_nodes)) as (_ & H & _).
  apply (H "Cabinet Controlling DUL" [[CBool false; CStr "SITE0"]]
           [CBool true; CStr "SITE1"] [[CBool true; CStr "SITE2"]]).
  - reflexivity.
  - reflexivity.
  - intros x [<-|[]]. reflexivity.
  - reflexivity.
Defined.

(** What the block does with the selected row. *)
Definition primary_fields (df : DataFrame) (node : row) : M unit :=
  bind (lift (node_field df node (mm_enb_name_col df))) (fun site_val =>
  let site_name := PyStr.strip (py_str site_val) in
  bind (if negb (site_name =? "")
        then bind (set_item "xxMMBB_Primary_Node_Namexx" site_name)
                  (fun _ => set_item "xxLTE_Site_IDxx" site_name)
        else ret tt) (fun _ =>
  bind (lift (node_field df node (mm_enb_id_col df))) (fun enb_id_val =>
  bind (if notna enb_id_val
        then bind (lift (py_int_of_float enb_id_val)) (fun z =>
             set_item "xxLTE_eNBIDxx" (PyStr.strip (PyStr.str_of_Z z)))
        else ret tt) (fun _ =>
  bind (lift (node_field df node (mm_gnb_name_col df))) (fun gnb_val =>
  let gnb_name := PyStr.strip (py_str gnb_val) in
  bind (if negb (gnb_name =? "")
        then set_item "xx5G_NR_Node_Namexx" gnb_name
        else ret tt) (fun _ =>
  bind (lift (node_field df node (mm_gnb_id_col df))) (fun gnb_id_val =>
  if notna gnb_id_val
  then bind (lift (py_int_of_float gnb_id_val)) (fun z =>
       set_item "xx5G_NR_gNBIDxx" (PyStr.strip (PyStr.str_of_Z z)))
  else ret tt))))))).

Lemma extract_primary_node_selected (df : DataFrame) (r : Replacements) :
  extract_primary_node df r =
  match primary_node_of df with
  | Ok (Some node) => primary_fields df node r
  | Ok None => (Ok tt, r)
  | Raise e => (Raise e, r)
  end.
Proof.
  rewrite primary_node_of_readable.
  unfold extract_primary_node. cbv zeta.
  destruct (readable (Some df)) eqn:Hr;
    [|now apply bind_find_column_raises].
  columns_returned Hr.
  unfold bind at 1. unfold lift at 1.
  fold (mm_cabinet_col df). fold (mm_enb_name_col df).
  destruct (select_primary_node df (mm_cabinet_col df) (mm_enb_name_col df))
    as [[node|]|e]; reflexivity.
Qed.

(** The outcome of the block on a selected row, by the two node IDs read
    from it. *)
Lemma primary_fields_outcome (df : DataFrame) (node : row) (r : Replacements)
    (v1 v2 : cell) :
  node_field df node (mm_enb_id_col df) = Ok v1 ->
  node_field df node (mm_gnb_id_col df) = Ok v2 ->
  match py_int_of_float v1, py_int_of_float v2 with
  | Ok _, Ok _ => fst (primary_fields df node r) = Ok tt
  | Raise e, _ => fst (primary_fields df node r) = Raise e
  | Ok _, Raise e => fst (primary_fields df node r) = Raise e
  end.
Proof.
  intros E1 E2.
  destruct (node_field_ok df node (mm_enb_name_col df)) as (vs & Es & _).
  destruct (node_field_ok df node (mm_gnb_name_col df)) as (vg & Eg & _).
  destruct (node_field_ok df node (mm_enb_id_col df)) as (v1' & E1' & N1).
  destruct (node_field_ok df node (mm_gnb_id_col df)) as (v2' & E2' & N2).
  assert (v1' = v1) by congruence. assert (v2' = v2) by congruence.
  subst v1' v2'.
  unfold primary_fields, bind, lift, set_item, ret.
  rewrite Es, E1, E2, Eg, N1, N2.
  destruct (negb (PyStr.strip (py_str vs) =? ""));
    destruct (py_int_of_float v1); try reflexivity;
    destruct (negb (PyStr.strip (py_str vg) =? ""));
    destruct (py_int_of_float v2); reflexivity.
Qed.

(** X10: once a primary node is selected, the block completes exactly when
    both node IDs read from the row (the empty string standing for a
    missing column or a null cell) coerce to an integer; otherwise it
    raises, and what it raises is the exception of one of the two
    coercions. *)
Theorem primary_node_block_outcome (df : DataFrame) (node : row)
    (r : Replacements) (v1 v2 : cell) :
  primary_node_of df = Ok (Some node) ->
  node_field df node (mm_enb_id_col df) = Ok v1 ->
  node_field df node (mm_gnb_id_col df) = Ok v2 ->
  (fst (extract_primary_node df r) = Ok tt <->
   (exists z1, py_int_of_float v1 = Ok z1)
   /\ (exists z2, py_int_of_float v2 = Ok z2))
  /\ (forall e, fst (extract_primary_node df r) = Raise e ->
        py_int_of_float v1 = Raise e \/ py_int_of_float v2 = Raise e).
Proof.
  intros Hsel E1 E2. rewrite extract_primary_node_selected, Hsel.
  pose proof (primary_fields_outcome df node r v1 v2 E1 E2) as H.
  destruct (py_int_of_float v1) as [z1|e1] eqn:P1;
    [destruct (py_int_of_float v2) as [z2|e2] eqn:P2|].
  - rewrite H. split; [split; eauto|]. discriminate.
  - rewrite H. split.
    + split; [discriminate|]. intros (_ & z & Hz). discriminate.
    + intros e [= <-]. now right.
  - rewrite H. split.
    + split; [discriminate|]. intros ((z & Hz) & _). discriminate.
    + intros e [= <-]. now left.
Qed.

Lemma primary_node_block_outcome_witness :
  fst (extract_primary_node mixed_mode_sheet []) = Ok tt.
Proof.
  destruct (primary_node_block_outcome mixed_mode_sheet
              [CBool true; CStr "SITE1"; CFloat 100; CStr "GSITE1"; CFloat 200]
              [] (CFloat 100) (CFloat 200) eq_refl eq_refl eq_refl) as [H _].
  apply H. split; eexists; reflexivity.
Defined.

(** X11: when a primary node is selected and the column of the legacy
    node ID does not resolve, the block raises [ValueError]: the empty
    default passes the not-null test and does not coerce.  When the column
    of the next-gen node ID does not resolve, the block raises as well:
    what the coercion of the legacy node ID raises, or [ValueError] when
    that coercion returns. *)
Theorem missing_id_column_raises (df : DataFrame) (node : row)
    (r : Replacements) (v1 : cell) :
  primary_node_of df = Ok (Some node) ->
  node_field df node (mm_enb_id_col df) = Ok v1 ->
  (mm_enb_id_col df = None ->
   fst (extract_primary_node df r) = Raise ValueError)
  /\ (mm_gnb_id_col df = None ->
      fst (extract_primary_node df r)
      = match py_int_of_float v1 with
        | Ok _ => Raise ValueError
        | Raise e => Raise e
        end).
Proof.
  intros Hsel E1. rewrite extract_primary_node_selected, Hsel.
  destruct (node_field_ok df node (mm_gnb_id_col df)) as (v2 & E2 & _).
  pose proof (primary_fields_outcome df node r v1 v2 E1 E2) as H.
  split; intros Hc; rewrite Hc in *.
  - rewrite node_field_missing in E1. injection E1 as <-. exact H.
  - rewrite node_field_missing in E2. injection E2 as <-.
    destruct (py_int_of_float v1) as [z1|e1]; exact H.
Qed.

Lemma missing_id_column_raises_witness :
  fst (extract_primary_node (mkDF (text_header ["eNodeB Name"; "eNBId"])
                               [[CStr "SITE1"; CInt 7]]) [])
  = Raise ValueError.
Proof.
  destruct (missing_id_column_raises
              (mkDF (text_header ["eNodeB Name"; "eNBId"])
                    [[CStr "SITE1"; CInt 7]])
              [CStr "SITE1"; CInt 7] [] (CInt 7) eq_refl eq_refl) as [_ H].
  exact (H eq_refl).
Defined.

(** The legacy site name is published under two keys that always agree,
    and never as the empty string. *)
Definition site_keys_agree (r : Replacements) : Prop :=
  dict_get "xxMMBB_Primary_Node_Namexx" r = dict_get "xxLTE_Site_IDxx" r
  /\ dict_get "xxLTE_Site_IDxx" r <> Some "".

Lemma site_keys_agree_ignores (written : list string) :
  (forall k, In k written ->
     (k =? "xxMMBB_Primary_Node_Namexx") = false
     /\ (k =? "xxLTE_Site_IDxx") = false) ->
  ignores site_keys_agree written.
Proof.
  intros H k v r Hin [H1 H2]. destruct (H k Hin) as [E1 E2].
  unfold site_keys_agree. rewrite !dict_get_set, E1, E2. auto.
Qed.

Lemma maintains_primary_fields (df : DataFrame) (node : row) :
  maintains site_keys_agree (primary_fields df node).
Proof.
  assert (I : ignores site_keys_agree
                ["xxLTE_eNBIDxx"; "xx5G_NR_Node_Namexx"; "xx5G_NR_gNBIDxx"]).
  { apply site_keys_agree_ignores. intros k Hk. simpl in Hk.
    destruct Hk as [<-|[<-|[<-|[]]]]; split; reflexivity. }
  unfold primary_fields.
  apply maintains_bind; [apply maintains_lift | intros vs].
  apply maintains_bind.
  - destruct (negb (PyStr.strip (py_str vs) =? "")) eqn:E;
      [|apply maintains_ret].
    intros r _. unfold bind, set_item. cbn [snd fst].
    unfold site_keys_agree. rewrite !dict_get_set. simpl. split; [reflexivity|].
    intros [= Hs]. rewrite Hs in E. discriminate.
  - intros _. maintains_with written_in.
Qed.

(** X12: in the placeholder map a run builds, the legacy site name stands
    under [xxMMBB_Primary_Node_Namexx] and [xxLTE_Site_IDxx] alike (both
    absent or both the same text), and it is never the empty string. *)
Theorem site_name_published_twice (excel_path : option Workbook)
    (r : Replacements) (ws : list string) :
  build_replacements excel_path = Ok (r, ws) ->
  dict_get "xxMMBB_Primary_Node_Namexx" r = dict_get "xxLTE_Site_IDxx" r
  /\ dict_get "xxLTE_Site_IDxx" r <> Some "".
Proof.
  unfold build_replacements. cbv zeta.
  destruct (primary_stage excel_path []) as [[u|e] r0] eqn:Hp; [|discriminate].
  intros [= E].
  assert (H0 : site_keys_agree r0).
  { unfold primary_stage in Hp.
    assert (Hnil : site_keys_agree []) by (split; [reflexivity | discriminate]).
    destruct (load_mixed_mode excel_path) as [df|].
    - rewrite extract_primary_node_selected in Hp.
      destruct (primary_node_of df) as [[node|]|e].
      + pose proof (maintains_primary_fields df node [] Hnil) as H.
        now rewrite Hp in H.
      + injection Hp as _ <-. exact Hnil.
      + discriminate.
    - injection Hp as _ <-. exact Hnil. }
  pose proof (maintains_dss_stage site_keys_agree (load_five_g excel_path)
                (load_eutran excel_path) r0 []) as H.
  rewrite E in H. apply H; [|exact H0].
  apply site_keys_agree_ignores. intros k Hk. simpl in Hk.
  repeat (destruct Hk as [<-|Hk]; [split; reflexivity|]). contradiction.
Qed.

Lemma site_name_published_twice_witness :
  dict_get "xxMMBB_Primary_Node_Namexx" partial_map
  = dict_get "xxLTE_Site_IDxx" partial_map.
Proof.
  apply (site_name_published_twice (Some (workbook five_g_sheet eutran_no_beta))
           partial_map [dss_warning IndexError] eq_refl).
Defined.

(** ** The DSS cell rows *)

(** X13: every row the stage works on, the alpha, beta and gamma rows among
    them, is a row of "5G Info" whose node name is the resolved node name
    and whose cross-reference is neither null nor the marker [NO]. *)
Theorem nr_dss_cells_qualify (five_g_df : DataFrame)
    (gc dc nc gnb_name : string) (cells : list row) (x : row) :
  nr_dss_cells five_g_df gc dc nc gnb_name = Ok cells ->
  In x cells ->
  In x (rows five_g_df)
  /\ row_get (columns five_g_df) x gc = CStr gnb_name
  /\ row_get (columns five_g_df) x dc <> CNull
  /\ row_get (columns five_g_df) x dc <> CStr "NO".
Proof.
  intros Hcells Hx. unfold nr_dss_cells in Hcells.
  destruct (sort_values_ok _ _ _ _ Hcells) as [P _].
  apply (Permutation_in _ P) in Hx. apply filter_In in Hx.
  destruct Hx as [Hin Hf]. split; [exact Hin|].
  unfold dss_filter in Hf.
  apply andb_true_iff in Hf. destruct Hf as [Hf Hno].
  apply andb_true_iff in Hf. destruct Hf as [Hname Hna].
  repeat split.
  - destruct (row_get (columns five_g_df) x gc); try discriminate.
    simpl in Hname. apply String.eqb_eq in Hname. now subst.
  - intros E. rewrite E in Hna. discriminate.
  - intros E. rewrite E in Hno. discriminate.
Qed.

Lemma nr_dss_cells_qualify_witness :
  row_get (columns five_g_sheet) cell_a "DSS" <> CStr "NO".
Proof.
  apply (nr_dss_cells_qualify five_g_sheet "gNB Name" "DSS" "NRCellDU" "GSITE1"
           [cell_a; cell_b; cell_c] cell_a eq_refl).
  left. reflexivity.
Defined.

(** ** The band patterns *)

Lemma is_ABC_not_digit (c : ascii) :
  Band.is_ABC c = true -> PyStr.is_digit c = false.
Proof.
  destruct c as [[] [] [] [] [] [] [] []]; simpl; intros H;
    try discriminate; reflexivity.
Qed.

Lemma take_digits_split (s ds rest : string) :
  PyStr.leading_digits s = (ds, rest) ->
  s = ds ++ rest /\ PyStr.all_digits ds = true.
Proof.
  revert ds rest. induction s as [|c s IH]; simpl; intros ds rest.
  - intros [= <- <-]. auto.
  - destruct (PyStr.is_digit c) eqn:E.
    + destruct (PyStr.leading_digits s) as [ds' rest'].
      intros [= <- <-]. destruct (IH ds' rest' eq_refl) as [-> H].
      simpl. rewrite E. auto.
    + intros [= <- <-]. auto.
Qed.

Lemma take_digits_run (g : string) (c : ascii) (t : string) :
  PyStr.all_digits g = true -> PyStr.is_digit c = false ->
  PyStr.leading_digits (g ++ String c t) = (g, String c t).
Proof.
  intros Hg Hc. induction g as [|d g IH]; simpl in *.
  - now rewrite Hc.
  - apply andb_true_iff in Hg. destruct Hg as [Hd Hg].
    rewrite Hd, (IH Hg). reflexivity.
Qed.

(** [_(\d+)[ABC]_] matches at the head of [suf] with group [g]. *)
Definition lte_pattern_at (g suf : string) : Prop :=
  exists c post,
    suf = String "_" (g ++ String c (String "_" post))
    /\ g <> "" /\ PyStr.all_digits g = true /\ Band.is_ABC c = true.

(** [_(N\d{3})[ABC]_] matches at the head of [suf] with group [g]. *)
Definition nr_pattern_at (g suf : string) : Prop :=
  exists d1 d2 d3 c post,
    suf = String "_" (String "N" (String d1 (String d2 (String d3
            (String c (String "_" post))))))
    /\ g = String "N" (String d1 (String d2 (String d3 "")))
    /\ PyStr.is_digit d1 = true /\ PyStr.is_digit d2 = true
    /\ PyStr.is_digit d3 = true /\ Band.is_ABC c = true.

Lemma lte_at_sound (suf g : string) :
  Band.lte_at suf = Some g -> lte_pattern_at g suf.
Proof.
  destruct suf as [|a r]; [discriminate|].
  destruct a as [[] [] [] [] [] [] [] []]; try discriminate.
  unfold Band.lte_at.
  destruct (PyStr.leading_digits r) as [ds rest] eqn:E.
  apply take_digits_split in E. destruct E as [-> Hd].
  destruct ds as [|d ds]; [discriminate|].
  destruct rest as [|c [|u post]]; try discriminate.
  destruct u as [[] [] [] [] [] [] [] []]; try discriminate.
  destruct (Band.is_ABC c) eqn:Ec; [|discriminate].
  intros [= <-]. exists c, post. repeat split; auto. discriminate.
Qed.

Lemma lte_at_complete (suf g : string) :
  lte_pattern_at g suf -> Band.lte_at suf = Some g.
Proof.
  intros (c & post & -> & Hne & Hd & Hc).
  unfold Band.lte_at.
  rewrite (take_digits_run g c _ Hd (is_ABC_not_digit c Hc)).
  destruct g as [|d g]; [contradiction|]. now rewrite Hc.
Qed.

Lemma nr_at_sound (suf g : string) :
  Band.nr_at suf = Some g -> nr_pattern_at g suf.
Proof.
  destruct suf as [|a suf]; [discriminate|].
  destruct a as [[] [] [] [] [] [] [] []]; try discriminate.
  destruct suf as [|b suf]; [discriminate|].
  destruct b as [[] [] [] [] [] [] [] []]; try discriminate.
  destruct suf as [|d1 [|d2 [|d3 [|c [|u post]]]]]; try discriminate.
  destruct u as [[] [] [] [] [] [] [] []]; try discriminate.
  unfold Band.nr_at.
  destruct (PyStr.is_digit d1) eqn:E1; [|discriminate].
  destruct (PyStr.is_digit d2) eqn:E2; [|discriminate].
  destruct (PyStr.is_digit d3) eqn:E3; [|discriminate].
  destruct (Band.is_ABC c) eqn:Ec; [|discriminate].
  intros [= <-]. exists d1, d2, d3, c, post. repeat split; auto.
Qed.

Lemma nr_at_complete (suf g : string) :
  nr_pattern_at g suf -> Band.nr_at suf = Some g.
Proof.
  intros (d1 & d2 & d3 & c & post & -> & -> & H1 & H2 & H3 & Hc).
  unfold Band.nr_at. now rewrite H1, H2, H3, Hc.
Qed.

Lemma search_sound (anchored : string -> option string) (s g : string) :
  Band.search anchored s = Some g ->
  exists pre suf, s = pre ++ suf /\ anchored suf = Some g.
Proof.
  induction s as [|c s IH]; simpl.
  - destruct (anchored "") eqn:E; [|discriminate].
    intros [= <-]. exists "", "". auto.
  - destruct (anchored (String c s)) eqn:E.
    + intros [= <-]. exists "", (String c s). auto.
    + intros H. destruct (IH H) as (pre & suf & -> & Hs).
      exists (String c pre), suf. auto.
Qed.

Lemma search_complete (anchored : string -> option string)
    (pre suf g : string) :
  anchored suf = Some g ->
  exists g', Band.search anchored (pre ++ suf) = Some g'.
Proof.
  intros H. induction pre as [|c pre IH]; simpl.
  - destruct suf; simpl; rewrite H; eauto.
  - destruct (anchored (String c (pre ++ suf))); eauto.
Qed.

(** X14: the legacy band search answers with a group exactly when the text
    holds, somewhere, an underscore, one or more digits, one of A, B, C and
    an underscore; the group it returns is the digit run of such a place,
    never empty. *)
Theorem lte_band_match_spec (s : string) :
  (forall g, Band.lte_band_match s = Some g ->
     exists pre suf, s = pre ++ suf /\ lte_pattern_at g suf)
  /\ ((exists g pre suf, s = pre ++ suf /\ lte_pattern_at g suf) ->
      exists g, Band.lte_band_match s = Some g).
Proof.
  split.
  - intros g H. apply search_sound in H.
    destruct H as (pre & suf & E & H). exists pre, suf.
    split; [exact E | now apply lte_at_sound].
  - intros (g & pre & suf & -> & H).
    apply (search_complete Band.lte_at pre suf g). now apply lte_at_complete.
Qed.

(** X15: the next-gen band search answers with a group exactly when the
    text holds, somewhere, an underscore, the letter N, three digits, one
    of A, B, C and an underscore; the group it returns is the letter N and
    the three digits of such a place. *)
Theorem nr_band_match_spec (s : string) :
  (forall g, Band.nr_band_match s = Some g ->
     exists pre suf, s = pre ++ suf /\ nr_pattern_at g suf)
  /\ ((exists g pre suf, s = pre ++ suf /\ nr_pattern_at g suf) ->
      exists g, Band.nr_band_match s = Some g).
Proof.
  split.
  - intros g H. apply search_sound in H.
    destruct H as (pre & suf & E & H). exists pre, suf.
    split; [exact E | now apply nr_at_sound].
  - intros (g & pre & suf & -> & H).
    apply (search_complete Band.nr_at pre suf g). now apply nr_at_complete.
Qed.

(** ** What a completed stage has emitted *)

(** When [m] completes from a map satisfying [P], the map satisfies [Q]. *)
Definition ensures {A} (P Q : Replacements -> Prop) (m : M A) : Prop :=
  forall r a r', P r -> m r = (Ok a, r') -> Q r'.

Lemma ensures_skip {A B} (P Q : Replacements -> Prop) (m : M A) (f : A -> M B) :
  maintains P m -> (forall a, ensures P Q (f a)) -> ensures P Q (bind m f).
Proof.
  intros Hm Hf r b r' HP. unfold bind.
  specialize (Hm r HP). destruct (m r) as [[a|e] r1]; [|discriminate].
  intros H. exact (Hf a r1 b r' Hm H).
Qed.

Lemma ensures_here {A B} (P Q : Replacements -> Prop) (m : M A) (f : A -> M B) :
  ensures P Q m -> (forall a, maintains Q (f a)) -> ensures P Q (bind m f).
Proof.
  intros Hm Hf r b r' HP. unfold bind.
  destruct (m r) as [[a|e] r1] eqn:E; [|discriminate].
  intros H. pose proof (Hf a r1 (Hm r a r1 HP E)) as K.
  now rewrite H in K.
Qed.

Lemma ensures_set (P Q : Replacements -> Prop) (k v : string) :
  (forall r, P r -> Q (dict_set k v r)) -> ensures P Q (set_item k v).
Proof.
  intros H r a r' HP E. unfold set_item in E. injection E as _ <-.
  now apply H.
Qed.

Lemma ensures_has {B} (P Q : Replacements -> Prop) (k : string) (b0 : bool)
    (f : bool -> M B) :
  (forall r, P r -> dict_mem k r = b0) -> ensures P Q (f b0) ->
  ensures P Q (bind (has_item k) f).
Proof.
  intros Hk Hf r b r' HP. unfold bind, has_item. rewrite (Hk r HP).
  now apply Hf.
Qed.

Lemma ensures_get {B} (P Q : Replacements -> Prop) (k v0 : string)
    (f : string -> M B) :
  (forall r, P r -> dict_get k r = Some v0) -> ensures P Q (f v0) ->
  ensures P Q (bind (get_item k) f).
Proof.
  intros Hk Hf r b r' HP. unfold bind, get_item. rewrite (Hk r HP).
  now apply Hf.
Qed.

(** The keys of the stage other than [K]. *)
Definition other_dss_keys (K : string) : list string :=
  filter (fun k => negb (k =? K)) dss_keys.

Lemma ignores_value_at (K : string) (o : option string) :
  ignores (fun r => dict_get K r = o) (other_dss_keys K).
Proof.
  apply (ignores_other_keys K (fun x => x = o)).
  intros k Hk. apply filter_In in Hk. destruct Hk as [_ Hk].
  now apply negb_true_iff in Hk.
Qed.

Section Emission.

Variables (five_g_df : DataFrame) (eutran_df : option DataFrame).
Variables (dc nc : string) (cl sc : option string).
Variables (alpha beta gamma : row) (nr_band : string).

Lemma mem_dec (k : string) (l : list string) :
  existsb (String.eqb k) l = true -> In k l.
Proof.
  intros H. apply existsb_exists in H. destruct H as (x & Hin & E).
  apply String.eqb_eq in E. now subst.
Qed.

Lemma incl_dec (l l' : list string) :
  forallb (fun k => existsb (String.eqb k) l') l = true ->
  forall k, In k l -> In k l'.
Proof.
  intros H k Hin. rewrite forallb_forall in H. apply mem_dec. now apply H.
Qed.

(** [m] writes none of the stage's keys but [X]'s others: it keeps the
    value under [X]. *)
Ltac keeps_value X :=
  let HX := fresh "HX" in
  pose proof (ignores_value_at X) as HX;
  repeat match goal with
  | |- maintains _ (lte_cell_details _ _ _ _) =>
      apply maintains_lte_cell_details;
      let Hin := fresh "Hin" in
      intros ? ? ? Hin ?; apply HX;
      [ revert Hin; apply incl_dec; vm_compute; reflexivity | assumption ]
  | |- maintains _ (bind _ _) => apply maintains_bind; [|intros ?]
  | |- maintains _ (ret _) => apply maintains_ret
  | |- maintains _ (has_item _) => apply maintains_has
  | |- maintains _ (get_item _) => apply maintains_get
  | |- maintains _ (set_item _ _) =>
      apply maintains_set; intros ? ?; apply HX;
      [ apply mem_dec; vm_compute; reflexivity | assumption ]
  | |- maintains _ (set_int _ _) =>
      apply maintains_set_int; intros ? ? ?; apply HX;
      [ apply mem_dec; vm_compute; reflexivity | assumption ]
  | |- maintains _ (match ?x with _ => _ end) => destruct x
  end.

(** The value under [K] is settled by one assignment and kept by what
    follows; the legacy site name is known to be in the map. *)
Ltac settles K :=
  lazymatch goal with
  | |- ensures _ _ (set_item _ _) =>
      apply ensures_set; intros ? ?; rewrite dict_get_set; reflexivity
  | |- ensures _ _ (bind (has_item _) _) =>
      eapply ensures_has;
      [ let Hs := fresh "Hs" in
        intros ? Hs; unfold dict_mem; rewrite Hs; reflexivity
      | cbv beta iota; settles K ]
  | |- ensures _ _ (bind (get_item _) _) =>
      eapply ensures_get;
      [ let Hs := fresh "Hs" in intros ? Hs; exact Hs
      | cbv beta; settles K ]
  | |- ensures _ _ (bind _ _) =>
      first
        [ solve [ apply ensures_here; [ settles K | intros ?; keeps_value K ] ]
        | solve [ apply ensures_skip;
                  [ keeps_value "xxLTE_Site_IDxx" | intros ?; settles K ] ] ]
  end.

Lemma emit_dss_site_labels (site : string) (K V : string) :
  In (K, V)
     [("xxMMBB_Primary_Node_Namexx_N00XA_1", site ++ "_" ++ nr_band ++ "A_1");
      ("xxMMBB_Primary_Node_Namexx_N00XB_1", site ++ "_" ++ nr_band ++ "B_1");
      ("xxMMBB_Primary_Node_Namexx_N00XC_1", site ++ "_" ++ nr_band ++ "C_1");
      ("xxLTE_Site_IDxx_X*", site ++ "_X*");
      ("xxLTE_Site_IDxx_XA_1", lte_name five_g_df dc alpha);
      ("xxLTE_Site_IDxx_XB_1", lte_name five_g_df dc beta);
      ("xxLTE_Site_IDxx_XC_1", lte_name five_g_df dc gamma);
      ("xx5G_NR_Node_Namexx_N00XA_1", nr_name five_g_df nc alpha);
      ("xx5G_NR_Node_Namexx_N00XB_1", nr_name five_g_df nc beta);
      ("xx5G_NR_Node_Namexx_N00XC_1", nr_name five_g_df nc gamma);
      ("N00XA", nr_band ++ "A"); ("N00XB", nr_band ++ "B");
      ("N00XC", nr_band ++ "C")] ->
  ensures (fun r => dict_get "xxLTE_Site_IDxx" r = Some site)
          (fun r => dict_get K r = Some V)
          (emit_dss five_g_df eutran_df dc nc cl sc alpha beta gamma nr_band).
Proof.
  intros Hin. simpl in Hin.
  repeat (destruct Hin as [[= <- <-]|Hin]; [|]); try contradiction.
  all: unfold lte_name, nr_name, emit_dss; cbv zeta.
  - settles "xxMMBB_Primary_Node_Namexx_N00XA_1".
  - settles "xxMMBB_Primary_Node_Namexx_N00XB_1".
  - settles "xxMMBB_Primary_Node_Namexx_N00XC_1".
  - settles "xxLTE_Site_IDxx_X*".
  - settles "xxLTE_Site_IDxx_XA_1".
  - settles "xxLTE_Site_IDxx_XB_1".
  - settles "xxLTE_Site_IDxx_XC_1".
  - settles "xx5G_NR_Node_Namexx_N00XA_1".
  - settles "xx5G_NR_Node_Namexx_N00XB_1".
  - settles "xx5G_NR_Node_Namexx_N00XC_1".
  - settles "N00XA".
  - settles "N00XB".
  - settles "N00XC".
Qed.

Lemma emit_dss_labels (K V : string) :
  In (K, V)
     [("xxLTE_Site_IDxx_XA_1", lte_name five_g_df dc alpha);
      ("xxLTE_Site_IDxx_XB_1", lte_name five_g_df dc beta);
      ("xxLTE_Site_IDxx_XC_1", lte_name five_g_df dc gamma);
      ("xx5G_NR_Node_Namexx_N00XA_1", nr_name five_g_df nc alpha);
      ("xx5G_NR_Node_Namexx_N00XB_1", nr_name five_g_df nc beta);
      ("xx5G_NR_Node_Namexx_N00XC_1", nr_name five_g_df nc gamma);
      ("N00XA", nr_band ++ "A"); ("N00XB", nr_band ++ "B");
      ("N00XC", nr_band ++ "C")] ->
  ensures (fun r => dict_get "xxLTE_Site_IDxx" r = None)
          (fun r => dict_get K r = Some V)
          (emit_dss five_g_df eutran_df dc nc cl sc alpha beta gamma nr_band).
Proof.
  intros Hin. simpl in Hin.
  repeat (destruct Hin as [[= <- <-]|Hin]; [|]); try contradiction.
  all: unfold lte_name, nr_name, emit_dss; cbv zeta.
  - settles "xxLTE_Site_IDxx_XA_1".
  - settles "xxLTE_Site_IDxx_XB_1".
  - settles "xxLTE_Site_IDxx_XC_1".
  - settles "xx5G_NR_Node_Namexx_N00XA_1".
  - settles "xx5G_NR_Node_Namexx_N00XB_1".
  - settles "xx5G_NR_Node_Namexx_N00XC_1".
  - settles "N00XA".
  - settles "N00XB".
  - settles "N00XC".
Qed.

End Emission.

(** The placeholders every completed emission holds, and the ones it holds
    besides when the legacy site name is in the map. *)
Definition cell_labels (five_g_df : DataFrame) (dc nc : string)
    (alpha beta gamma : row) (nr_band : string) : list (string * string) :=
  [("xxLTE_Site_IDxx_XA_1", lte_name five_g_df dc alpha);
   ("xxLTE_Site_IDxx_XB_1", lte_name five_g_df dc beta);
   ("xxLTE_Site_IDxx_XC_1", lte_name five_g_df dc gamma);
   ("xx5G_NR_Node_Namexx_N00XA_1", nr_name five_g_df nc alpha);
   ("xx5G_NR_Node_Namexx_N00XB_1", nr_name five_g_df nc beta);
   ("xx5G_NR_Node_Namexx_N00XC_1", nr_name five_g_df nc gamma);
   ("N00XA", nr_band ++ "A"); ("N00XB", nr_band ++ "B");
   ("N00XC", nr_band ++ "C")].

Definition site_labels (site nr_band : string) : list (string * string) :=
  [("xxMMBB_Primary_Node_Namexx_N00XA_1", site ++ "_" ++ nr_band ++ "A_1");
   ("xxMMBB_Primary_Node_Namexx_N00XB_1", site ++ "_" ++ nr_band ++ "B_1");
   ("xxMMBB_Primary_Node_Namexx_N00XC_1", site ++ "_" ++ nr_band ++ "C_1");
   ("xxLTE_Site_IDxx_X*", site ++ "_X*")].

(** X16: when the body of the DSS stage completes with three qualifying
    rows and both band patterns matched, the map holds, for alpha, beta and
    gamma, the legacy cross-reference name, the next-gen cell identifier
    and the band token (the next-gen band followed by the role letter);
    and, when the legacy site name is in the map, the three node labels
    site_bandROLE_1 and the wildcard key site_X* as well. *)
Theorem completed_stage_labels (five_g_df : DataFrame)
    (eutran_df : option DataFrame) (gnb_name gc dc nc : string)
    (r r' : Replacements) (alpha beta gamma : row) (rest : list row)
    (lte_band nr_band : string) :
  as_truthy (column (Some five_g_df) ["gNB Name"; "gNodeB Name"]) = Some gc ->
  as_truthy (column (Some five_g_df) ["DSS"; "dss"]) = Some dc ->
  as_truthy (column (Some five_g_df) ["NRCellDU"; "NRCellDu"]) = Some nc ->
  dict_get "xx5G_NR_Node_Namexx" r = Some gnb_name ->
  nr_dss_cells five_g_df gc dc nc gnb_name = Ok (alpha :: beta :: gamma :: rest) ->
  Band.lte_band_match (lte_name five_g_df dc alpha) = Some lte_band ->
  Band.nr_band_match (nr_name five_g_df nc alpha) = Some nr_band ->
  extract_dss_cells five_g_df eutran_df r = (Ok tt, r') ->
  (forall K V, In (K, V) (cell_labels five_g_df dc nc alpha beta gamma nr_band) ->
               dict_get K r' = Some V)
  /\ (forall site K V,
        dict_get "xxLTE_Site_IDxx" r = Some site ->
        In (K, V) (site_labels site nr_band) ->
        dict_get K r' = Some V).
Proof.
  intros Hgc Hdc Hnc Hname Hcells Hl Hn.
  rewrite (extract_dss_cells_resolved five_g_df eutran_df gnb_name gc dc nc
             Hgc Hdc Hnc r Hname), Hcells.
  unfold emit_if_bands. cbv zeta.
  fold (lte_name five_g_df dc alpha). fold (nr_name five_g_df nc alpha).
  rewrite Hl, Hn. intros He. split.
  - intros K V Hin.
    destruct (dict_get "xxLTE_Site_IDxx" r) as [site|] eqn:Hs.
    + apply (emit_dss_site_labels five_g_df eutran_df dc nc
               (five_g_local_id_col five_g_df) (five_g_sector_col five_g_df)
               alpha beta gamma nr_band site K V) with (r := r) (a := tt);
        [|exact Hs|exact He].
      unfold cell_labels in Hin. simpl in Hin |- *. tauto.
    + apply (emit_dss_labels five_g_df eutran_df dc nc
               (five_g_local_id_col five_g_df) (five_g_sector_col five_g_df)
               alpha beta gamma nr_band K V Hin r tt r' Hs He).
  - intros site K V Hs Hin.
    apply (emit_dss_site_labels five_g_df eutran_df dc nc
             (five_g_local_id_col five_g_df) (five_g_sector_col five_g_df)
             alpha beta gamma nr_band site K V) with (r := r) (a := tt);
      [|exact Hs|exact He].
    unfold site_labels in Hin. simpl in Hin |- *. tauto.
Qed.

Lemma completed_stage_labels_witness :
  dict_get "xxMMBB_Primary_Node_Namexx_N00XB_1"
    (snd (extract_dss_cells five_g_sheet (Some eutran_sheet) primary_map))
  = Some "SITE1_N066B_1".
Proof.
  destruct (completed_stage_labels five_g_sheet (Some eutran_sheet)
              "GSITE1" "gNB Name" "DSS" "NRCellDU" primary_map
              (snd (extract_dss_cells five_g_sheet (Some eutran_sheet) primary_map))
              cell_a cell_b cell_c [] "66" "N066"
              eq_refl eq_refl eq_refl eq_refl eq_refl eq_refl eq_refl eq_refl)
    as [_ H].
  apply (H "SITE1"); [reflexivity|]. simpl. tauto.
Defined.

(** ** The band tokens of a run *)

Definition token_keys : list (string * string) :=
  [("N00XA", "A"); ("N00XB", "B"); ("N00XC", "C")].

(** The letter N, three digits and the role letter. *)
Definition band_token (role v : string) : Prop :=
  exists d1 d2 d3,
    PyStr.is_digit d1 = true /\ PyStr.is_digit d2 = true
    /\ PyStr.is_digit d3 = true
    /\ v = String "N" (String d1 (String d2 (String d3 role))).

Definition tokens_ok (r : Replacements) : Prop :=
  forall K role v, In (K, role) token_keys -> dict_get K r = Some v ->
                   band_token role v.

Lemma tokens_other (k v : string) (r : Replacements) :
  existsb (String.eqb k) (map fst token_keys) = false ->
  tokens_ok r -> tokens_ok (dict_set k v r).
Proof.
  intros Hk H K role v' HK Hget. rewrite dict_get_set in Hget.
  destruct (k =? K) eqn:E; [|exact (H K role v' HK Hget)].
  exfalso. apply String.eqb_eq in E. subst K.
  assert (Hin : In k (map fst token_keys)).
  { change k with (fst (k, role)). now apply in_map. }
  assert (Ht : existsb (String.eqb k) (map fst token_keys) = true).
  { apply existsb_exists. exists k. split; [exact Hin | apply String.eqb_refl]. }
  congruence.
Qed.

Lemma tokens_set (nr_band K role : string) (r : Replacements) :
  band_token "" nr_band -> In (K, role) token_keys ->
  tokens_ok r -> tokens_ok (dict_set K (nr_band ++ role) r).
Proof.
  intros (d1 & d2 & d3 & H1 & H2 & H3 & ->) HK H K' role' v' HK' Hget.
  rewrite dict_get_set in Hget.
  destruct (K =? K') eqn:E; [|exact (H K' role' v' HK' Hget)].
  apply String.eqb_eq in E. subst K'. injection Hget as <-.
  assert (role' = role).
  { simpl in HK, HK'.
    destruct HK as [[= <- <-]|[[= <- <-]|[[= <- <-]|[]]]];
      destruct HK' as [[= <-]|[[= <-]|[[= <-]|[]]]]; reflexivity. }
  subst role'. exists d1, d2, d3. auto.
Qed.

Lemma nr_band_shape (s nr_band : string) :
  Band.nr_band_match s = Some nr_band -> band_token "" nr_band.
Proof.
  intros H. apply search_sound in H. destruct H as (pre & suf & _ & H).
  apply nr_at_sound in H.
  destruct H as (d1 & d2 & d3 & c & post & _ & -> & H1 & H2 & H3 & _).
  exists d1, d2, d3. auto.
Qed.

Ltac tokens_side nr_band Hshape :=
  first
    [ solve [ intros; apply tokens_other; [vm_compute; reflexivity | assumption] ]
    | solve [ intros; apply (tokens_set nr_band);
              [ exact Hshape | simpl; tauto | assumption ] ] ].

Lemma maintains_tokens_emit_dss (five_g_df : DataFrame)
    (eutran_df : option DataFrame) (dc nc : string) (cl sc : option string)
    (a b c : row) (nr_band : string) :
  band_token "" nr_band ->
  maintains tokens_ok (emit_dss five_g_df eutran_df dc nc cl sc a b c nr_band).
Proof.
  intros Hshape. unfold emit_dss. cbv zeta.
  maintains_with ltac:(tokens_side nr_band Hshape).
  apply maintains_lte_cell_details.
  intros k v r Hin. apply tokens_other.
  simpl in Hin. repeat (destruct Hin as [<-|Hin]; [reflexivity|]). contradiction.
Qed.

Lemma maintains_tokens_extract (five_g_df : DataFrame)
    (eutran_df : option DataFrame) :
  maintains tokens_ok (extract_dss_cells five_g_df eutran_df).
Proof.
  unfold extract_dss_cells. cbv zeta.
  maintains_with idtac.
  unfold emit_if_bands. cbv zeta.
  destruct (Band.lte_band_match _); [|apply maintains_ret].
  destruct (Band.nr_band_match _) as [nr_band|] eqn:E; [|apply maintains_ret].
  apply maintains_tokens_emit_dss. exact (nr_band_shape _ _ E).
Qed.

Lemma maintains_tokens_primary (df : DataFrame) (node : row) :
  maintains tokens_ok (primary_fields df node).
Proof.
  unfold primary_fields.
  maintains_with ltac:(solve [ intros; apply tokens_other;
                               [vm_compute; reflexivity | assumption] ]).
Qed.

(** X17: in the placeholder map a run builds, a band token ([N00XA],
    [N00XB], [N00XC]), when present, is the letter N, three digits and the
    letter of its role. *)
Theorem band_tokens_well_formed (excel_path : option Workbook)
    (r : Replacements) (ws : list string) (K role v : string) :
  build_replacements excel_path = Ok (r, ws) ->
  In (K, role) token_keys ->
  dict_get K r = Some v ->
  band_token role v.
Proof.
  unfold build_replacements. cbv zeta.
  destruct (primary_stage excel_path []) as [[u|e] r0] eqn:Hp; [|discriminate].
  intros [= E].
  assert (Hnil : tokens_ok []) by (intros K' role' v' _ H; discriminate H).
  assert (H0 : tokens_ok r0).
  { unfold primary_stage in Hp.
    destruct (load_mixed_mode excel_path) as [df|].
    - rewrite extract_primary_node_selected in Hp.
      destruct (primary_node_of df) as [[node|]|e].
      + pose proof (maintains_tokens_primary df node [] Hnil) as H.
        now rewrite Hp in H.
      + injection Hp as _ <-. exact Hnil.
      + discriminate.
    - injection Hp as _ <-. exact Hnil. }
  assert (H1 : tokens_ok r).
  { unfold dss_stage in E.
    destruct (load_five_g excel_path) as [df|];
      [|injection E as <- _; exact H0].
    destruct (dict_mem "xx5G_NR_Node_Namexx" r0);
      [|injection E as <- _; exact H0].
    pose proof (maintains_tokens_extract df (load_eutran excel_path) r0 H0) as H.
    destruct (extract_dss_cells df (load_eutran excel_path) r0) as [[u'|e] r1];
      injection E as <- _; exact H. }
  intros HK Hget. exact (H1 K role v HK Hget).
Qed.

Lemma band_tokens_well_formed_witness : band_token "A" "N066A".
Proof.
  apply (band_tokens_well_formed (Some (workbook five_g_sheet eutran_no_beta))
           partial_map [dss_warning IndexError] "N00XA" "A" "N066A" eq_refl).
  - simpl. tauto.
  - reflexivity.
Defined.

(** ** The filler *)

Lemma dict_set_Forall {V} (P : string * V -> Prop) (k : string) (v : V)
    (d : dict V) :
  P (k, v) -> Forall P d -> Forall P (dict_set k v d).
Proof.
  intros Hk H. induction H as [|[k0 v0] d Hx Hd IH]; simpl.
  - repeat constructor. exact Hk.
  - destruct (k0 =? k); constructor; auto.
Qed.

Lemma dict_set_keys {V} (k : string) (v : V) (d : dict V) (x : string) :
  In x (dict_keys (dict_set k v d)) -> x = k \/ In x (dict_keys d).
Proof.
  induction d as [|[k0 v0] d IH]; simpl.
  - intros [<-|[]]. now left.
  - destruct (k0 =? k) eqn:E; simpl.
    + intros [<-|H]; auto.
    + intros [<-|H]; auto. destruct (IH H); auto.
Qed.

Lemma dict_set_NoDup {V} (k : string) (v : V) (d : dict V) :
  NoDup (dict_keys d) -> NoDup (dict_keys (dict_set k v d)).
Proof.
  induction d as [|[k0 v0] d IH]; simpl; intros ND.
  - repeat constructor. intros [].
  - inversion ND as [|? ? Hnotin ND']; subst.
    destruct (k0 =? k) eqn:E; simpl.
    + apply String.eqb_eq in E. subst k0. now constructor.
    + constructor; [|auto]. intros H.
      apply dict_set_keys in H. destruct H as [->|H]; [|contradiction].
      rewrite String.eqb_refl in E. discriminate.
Qed.

(** What holds of the count map all along the loop. *)
Definition counts_ok (keys : list string) (counts : dict nat) : Prop :=
  Forall (fun kn => In (fst kn) keys /\ 0 < snd kn) counts
  /\ NoDup (dict_keys counts).

Lemma fill_step_counts_ok (keys : list string) (text : string)
    (counts : dict nat) (kv : string * string) :
  In (fst kv) keys -> counts_ok keys counts ->
  counts_ok keys (snd (fill_step (text, counts) kv)).
Proof.
  intros Hk [HF HN]. destruct kv as [k v]. unfold fill_step.
  destruct (0 <? PyStr.count text k)%nat eqn:E; [|split; assumption].
  apply Nat.ltb_lt in E. cbn [snd]. split.
  - apply dict_set_Forall; [split; assumption | exact HF].
  - now apply dict_set_NoDup.
Qed.

Lemma fold_fill_step_counts_ok (keys : list string)
    (items : list (string * string)) (acc : string * dict nat) :
  (forall kv, In kv items -> In (fst kv) keys) ->
  counts_ok keys (snd acc) ->
  counts_ok keys (snd (fold_left fill_step items acc)).
Proof.
  revert acc. induction items as [|kv items IH]; intros [text counts] Hk H;
    simpl; [exact H|].
  apply IH; [intros x Hx; apply Hk; now right|].
  apply fill_step_counts_ok; [apply Hk; now left | exact H].
Qed.

Lemma fill_template_counts_ok (template : string) (d : Replacements) :
  counts_ok (dict_keys d) (snd (fill_template template d)).
Proof.
  unfold fill_template. apply fold_fill_step_counts_ok.
  - intros kv H. apply in_map.
    exact (Permutation_in _ (sorted_replacements_perm d) H).
  - split; constructor.
Qed.

(** X18: the count map the filler returns lists placeholders of the
    placeholder map only, each once and each with a count of at least
    one. *)
Theorem fill_counts_positive (template : string) (d : Replacements) :
  NoDup (dict_keys (snd (fill_template template d)))
  /\ forall k n, In (k, n) (snd (fill_template template d)) ->
       In k (dict_keys d) /\ 0 < n.
Proof.
  destruct (fill_template_counts_ok template d) as [HF HN].
  split; [exact HN|]. intros k n Hin.
  rewrite Forall_forall in HF. exact (HF (k, n) Hin).
Qed.

(** X19: when no key of the map occurs in the template, the filler returns
    the template as it is, with an empty count map. *)
Theorem fill_without_occurrence (template : string) (d : Replacements) :
  (forall k, In k (dict_keys d) -> PyStr.occurs k template = false) ->
  fill_template template d = (template, []).
Proof.
  intros H. unfold fill_template. apply fold_fill_step_fixed.
  intros [k v] Hin. simpl.
  assert (Hk : In k (dict_keys d)).
  { change k with (fst (k, v)). apply in_map.
    exact (Permutation_in _ (sorted_replacements_perm d) Hin). }
  apply StrFacts.count_no_occurrence; [|now apply H].
  intros ->. specialize (H "" Hk). rewrite StrFacts.occurs_nil in H.
  discriminate.
Qed.

Lemma fill_without_occurrence_witness :
  fill_template "plain text" two_keys = ("plain text", []).
Proof.
  apply fill_without_occurrence. intros k Hk. simpl in Hk.
  destruct Hk as [<-|[<-|[]]]; reflexivity.
Defined.

Lemma replace_from_length (a : ascii) (k new : string) :
  forall n s, String.length s <= n ->
    String.length (PyStr.replace_from (String a k) new 0 s)
    + PyStr.count_from (String a k) 0 s * String.length (String a k)
    = String.length s + PyStr.count_from (String a k) 0 s * String.length new.
Proof.
  induction n as [|n IH]; intros s Hn.
  - destruct s; [reflexivity | simpl in Hn; lia].
  - destruct (StrFacts.replace_from_split a k new s)
      as [(_ & R & C)|(pre & rest & E & _ & R & C & L)].
    + rewrite R, C. lia.
    + pose proof (f_equal String.length E) as Ls.
      specialize (IH rest ltac:(lia)).
      cbv zeta in R, C. rewrite R, C.
      rewrite !StrFacts.length_append in *.
      simpl String.length in *. nia.
Qed.

(** X20: the count the filler records for a placeholder is the number of
    occurrences it replaces: after the step the text is longer by the
    count times the length of the value and shorter by the count times the
    length of the placeholder; a placeholder counted zero times changes
    neither the text nor the count map. *)
Theorem fill_step_accounts (text : string) (counts : dict nat) (k v : string) :
  k <> "" ->
  let n := PyStr.count text k in
  String.length (fst (fill_step (text, counts) (k, v))) + n * String.length k
  = String.length text + n * String.length v
  /\ (0 < n -> dict_get k (snd (fill_step (text, counts) (k, v))) = Some n)
  /\ (n = 0 -> fill_step (text, counts) (k, v) = (text, counts)).
Proof.
  intros Hne n. split; [|split].
  - rewrite (fill_step_text text counts (k, v)). cbn [fst snd]. subst n.
    destruct k as [|a k]; [contradiction|]. unfold PyStr.replace, PyStr.count.
    apply (replace_from_length a k v (String.length text)). lia.
  - intros Hn. unfold fill_step. fold n.
    apply Nat.ltb_lt in Hn. rewrite Hn. cbn [snd].
    rewrite dict_get_set, String.eqb_refl. reflexivity.
  - intros Hn. unfold fill_step. fold n. now rewrite Hn.
Qed.

Lemma fill_step_accounts_witness :
  String.length (fst (fill_step ("aaaaa", []) ("aa", "b"))) + 2 * 2 = 5 + 2 * 1.
Proof.
  destruct (fill_step_accounts "aaaaa" [] "aa" "b") as [H _].
  - discriminate.
  - exact H.
Defined.

Lemma insert_by_filter (n : nat) (x : string * string)
    (l : list (string * string)) :
  let le := fun a b : string * string =>
              (String.length (fst b) <=? String.length (fst a))%nat in
  let p := fun a : string * string => (String.length (fst a) =? n)%nat in
  filter p (insert_by le x l) = filter p (x :: l).
Proof.
  intros le p. induction l as [|y l IH]; [reflexivity|].
  cbn [insert_by]. destruct (le x y) eqn:E; [reflexivity|].
  cbn [filter] in *. rewrite IH.
  destruct (p x) eqn:Px; [|reflexivity].
  destruct (p y) eqn:Py; [|reflexivity].
  subst le p. cbv beta in *.
  apply Nat.eqb_eq in Px. apply Nat.eqb_eq in Py.
  apply Nat.leb_gt in E. lia.
Qed.

(** X21: the filler substitutes each item of the placeholder map once, in
    an order of non-increasing key length, the keys of one length in the
    order in which they were inserted into the map. *)
Theorem substitution_order (d : Replacements) :
  Permutation (sorted_replacements d) d
  /\ StronglySorted longer_first (sorted_replacements d)
  /\ forall n,
       filter (fun kv => (String.length (fst kv) =? n)%nat)
              (sorted_replacements d)
       = filter (fun kv => (String.length (fst kv) =? n)%nat) d.
Proof.
  split; [apply sorted_replacements_perm|].
  split; [apply sorted_replacements_sorted|].
  intros n. unfold sorted_replacements.
  induction d as [|x d IH]; [reflexivity|].
  cbn [sort_by fold_right]. rewrite insert_by_filter.
  cbn [filter]. unfold sort_by in IH. now rewrite IH.
Qed.

(** ** The whole run *)

(** What makes the primary-node block raise [e]: a header of "Mixed Mode
    Info" that is not text, which [find_column] cannot lower-case, or a
    node-ID cell of the selected row whose coercion raises [e]. *)
Definition header_raises (excel_path : option Workbook) (e : exc) : Prop :=
  exists df z,
    load_mixed_mode excel_path = Some df
    /\ df_empty df = false
    /\ In (LNum z) (columns df)
    /\ e = AttributeError.

Definition coercion_raises (excel_path : option Workbook) (e : exc) : Prop :=
  exists df node v,
    load_mixed_mode excel_path = Some df
    /\ primary_node_of df = Ok (Some node)
    /\ (node_field df node (mm_enb_id_col df) = Ok v
        \/ node_field df node (mm_gnb_id_col df) = Ok v)
    /\ py_int_of_float v = Raise e.

Lemma header_texts_none (cols : list label) :
  header_texts cols = None -> exists z, In (LNum z) cols.
Proof.
  induction cols as [|[c|z] cols IH]; simpl; [discriminate| |].
  - destruct (header_texts cols); [discriminate|].
    intros _. destruct (IH eq_refl) as (z & Hz). eauto.
  - intros _. exists z. now left.
Qed.

Lemma readable_false (d : DataFrame) :
  readable (Some d) = false ->
  df_empty d = false /\ exists z, In (LNum z) (columns d).
Proof.
  unfold readable. destruct (df_empty d); [discriminate|].
  destruct (header_texts (columns d)) eqn:E; [discriminate|].
  intros _. split; [reflexivity|]. now apply header_texts_none.
Qed.

Lemma primary_stage_raise (excel_path : option Workbook) (r r' : Replacements)
    (e : exc) :
  primary_stage excel_path r = (Raise e, r') ->
  header_raises excel_path e \/ coercion_raises excel_path e.
Proof.
  unfold primary_stage, header_raises, coercion_raises.
  destruct (load_mixed_mode excel_path) as [df|]; [|discriminate].
  rewrite extract_primary_node_selected.
  destruct (primary_node_of df) as [[node|]|e0] eqn:Ho; [|discriminate|].
  - destruct (node_field_ok df node (mm_enb_id_col df)) as (v1 & E1 & _).
    destruct (node_field_ok df node (mm_gnb_id_col df)) as (v2 & E2 & _).
    pose proof (primary_fields_outcome df node r v1 v2 E1 E2) as H.
    intros Hp. rewrite Hp in H. cbn [fst] in H. right.
    destruct (py_int_of_float v1) as [z1|e1] eqn:P1;
      [destruct (py_int_of_float v2) as [z2|e2] eqn:P2|]; try discriminate.
    + injection H as <-. exists df, node, v2. auto.
    + injection H as <-. exists df, node, v1. auto.
  - intros [= <- _]. rewrite primary_node_of_readable in Ho.
    destruct (readable (Some df)) eqn:Hr.
    + rewrite select_primary_node_find in Ho. discriminate.
    + injection Ho as <-. left.
      destruct (readable_false df Hr) as (He & z & Hz).
      exists df, z. auto.
Qed.

Lemma dss_stage_warnings (five_g_df eutran_df : option DataFrame)
    (r : Replacements) :
  snd (dss_stage five_g_df eutran_df r []) = []
  \/ exists e, snd (dss_stage five_g_df eutran_df r []) = [dss_warning e].
Proof.
  unfold dss_stage. destruct five_g_df as [df|]; [|now left].
  destruct (dict_mem "xx5G_NR_Node_Namexx" r); [|now left].
  destruct (extract_dss_cells df eutran_df r) as [[u|e] r1].
  - now left.
  - right. exists e. reflexivity.
Qed.

(** X22: with the workbook opened and the template read, an exception
    leaves [process_template] only from the primary-node block: the
    [AttributeError] of a "Mixed Mode Info" sheet that is not empty and has
    a header that is not text, or what coercing a node ID of the selected
    primary node raises. *)
Theorem run_raises_in_primary_block (wb : Workbook) (template : string)
    (e : exc) :
  process_template (Some wb) (Some template) = Raise e ->
  header_raises (Some wb) e \/ coercion_raises (Some wb) e.
Proof.
  unfold process_template, build_replacements. cbv zeta.
  destruct (primary_stage (Some wb) []) as [[u|e0] r0] eqn:Hp.
  - cbn [rbind].
    destruct (dss_stage (load_five_g (Some wb)) (load_eutran (Some wb)) r0 [])
      as [r ws].
    destruct (fill_template template r). discriminate.
  - cbn [rbind]. intros [= <-]. exact (primary_stage_raise _ _ _ _ Hp).
Qed.

Lemma run_raises_in_primary_block_witness :
  (header_raises (Some [("Mixed Mode Info", year_header)]) AttributeError
   \/ coercion_raises (Some [("Mixed Mode Info", year_header)]) AttributeError)
  /\ (header_raises (Some bad_node_id) ValueError
      \/ coercion_raises (Some bad_node_id) ValueError).
Proof.
  split.
  - apply (run_raises_in_primary_block [("Mixed Mode Info", year_header)] "").
    reflexivity.
  - apply (run_raises_in_primary_block bad_node_id ""). reflexivity.
Defined.

Lemma process_template_inv (excel_path : option Workbook)
    (template_path : option string) (filled : string) (counts : dict nat)
    (warnings : list string) :
  process_template excel_path template_path = Ok (filled, counts, warnings) ->
  exists template r,
    template_path = Some template
    /\ build_replacements excel_path = Ok (r, warnings)
    /\ fill_template template r = (filled, counts).
Proof.
  unfold process_template.
  destruct excel_path as [wb|]; [|discriminate].
  destruct template_path as [template|]; [|discriminate].
  destruct (build_replacements (Some wb)) as [[r ws]|e]; [|discriminate].
  cbn [rbind]. destruct (fill_template template r) as [f c] eqn:E.
  intros [= <- <- <-]. exists template, r. auto.
Qed.

Lemma build_replacements_warnings (excel_path : option Workbook)
    (r : Replacements) (warnings : list string) :
  build_replacements excel_path = Ok (r, warnings) ->
  warnings = [] \/ exists e, warnings = [dss_warning e].
Proof.
  unfold build_replacements. cbv zeta.
  destruct (primary_stage excel_path []) as [[u|e0] r0]; [|discriminate].
  pose proof (dss_stage_warnings (load_five_g excel_path)
                (load_eutran excel_path) r0) as H.
  destruct (dss_stage (load_five_g excel_path) (load_eutran excel_path) r0 [])
    as [r1 ws].
  intros [= _ <-]. exact H.
Qed.

(** X23: a run that returns carries at most one warning, and it is the
    warning of the guarded stage. *)
Theorem at_most_one_warning (excel_path : option Workbook)
    (template_path : option string) (filled : string) (counts : dict nat)
    (warnings : list string) :
  process_template excel_path template_path = Ok (filled, counts, warnings) ->
  warnings = [] \/ exists e, warnings = [dss_warning e].
Proof.
  intros H. apply process_template_inv in H.
  destruct H as (template & r & _ & Hb & _).
  exact (build_replacements_warnings _ _ _ Hb).
Qed.

Lemma at_most_one_warning_witness :
  ["Error extracting DSS cells: single positional indexer is out-of-bounds"] = []
  \/ exists e,
       ["Error extracting DSS cells: single positional indexer is out-of-bounds"]
       = [dss_warning e].
Proof.
  apply (at_most_one_warning (Some (workbook five_g_sheet eutran_no_beta))
           (Some "LTE_cellidA LTE_cellidB") "11 LTE_cellidB"
           [("LTE_cellidA", 1)]).
  reflexivity.
Defined.

(** X24: a workbook without a "Mixed Mode Info" sheet, or with one on which
    no primary node is selected, leaves the template as it is: nothing is
    read from the other two sheets, whatever they hold. *)
Theorem run_without_primary_node (wb : Workbook) (template : string) :
  load_mixed_mode (Some wb) = None
  \/ (exists df, load_mixed_mode (Some wb) = Some df
                 /\ primary_node_of df = Ok None) ->
  process_template (Some wb) (Some template) = Ok (template, [], []).
Proof.
  intros H.
  assert (Hp : primary_stage (Some wb) [] = (Ok tt, [])).
  { unfold primary_stage. destruct H as [->|(df & -> & Hn)]; [reflexivity|].
    now rewrite extract_primary_node_selected, Hn. }
  rewrite (process_template_after_primary wb template [] Hp). cbv zeta.
  assert (Hd : dss_stage (load_five_g (Some wb)) (load_eutran (Some wb)) [] []
               = ([], [])).
  { unfold dss_stage. now destruct (load_five_g (Some wb)). }
  rewrite Hd. reflexivity.
Qed.

Lemma run_without_primary_node_witness :
  process_template (Some [("5G Info", five_g_sheet);
                          ("eUtran Parameters", eutran_sheet)])
                   (Some "xxLTE_Site_IDxx LTE_cellidA")
  = Ok ("xxLTE_Site_IDxx LTE_cellidA", [], []).
Proof.
  apply run_without_primary_node. left. reflexivity.
Defined.

(** ** The summary and the output name of the application *)

(** [len(replacements)], the count map being what [process_template]
    returns second. *)
Definition placeholders_replaced (replacements : dict nat) : nat :=
  List.length replacements.

(** [sum(replacements.values())] *)
Definition total_replacements (replacements : dict nat) : nat :=
  list_sum (map snd replacements).

(** [warnings[:5]] *)
Definition warnings_shown (warnings : list string) : list string :=
  firstn 5 warnings.

(** The number the line "... and n more warnings" gives, when it is
    logged. *)
Definition warnings_elided (warnings : list string) : option nat :=
  if (5 <? List.length warnings)%nat
  then Some (List.length warnings - 5)
  else None.

(** [template_file.name.replace('.txt', '_FILLED.txt')] *)
Definition output_filename (name : string) : string :=
  PyStr.replace name ".txt" "_FILLED.txt".

Lemma positive_sum (l : list (string * nat)) :
  Forall (fun kn => 0 < snd kn) l ->
  List.length l <= list_sum (map snd l).
Proof.
  induction 1 as [|[k n] l Hn Hl IH]; simpl in *; lia.
Qed.

(** X25: in the summary of a run, the total of replacements is at least the
    number of placeholders replaced: every placeholder counted was
    replaced at least once. *)
Theorem summary_totals (excel_path : option Workbook)
    (template_path : option string) (filled : string) (counts : dict nat)
    (warnings : list string) :
  process_template excel_path template_path = Ok (filled, counts, warnings) ->
  placeholders_replaced counts <= total_replacements counts.
Proof.
  intros H. apply process_template_inv in H.
  destruct H as (template & d & _ & _ & E).
  destruct (fill_template_counts_ok template d) as [HF _].
  rewrite E in HF. cbn [snd] in HF.
  apply positive_sum. eapply Forall_impl; [|exact HF].
  intros kn [_ Hn]. exact Hn.
Qed.

Lemma summary_totals_witness :
  placeholders_replaced [("LTE_cellidA", 1)]
  <= total_replacements [("LTE_cellidA", 1)].
Proof.
  apply (summary_totals (Some (workbook five_g_sheet eutran_no_beta))
           (Some "LTE_cellidA LTE_cellidB") "11 LTE_cellidB"
           [("LTE_cellidA", 1)]
           ["Error extracting DSS cells: single positional indexer is out-of-bounds"]).
  reflexivity.
Defined.

Lemma prefix_txt_tail (c : ascii) (s : string) :
  prefix ".txt" (String c s) = false ->
  prefix ".txt" (String c (s ++ ".txt")) = false.
Proof.
  cbn [prefix]. destruct (ascii_dec "." c); [|reflexivity].
  destruct s as [|c1 s]; [reflexivity|].
  cbn [prefix append]. destruct (ascii_dec "t" c1); [|reflexivity].
  destruct s as [|c2 s]; [reflexivity|].
  cbn [prefix append]. destruct (ascii_dec "x" c2); [|reflexivity].
  destruct s as [|c3 s]; [reflexivity|].
  cbn [prefix append]. destruct (ascii_dec "t" c3); [|reflexivity].
  now destruct s.
Qed.

Lemma replace_txt_tail (new stem : string) :
  PyStr.occurs ".txt" stem = false ->
  PyStr.replace_from ".txt" new 0 (stem ++ ".txt") = stem ++ new.
Proof.
  induction stem as [|c s IH]; intros O.
  - simpl. now rewrite StrFacts.append_nil_r.
  - rewrite StrFacts.occurs_cons in O. apply orb_false_iff in O.
    destruct O as [P O].
    change (String c s ++ ".txt") with (String c (s ++ ".txt")).
    cbn [PyStr.replace_from]. rewrite (prefix_txt_tail c s P).
    rewrite (IH O). reflexivity.
Qed.

(** X26: the output name of a template whose name ends in [.txt] and holds
    [.txt] nowhere else is the name with [_FILLED] set before the
    extension; a name that holds no [.txt] is kept as it is. *)
Theorem output_filename_spec (name : string) :
  PyStr.occurs ".txt" name = false ->
  output_filename (name ++ ".txt") = name ++ "_FILLED.txt"
  /\ output_filename name = name.
Proof.
  intros O. split.
  - apply replace_txt_tail. exact O.
  - apply StrFacts.replace_no_occurrence; [discriminate | exact O].
Qed.

Lemma output_filename_spec_witness :
  output_filename ("site.TXT" ++ ".txt") = "site.TXT" ++ "_FILLED.txt"
  /\ output_filename "site.TXT" = "site.TXT".
Proof. apply output_filename_spec. reflexivity. Defined.

(** X27: every warning of a run is shown in the summary, and the line that
    counts the warnings left out is never logged. *)
Theorem warnings_all_shown (excel_path : option Workbook)
    (template_path : option string) (filled : string) (counts : dict nat)
    (warnings : list string) :
  process_template excel_path template_path = Ok (filled, counts, warnings) ->
  warnings_shown warnings = warnings /\ warnings_elided warnings = None.
Proof.
  intros H. apply process_template_inv in H.
  destruct H as (template & r & _ & Hb & _).
  destruct (build_replacements_warnings _ _ _ Hb) as [->|(e & ->)];
    split; reflexivity.
Qed.

Lemma warnings_all_shown_witness :
  warnings_shown
    ["Error extracting DSS cells: single positional indexer is out-of-bounds"]
  = ["Error extracting DSS cells: single positional indexer is out-of-bounds"]
  /\ warnings_elided
       ["Error extracting DSS cells: single positional indexer is out-of-bounds"]
     = None.
Proof.
  apply (warnings_all_shown (Some (workbook five_g_sheet eutran_no_beta))
           (Some "LTE_cellidA LTE_cellidB") "11 LTE_cellidB"
           [("LTE_cellidA", 1)]).
  reflexivity.
Defined.

(** ** Headers that are not text *)

Lemma header_texts_number (cols : list label) (z : Z) :
  In (LNum z) cols -> header_texts cols = None.
Proof.
  induction cols as [|[c|z'] cols IH]; simpl; [contradiction| |reflexivity].
  intros [H|H]; [discriminate|]. now rewrite (IH H).
Qed.

Lemma not_readable (d : DataFrame) (z : Z) :
  df_empty d = false -> In (LNum z) (columns d) -> readable (Some d) = false.
Proof.
  intros He Hz. unfold readable. now rewrite He, (header_texts_number _ z Hz).
Qed.

(** X28: a "Mixed Mode Info" sheet that is not empty and has a header that
    is not text aborts the run: [find_column] raises [AttributeError]
    outside any handler. *)
Theorem mixed_mode_header_aborts (wb : Workbook) (template : string)
    (df : DataFrame) (z : Z) :
  load_mixed_mode (Some wb) = Some df ->
  df_empty df = false ->
  In (LNum z) (columns df) ->
  process_template (Some wb) (Some template) = Raise AttributeError.
Proof.
  intros Hs He Hz. unfold process_template, build_replacements, primary_stage.
  cbv zeta. rewrite Hs. unfold extract_primary_node. cbv zeta.
  rewrite bind_find_column_raises by exact (not_readable df z He Hz).
  reflexivity.
Qed.

Lemma mixed_mode_header_aborts_witness :
  process_template (Some [("Mixed Mode Info", year_header)]) (Some "text")
  = Raise AttributeError.
Proof.
  apply (mixed_mode_header_aborts [("Mixed Mode Info", year_header)] "text"
           year_header 2024).
  - reflexivity.
  - reflexivity.
  - right. left. reflexivity.
Defined.

(** X29: a "5G Info" sheet that is not empty and has a header that is not
    text is logged, once the next-gen node name is in the map: the stage
    appends the warning of the [AttributeError] and leaves the map as it
    was. *)
Theorem five_g_header_logged (df : DataFrame) (eutran_df : option DataFrame)
    (r : Replacements) (ws : list string) (z : Z) :
  dict_mem "xx5G_NR_Node_Namexx" r = true ->
  df_empty df = false ->
  In (LNum z) (columns df) ->
  dss_stage (Some df) eutran_df r ws
  = (r, (ws ++ [dss_warning AttributeError])%list).
Proof.
  intros Hm He Hz. apply dss_stage_raised; [exact Hm|].
  unfold dict_mem in Hm.
  destruct (dict_get "xx5G_NR_Node_Namexx" r) as [gnb_name|] eqn:Hname;
    [|discriminate].
  unfold extract_dss_cells. cbv zeta.
  rewrite (bind_ok _ _ r r gnb_name) by (unfold get_item; now rewrite Hname).
  now rewrite bind_find_column_raises by exact (not_readable df z He Hz).
Qed.

Lemma five_g_header_logged_witness :
  dss_stage (Some year_header) None primary_map []
  = (primary_map,
     ["Error extracting DSS cells: 'int' object has no attribute 'lower'"]).
Proof.
  apply (five_g_header_logged year_header None primary_map [] 2024).
  - reflexivity.
  - reflexivity.
  - right. left. reflexivity.
Defined.

(** ** Node IDs that are integers *)

Lemma trunc_nearest_double_exact (p : Z) :
  (0 < p < 2 ^ 53)%Z -> PyStr.trunc_nearest_double p 1 = Ok p.
Proof.
  intros Hp. unfold PyStr.trunc_nearest_double.
  assert (E0 : (p =? 0)%Z = false) by (apply Z.eqb_neq; lia).
  rewrite E0. change (Z.log2 1) with 0%Z. rewrite Z.sub_0_r.
  pose proof (Z.log2_nonneg p) as Hl.
  destruct (Z.log2_spec p ltac:(lia)) as [Hlo Hhi].
  assert (E1 : (0 <=? Z.log2 p)%Z = true) by (apply Z.leb_le; lia).
  cbv zeta. rewrite E1.
  assert (E2 : (p <? 1 * 2 ^ Z.log2 p)%Z = false) by (apply Z.ltb_ge; lia).
  rewrite E2.
  assert (Hl53 : (Z.log2 p < 53)%Z).
  { apply Z.log2_lt_pow2; lia. }
  destruct (0 <=? Z.log2 p - 52)%Z eqn:Es.
  - apply Z.leb_le in Es.
    assert (El : Z.log2 p = 52%Z) by lia. rewrite El in *.
    change (52 - 52)%Z with 0%Z. change (2 ^ 0)%Z with 1%Z.
    rewrite !Z.mul_1_r, Z.div_1_r, Z.mod_1_r.
    change (1 <? 2 * 0)%Z with false. change (2 * 0 =? 1)%Z with false.
    cbv iota.
    assert (E3 : (2 ^ 1024 <=? p)%Z = false).
    { apply Z.leb_gt. assert (2 ^ 53 < 2 ^ 1024)%Z by (apply Z.pow_lt_mono_r; lia).
      lia. }
    now rewrite E3.
  - apply Z.leb_gt in Es.
    rewrite Z.div_1_r, Z.mod_1_r.
    change (1 <? 2 * 0)%Z with false. change (2 * 0 =? 1)%Z with false.
    cbv iota. f_equal. apply Z.div_mul.
    apply Z.pow_nonzero; lia.
Qed.

(** X30: an integer cell of magnitude at most [2^53] goes through
    [int(float(.))] unchanged, so an integer node ID in that range is
    published as it stands in the sheet. *)
Theorem integer_id_unchanged (z : Z) :
  (Z.abs z <= 2 ^ 53)%Z -> py_int_of_float (CInt z) = Ok z.
Proof.
  intros Hz. unfold py_int_of_float, PyStr.trunc_float_of_Z.
  destruct (Z.eq_dec z 0) as [->|Hne]; [reflexivity|].
  destruct (Z.eq_dec (Z.abs z) (2 ^ 53)) as [E|E].
  - rewrite E.
    assert (Hc : PyStr.trunc_nearest_double (2 ^ 53) 1 = Ok (2 ^ 53)%Z)
      by (vm_compute; reflexivity).
    rewrite Hc. cbn [rbind]. f_equal. unfold PyStr.signed.
    destruct (z <? 0)%Z eqn:S; [apply Z.ltb_lt in S | apply Z.ltb_ge in S]; lia.
  - rewrite trunc_nearest_double_exact by lia. cbn [rbind]. f_equal.
    unfold PyStr.signed.
    destruct (z <? 0)%Z eqn:S; [apply Z.ltb_lt in S | apply Z.ltb_ge in S]; lia.
Qed.

Example integer_id_rounded_ex :
  py_int_of_float (CInt 9007199254740993) = Ok 9007199254740992%Z.
Proof. vm_compute. reflexivity. Qed.

Lemma integer_id_unchanged_witness :
  py_int_of_float (CInt 9007199254740992) = Ok 9007199254740992%Z.
Proof. apply integer_id_unchanged. vm_compute. discriminate. Defined.
